(** * Extraction and normalisation pipeline of the invoice handler

    A shallow embedding of the Python back end: the keyword classifier
    ([classifier.py]), the field mapper ([mapping.py]), the Document
    Intelligence client ([azure_di.py]) and the batch driver
    ([src/invoice_handler/pipeline.py]).  Python strings are lists of
    Unicode code points [list N]; the classifier's scores are binary64
    floats ([SpecFloat]); the numbers the mapper copies from the payload
    are rationals [Q]. *)

From Stdlib Require Import List String Ascii Bool ZArith NArith QArith Lia.
From Stdlib Require Import Floats.SpecFloat.
From Stdlib Require DecimalNat Finite.
Import ListNotations.
Set Warnings "-register-all".


Open Scope N_scope.

(** ** Python text *)
Module PyStr.

(** A Python [str]: its sequence of code points. *)
Definition pystr := list N.

(** Code points of an ASCII string literal. *)
Definition of_ascii (s : string) : pystr :=
  map N_of_ascii (list_ascii_of_string s).

(** [str.lower] of CPython 3.11 (Unicode 14.0.0), generated from its
    character database.  The one-to-one case mappings, as runs
    [(lo, hi, step, delta)]: the code points [lo], [lo + step], ... up to
    [hi] map to themselves plus [delta]. *)
Definition lower_runs : list (N * N * N * Z) := [
   (0x41, 0x5A, 1, (32)%Z); (0xC0, 0xD6, 1, (32)%Z); (0xD8, 0xDE, 1, (32)%Z); (0x100, 0x12E, 2, (1)%Z);
   (0x132, 0x136, 2, (1)%Z); (0x139, 0x147, 2, (1)%Z); (0x14A, 0x176, 2, (1)%Z); (0x178, 0x178, 1, (-121)%Z);
   (0x179, 0x17D, 2, (1)%Z); (0x181, 0x181, 1, (210)%Z); (0x182, 0x184, 2, (1)%Z); (0x186, 0x186, 1, (206)%Z);
   (0x187, 0x187, 1, (1)%Z); (0x189, 0x18A, 1, (205)%Z); (0x18B, 0x18B, 1, (1)%Z); (0x18E, 0x18E, 1, (79)%Z);
   (0x18F, 0x18F, 1, (202)%Z); (0x190, 0x190, 1, (203)%Z); (0x191, 0x191, 1, (1)%Z); (0x193, 0x193, 1, (205)%Z);
   (0x194, 0x194, 1, (207)%Z); (0x196, 0x196, 1, (211)%Z); (0x197, 0x197, 1, (209)%Z); (0x198, 0x198, 1, (1)%Z);
   (0x19C, 0x19C, 1, (211)%Z); (0x19D, 0x19D, 1, (213)%Z); (0x19F, 0x19F, 1, (214)%Z); (0x1A0, 0x1A4, 2, (1)%Z);
   (0x1A6, 0x1A6, 1, (218)%Z); (0x1A7, 0x1A7, 1, (1)%Z); (0x1A9, 0x1A9, 1, (218)%Z); (0x1AC, 0x1AC, 1, (1)%Z);
   (0x1AE, 0x1AE, 1, (218)%Z); (0x1AF, 0x1AF, 1, (1)%Z); (0x1B1, 0x1B2, 1, (217)%Z); (0x1B3, 0x1B5, 2, (1)%Z);
   (0x1B7, 0x1B7, 1, (219)%Z); (0x1B8, 0x1B8, 1, (1)%Z); (0x1BC, 0x1BC, 1, (1)%Z); (0x1C4, 0x1C4, 1, (2)%Z);
   (0x1C5, 0x1C5, 1, (1)%Z); (0x1C7, 0x1C7, 1, (2)%Z); (0x1C8, 0x1C8, 1, (1)%Z); (0x1CA, 0x1CA, 1, (2)%Z);
   (0x1CB, 0x1DB, 2, (1)%Z); (0x1DE, 0x1EE, 2, (1)%Z); (0x1F1, 0x1F1, 1, (2)%Z); (0x1F2, 0x1F4, 2, (1)%Z);
   (0x1F6, 0x1F6, 1, (-97)%Z); (0x1F7, 0x1F7, 1, (-56)%Z); (0x1F8, 0x21E, 2, (1)%Z); (0x220, 0x220, 1, (-130)%Z);
   (0x222, 0x232, 2, (1)%Z); (0x23A, 0x23A, 1, (10795)%Z); (0x23B, 0x23B, 1, (1)%Z); (0x23D, 0x23D, 1, (-163)%Z);
   (0x23E, 0x23E, 1, (10792)%Z); (0x241, 0x241, 1, (1)%Z); (0x243, 0x243, 1, (-195)%Z); (0x244, 0x244, 1, (69)%Z);
   (0x245, 0x245, 1, (71)%Z); (0x246, 0x24E, 2, (1)%Z); (0x370, 0x372, 2, (1)%Z); (0x376, 0x376, 1, (1)%Z);
   (0x37F, 0x37F, 1, (116)%Z); (0x386, 0x386, 1, (38)%Z); (0x388, 0x38A, 1, (37)%Z); (0x38C, 0x38C, 1, (64)%Z);
   (0x38E, 0x38F, 1, (63)%Z); (0x391, 0x3A1, 1, (32)%Z); (0x3A4, 0x3AB, 1, (32)%Z); (0x3CF, 0x3CF, 1, (8)%Z);
   (0x3D8, 0x3EE, 2, (1)%Z); (0x3F4, 0x3F4, 1, (-60)%Z); (0x3F7, 0x3F7, 1, (1)%Z); (0x3F9, 0x3F9, 1, (-7)%Z);
   (0x3FA, 0x3FA, 1, (1)%Z); (0x3FD, 0x3FF, 1, (-130)%Z); (0x400, 0x40F, 1, (80)%Z); (0x410, 0x42F, 1, (32)%Z);
   (0x460, 0x480, 2, (1)%Z); (0x48A, 0x4BE, 2, (1)%Z); (0x4C0, 0x4C0, 1, (15)%Z); (0x4C1, 0x4CD, 2, (1)%Z);
   (0x4D0, 0x52E, 2, (1)%Z); (0x531, 0x556, 1, (48)%Z); (0x10A0, 0x10C5, 1, (7264)%Z); (0x10C7, 0x10C7, 1, (7264)%Z);
   (0x10CD, 0x10CD, 1, (7264)%Z); (0x13A0, 0x13EF, 1, (38864)%Z); (0x13F0, 0x13F5, 1, (8)%Z); (0x1C90, 0x1CBA, 1, (-3008)%Z);
   (0x1CBD, 0x1CBF, 1, (-3008)%Z); (0x1E00, 0x1E94, 2, (1)%Z); (0x1E9E, 0x1E9E, 1, (-7615)%Z); (0x1EA0, 0x1EFE, 2, (1)%Z);
   (0x1F08, 0x1F0F, 1, (-8)%Z); (0x1F18, 0x1F1D, 1, (-8)%Z); (0x1F28, 0x1F2F, 1, (-8)%Z); (0x1F38, 0x1F3F, 1, (-8)%Z);
   (0x1F48, 0x1F4D, 1, (-8)%Z); (0x1F59, 0x1F5F, 2, (-8)%Z); (0x1F68, 0x1F6F, 1, (-8)%Z); (0x1F88, 0x1F8F, 1, (-8)%Z);
   (0x1F98, 0x1F9F, 1, (-8)%Z); (0x1FA8, 0x1FAF, 1, (-8)%Z); (0x1FB8, 0x1FB9, 1, (-8)%Z); (0x1FBA, 0x1FBB, 1, (-74)%Z);
   (0x1FBC, 0x1FBC, 1, (-9)%Z); (0x1FC8, 0x1FCB, 1, (-86)%Z); (0x1FCC, 0x1FCC, 1, (-9)%Z); (0x1FD8, 0x1FD9, 1, (-8)%Z);
   (0x1FDA, 0x1FDB, 1, (-100)%Z); (0x1FE8, 0x1FE9, 1, (-8)%Z); (0x1FEA, 0x1FEB, 1, (-112)%Z); (0x1FEC, 0x1FEC, 1, (-7)%Z);
   (0x1FF8, 0x1FF9, 1, (-128)%Z); (0x1FFA, 0x1FFB, 1, (-126)%Z); (0x1FFC, 0x1FFC, 1, (-9)%Z); (0x2126, 0x2126, 1, (-7517)%Z);
   (0x212A, 0x212A, 1, (-8383)%Z); (0x212B, 0x212B, 1, (-8262)%Z); (0x2132, 0x2132, 1, (28)%Z); (0x2160, 0x216F, 1, (16)%Z);
   (0x2183, 0x2183, 1, (1)%Z); (0x24B6, 0x24CF, 1, (26)%Z); (0x2C00, 0x2C2F, 1, (48)%Z); (0x2C60, 0x2C60, 1, (1)%Z);
   (0x2C62, 0x2C62, 1, (-10743)%Z); (0x2C63, 0x2C63, 1, (-3814)%Z); (0x2C64, 0x2C64, 1, (-10727)%Z); (0x2C67, 0x2C6B, 2, (1)%Z);
   (0x2C6D, 0x2C6D, 1, (-10780)%Z); (0x2C6E, 0x2C6E, 1, (-10749)%Z); (0x2C6F, 0x2C6F, 1, (-10783)%Z); (0x2C70, 0x2C70, 1, (-10782)%Z);
   (0x2C72, 0x2C72, 1, (1)%Z); (0x2C75, 0x2C75, 1, (1)%Z); (0x2C7E, 0x2C7F, 1, (-10815)%Z); (0x2C80, 0x2CE2, 2, (1)%Z);
   (0x2CEB, 0x2CED, 2, (1)%Z); (0x2CF2, 0x2CF2, 1, (1)%Z); (0xA640, 0xA66C, 2, (1)%Z); (0xA680, 0xA69A, 2, (1)%Z);
   (0xA722, 0xA72E, 2, (1)%Z); (0xA732, 0xA76E, 2, (1)%Z); (0xA779, 0xA77B, 2, (1)%Z); (0xA77D, 0xA77D, 1, (-35332)%Z);
   (0xA77E, 0xA786, 2, (1)%Z); (0xA78B, 0xA78B, 1, (1)%Z); (0xA78D, 0xA78D, 1, (-42280)%Z); (0xA790, 0xA792, 2, (1)%Z);
   (0xA796, 0xA7A8, 2, (1)%Z); (0xA7AA, 0xA7AA, 1, (-42308)%Z); (0xA7AB, 0xA7AB, 1, (-42319)%Z); (0xA7AC, 0xA7AC, 1, (-42315)%Z);
   (0xA7AD, 0xA7AD, 1, (-42305)%Z); (0xA7AE, 0xA7AE, 1, (-42308)%Z); (0xA7B0, 0xA7B0, 1, (-42258)%Z); (0xA7B1, 0xA7B1, 1, (-42282)%Z);
   (0xA7B2, 0xA7B2, 1, (-42261)%Z); (0xA7B3, 0xA7B3, 1, (928)%Z); (0xA7B4, 0xA7C2, 2, (1)%Z); (0xA7C4, 0xA7C4, 1, (-48)%Z);
   (0xA7C5, 0xA7C5, 1, (-42307)%Z); (0xA7C6, 0xA7C6, 1, (-35384)%Z); (0xA7C7, 0xA7C9, 2, (1)%Z); (0xA7D0, 0xA7D0, 1, (1)%Z);
   (0xA7D6, 0xA7D8, 2, (1)%Z); (0xA7F5, 0xA7F5, 1, (1)%Z); (0xFF21, 0xFF3A, 1, (32)%Z); (0x10400, 0x10427, 1, (40)%Z);
   (0x104B0, 0x104D3, 1, (40)%Z); (0x10570, 0x1057A, 1, (39)%Z); (0x1057C, 0x1058A, 1, (39)%Z); (0x1058C, 0x10592, 1, (39)%Z);
   (0x10594, 0x10595, 1, (39)%Z); (0x10C80, 0x10CB2, 1, (64)%Z); (0x118A0, 0x118BF, 1, (32)%Z); (0x16E40, 0x16E5F, 1, (32)%Z);
   (0x1E900, 0x1E921, 1, (34)%Z)].

(** The case-ignorable code points (Mn, Me, Cf, Lm, Sk and the
    word-break classes MidLetter, MidNumLet and Single_Quote), as ranges. *)
Definition case_ignorable_ranges : list (N * N) := [
   (0x27, 0x27); (0x2E, 0x2E); (0x3A, 0x3A); (0x5E, 0x5E); (0x60, 0x60); (0xA8, 0xA8);
   (0xAD, 0xAD); (0xAF, 0xAF); (0xB4, 0xB4); (0xB7, 0xB8); (0x2B0, 0x36F); (0x374, 0x375);
   (0x37A, 0x37A); (0x384, 0x385); (0x387, 0x387); (0x483, 0x489); (0x559, 0x559); (0x55F, 0x55F);
   (0x591, 0x5BD); (0x5BF, 0x5BF); (0x5C1, 0x5C2); (0x5C4, 0x5C5); (0x5C7, 0x5C7); (0x5F4, 0x5F4);
   (0x600, 0x605); (0x610, 0x61A); (0x61C, 0x61C); (0x640, 0x640); (0x64B, 0x65F); (0x670, 0x670);
   (0x6D6, 0x6DD); (0x6DF, 0x6E8); (0x6EA, 0x6ED); (0x70F, 0x70F); (0x711, 0x711); (0x730, 0x74A);
   (0x7A6, 0x7B0); (0x7EB, 0x7F5); (0x7FA, 0x7FA); (0x7FD, 0x7FD); (0x816, 0x82D); (0x859, 0x85B);
   (0x888, 0x888); (0x890, 0x891); (0x898, 0x89F); (0x8C9, 0x902); (0x93A, 0x93A); (0x93C, 0x93C);
   (0x941, 0x948); (0x94D, 0x94D); (0x951, 0x957); (0x962, 0x963); (0x971, 0x971); (0x981, 0x981);
   (0x9BC, 0x9BC); (0x9C1, 0x9C4); (0x9CD, 0x9CD); (0x9E2, 0x9E3); (0x9FE, 0x9FE); (0xA01, 0xA02);
   (0xA3C, 0xA3C); (0xA41, 0xA42); (0xA47, 0xA48); (0xA4B, 0xA4D); (0xA51, 0xA51); (0xA70, 0xA71);
   (0xA75, 0xA75); (0xA81, 0xA82); (0xABC, 0xABC); (0xAC1, 0xAC5); (0xAC7, 0xAC8); (0xACD, 0xACD);
   (0xAE2, 0xAE3); (0xAFA, 0xAFF); (0xB01, 0xB01); (0xB3C, 0xB3C); (0xB3F, 0xB3F); (0xB41, 0xB44);
   (0xB4D, 0xB4D); (0xB55, 0xB56); (0xB62, 0xB63); (0xB82, 0xB82); (0xBC0, 0xBC0); (0xBCD, 0xBCD);
   (0xC00, 0xC00); (0xC04, 0xC04); (0xC3C, 0xC3C); (0xC3E, 0xC40); (0xC46, 0xC48); (0xC4A, 0xC4D);
   (0xC55, 0xC56); (0xC62, 0xC63); (0xC81, 0xC81); (0xCBC, 0xCBC); (0xCBF, 0xCBF); (0xCC6, 0xCC6);
   (0xCCC, 0xCCD); (0xCE2, 0xCE3); (0xD00, 0xD01); (0xD3B, 0xD3C); (0xD41, 0xD44); (0xD4D, 0xD4D);
   (0xD62, 0xD63); (0xD81, 0xD81); (0xDCA, 0xDCA); (0xDD2, 0xDD4); (0xDD6, 0xDD6); (0xE31, 0xE31);
   (0xE34, 0xE3A); (0xE46, 0xE4E); (0xEB1, 0xEB1); (0xEB4, 0xEBC); (0xEC6, 0xEC6); (0xEC8, 0xECD);
   (0xF18, 0xF19); (0xF35, 0xF35); (0xF37, 0xF37); (0xF39, 0xF39); (0xF71, 0xF7E); (0xF80, 0xF84);
   (0xF86, 0xF87); (0xF8D, 0xF97); (0xF99, 0xFBC); (0xFC6, 0xFC6); (0x102D, 0x1030); (0x1032, 0x1037);
   (0x1039, 0x103A); (0x103D, 0x103E); (0x1058, 0x1059); (0x105E, 0x1060); (0x1071, 0x1074); (0x1082, 0x1082);
   (0x1085, 0x1086); (0x108D, 0x108D); (0x109D, 0x109D); (0x10FC, 0x10FC); (0x135D, 0x135F); (0x1712, 0x1714);
   (0x1732, 0x1733); (0x1752, 0x1753); (0x1772, 0x1773); (0x17B4, 0x17B5); (0x17B7, 0x17BD); (0x17C6, 0x17C6);
   (0x17C9, 0x17D3); (0x17D7, 0x17D7); (0x17DD, 0x17DD); (0x180B, 0x180F); (0x1843, 0x1843); (0x1885, 0x1886);
   (0x18A9, 0x18A9); (0x1920, 0x1922); (0x1927, 0x1928); (0x1932, 0x1932); (0x1939, 0x193B); (0x1A17, 0x1A18);
   (0x1A1B, 0x1A1B); (0x1A56, 0x1A56); (0x1A58, 0x1A5E); (0x1A60, 0x1A60); (0x1A62, 0x1A62); (0x1A65, 0x1A6C);
   (0x1A73, 0x1A7C); (0x1A7F, 0x1A7F); (0x1AA7, 0x1AA7); (0x1AB0, 0x1ACE); (0x1B00, 0x1B03); (0x1B34, 0x1B34);
   (0x1B36, 0x1B3A); (0x1B3C, 0x1B3C); (0x1B42, 0x1B42); (0x1B6B, 0x1B73); (0x1B80, 0x1B81); (0x1BA2, 0x1BA5);
   (0x1BA8, 0x1BA9); (0x1BAB, 0x1BAD); (0x1BE6, 0x1BE6); (0x1BE8, 0x1BE9); (0x1BED, 0x1BED); (0x1BEF, 0x1BF1);
   (0x1C2C, 0x1C33); (0x1C36, 0x1C37); (0x1C78, 0x1C7D); (0x1CD0, 0x1CD2); (0x1CD4, 0x1CE0); (0x1CE2, 0x1CE8);
   (0x1CED, 0x1CED); (0x1CF4, 0x1CF4); (0x1CF8, 0x1CF9); (0x1D2C, 0x1D6A); (0x1D78, 0x1D78); (0x1D9B, 0x1DFF);
   (0x1FBD, 0x1FBD); (0x1FBF, 0x1FC1); (0x1FCD, 0x1FCF); (0x1FDD, 0x1FDF); (0x1FED, 0x1FEF); (0x1FFD, 0x1FFE);
   (0x200B, 0x200F); (0x2018, 0x2019); (0x2024, 0x2024); (0x2027, 0x2027); (0x202A, 0x202E); (0x2060, 0x2064);
   (0x2066, 0x206F); (0x2071, 0x2071); (0x207F, 0x207F); (0x2090, 0x209C); (0x20D0, 0x20F0); (0x2C7C, 0x2C7D);
   (0x2CEF, 0x2CF1); (0x2D6F, 0x2D6F); (0x2D7F, 0x2D7F); (0x2DE0, 0x2DFF); (0x2E2F, 0x2E2F); (0x3005, 0x3005);
   (0x302A, 0x302D); (0x3031, 0x3035); (0x303B, 0x303B); (0x3099, 0x309E); (0x30FC, 0x30FE); (0xA015, 0xA015);
   (0xA4F8, 0xA4FD); (0xA60C, 0xA60C); (0xA66F, 0xA672); (0xA674, 0xA67D); (0xA67F, 0xA67F); (0xA69C, 0xA69F);
   (0xA6F0, 0xA6F1); (0xA700, 0xA721); (0xA770, 0xA770); (0xA788, 0xA78A); (0xA7F2, 0xA7F4); (0xA7F8, 0xA7F9);
   (0xA802, 0xA802); (0xA806, 0xA806); (0xA80B, 0xA80B); (0xA825, 0xA826); (0xA82C, 0xA82C); (0xA8C4, 0xA8C5);
   (0xA8E0, 0xA8F1); (0xA8FF, 0xA8FF); (0xA926, 0xA92D); (0xA947, 0xA951); (0xA980, 0xA982); (0xA9B3, 0xA9B3);
   (0xA9B6, 0xA9B9); (0xA9BC, 0xA9BD); (0xA9CF, 0xA9CF); (0xA9E5, 0xA9E6); (0xAA29, 0xAA2E); (0xAA31, 0xAA32);
   (0xAA35, 0xAA36); (0xAA43, 0xAA43); (0xAA4C, 0xAA4C); (0xAA70, 0xAA70); (0xAA7C, 0xAA7C); (0xAAB0, 0xAAB0);
   (0xAAB2, 0xAAB4); (0xAAB7, 0xAAB8); (0xAABE, 0xAABF); (0xAAC1, 0xAAC1); (0xAADD, 0xAADD); (0xAAEC, 0xAAED);
   (0xAAF3, 0xAAF4); (0xAAF6, 0xAAF6); (0xAB5B, 0xAB5F); (0xAB69, 0xAB6B); (0xABE5, 0xABE5); (0xABE8, 0xABE8);
   (0xABED, 0xABED); (0xFB1E, 0xFB1E); (0xFBB2, 0xFBC2); (0xFE00, 0xFE0F); (0xFE13, 0xFE13); (0xFE20, 0xFE2F);
   (0xFE52, 0xFE52); (0xFE55, 0xFE55); (0xFEFF, 0xFEFF); (0xFF07, 0xFF07); (0xFF0E, 0xFF0E); (0xFF1A, 0xFF1A);
   (0xFF3E, 0xFF3E); (0xFF40, 0xFF40); (0xFF70, 0xFF70); (0xFF9E, 0xFF9F); (0xFFE3, 0xFFE3); (0xFFF9, 0xFFFB);
   (0x101FD, 0x101FD); (0x102E0, 0x102E0); (0x10376, 0x1037A); (0x10780, 0x10785); (0x10787, 0x107B0); (0x107B2, 0x107BA);
   (0x10A01, 0x10A03); (0x10A05, 0x10A06); (0x10A0C, 0x10A0F); (0x10A38, 0x10A3A); (0x10A3F, 0x10A3F); (0x10AE5, 0x10AE6);
   (0x10D24, 0x10D27); (0x10EAB, 0x10EAC); (0x10F46, 0x10F50); (0x10F82, 0x10F85); (0x11001, 0x11001); (0x11038, 0x11046);
   (0x11070, 0x11070); (0x11073, 0x11074); (0x1107F, 0x11081); (0x110B3, 0x110B6); (0x110B9, 0x110BA); (0x110BD, 0x110BD);
   (0x110C2, 0x110C2); (0x110CD, 0x110CD); (0x11100, 0x11102); (0x11127, 0x1112B); (0x1112D, 0x11134); (0x11173, 0x11173);
   (0x11180, 0x11181); (0x111B6, 0x111BE); (0x111C9, 0x111CC); (0x111CF, 0x111CF); (0x1122F, 0x11231); (0x11234, 0x11234);
   (0x11236, 0x11237); (0x1123E, 0x1123E); (0x112DF, 0x112DF); (0x112E3, 0x112EA); (0x11300, 0x11301); (0x1133B, 0x1133C);
   (0x11340, 0x11340); (0x11366, 0x1136C); (0x11370, 0x11374); (0x11438, 0x1143F); (0x11442, 0x11444); (0x11446, 0x11446);
   (0x1145E, 0x1145E); (0x114B3, 0x114B8); (0x114BA, 0x114BA); (0x114BF, 0x114C0); (0x114C2, 0x114C3); (0x115B2, 0x115B5);
   (0x115BC, 0x115BD); (0x115BF, 0x115C0); (0x115DC, 0x115DD); (0x11633, 0x1163A); (0x1163D, 0x1163D); (0x1163F, 0x11640);
   (0x116AB, 0x116AB); (0x116AD, 0x116AD); (0x116B0, 0x116B5); (0x116B7, 0x116B7); (0x1171D, 0x1171F); (0x11722, 0x11725);
   (0x11727, 0x1172B); (0x1182F, 0x11837); (0x11839, 0x1183A); (0x1193B, 0x1193C); (0x1193E, 0x1193E); (0x11943, 0x11943);
   (0x119D4, 0x119D7); (0x119DA, 0x119DB); (0x119E0, 0x119E0); (0x11A01, 0x11A0A); (0x11A33, 0x11A38); (0x11A3B, 0x11A3E);
   (0x11A47, 0x11A47); (0x11A51, 0x11A56); (0x11A59, 0x11A5B); (0x11A8A, 0x11A96); (0x11A98, 0x11A99); (0x11C30, 0x11C36);
   (0x11C38, 0x11C3D); (0x11C3F, 0x11C3F); (0x11C92, 0x11CA7); (0x11CAA, 0x11CB0); (0x11CB2, 0x11CB3); (0x11CB5, 0x11CB6);
   (0x11D31, 0x11D36); (0x11D3A, 0x11D3A); (0x11D3C, 0x11D3D); (0x11D3F, 0x11D45); (0x11D47, 0x11D47); (0x11D90, 0x11D91);
   (0x11D95, 0x11D95); (0x11D97, 0x11D97); (0x11EF3, 0x11EF4); (0x13430, 0x13438); (0x16AF0, 0x16AF4); (0x16B30, 0x16B36);
   (0x16B40, 0x16B43); (0x16F4F, 0x16F4F); (0x16F8F, 0x16F9F); (0x16FE0, 0x16FE1); (0x16FE3, 0x16FE4); (0x1AFF0, 0x1AFF3);
   (0x1AFF5, 0x1AFFB); (0x1AFFD, 0x1AFFE); (0x1BC9D, 0x1BC9E); (0x1BCA0, 0x1BCA3); (0x1CF00, 0x1CF2D); (0x1CF30, 0x1CF46);
   (0x1D167, 0x1D169); (0x1D173, 0x1D182); (0x1D185, 0x1D18B); (0x1D1AA, 0x1D1AD); (0x1D242, 0x1D244); (0x1DA00, 0x1DA36);
   (0x1DA3B, 0x1DA6C); (0x1DA75, 0x1DA75); (0x1DA84, 0x1DA84); (0x1DA9B, 0x1DA9F); (0x1DAA1, 0x1DAAF); (0x1E000, 0x1E006);
   (0x1E008, 0x1E018); (0x1E01B, 0x1E021); (0x1E023, 0x1E024); (0x1E026, 0x1E02A); (0x1E130, 0x1E13D); (0x1E2AE, 0x1E2AE);
   (0x1E2EC, 0x1E2EF); (0x1E8D0, 0x1E8D6); (0x1E944, 0x1E94B); (0x1F3FB, 0x1F3FF); (0xE0001, 0xE0001); (0xE0020, 0xE007F);
   (0xE0100, 0xE01EF)].

(** The cased code points that are not case-ignorable, as ranges: the
    final-sigma rule only asks whether a code point it did not skip as
    case-ignorable is cased. *)
Definition cased_ranges : list (N * N) := [
   (0x41, 0x5A); (0x61, 0x7A); (0xAA, 0xAA); (0xB5, 0xB5); (0xBA, 0xBA); (0xC0, 0xD6);
   (0xD8, 0xF6); (0xF8, 0x1BA); (0x1BC, 0x1BF); (0x1C4, 0x293); (0x295, 0x2AF); (0x370, 0x373);
   (0x376, 0x377); (0x37B, 0x37D); (0x37F, 0x37F); (0x386, 0x386); (0x388, 0x38A); (0x38C, 0x38C);
   (0x38E, 0x3A1); (0x3A3, 0x3F5); (0x3F7, 0x481); (0x48A, 0x52F); (0x531, 0x556); (0x560, 0x588);
   (0x10A0, 0x10C5); (0x10C7, 0x10C7); (0x10CD, 0x10CD); (0x10D0, 0x10FA); (0x10FD, 0x10FF); (0x13A0, 0x13F5);
   (0x13F8, 0x13FD); (0x1C80, 0x1C88); (0x1C90, 0x1CBA); (0x1CBD, 0x1CBF); (0x1D00, 0x1D2B); (0x1D6B, 0x1D77);
   (0x1D79, 0x1D9A); (0x1E00, 0x1F15); (0x1F18, 0x1F1D); (0x1F20, 0x1F45); (0x1F48, 0x1F4D); (0x1F50, 0x1F57);
   (0x1F59, 0x1F59); (0x1F5B, 0x1F5B); (0x1F5D, 0x1F5D); (0x1F5F, 0x1F7D); (0x1F80, 0x1FB4); (0x1FB6, 0x1FBC);
   (0x1FBE, 0x1FBE); (0x1FC2, 0x1FC4); (0x1FC6, 0x1FCC); (0x1FD0, 0x1FD3); (0x1FD6, 0x1FDB); (0x1FE0, 0x1FEC);
   (0x1FF2, 0x1FF4); (0x1FF6, 0x1FFC); (0x2102, 0x2102); (0x2107, 0x2107); (0x210A, 0x2113); (0x2115, 0x2115);
   (0x2119, 0x211D); (0x2124, 0x2124); (0x2126, 0x2126); (0x2128, 0x2128); (0x212A, 0x212D); (0x212F, 0x2134);
   (0x2139, 0x2139); (0x213C, 0x213F); (0x2145, 0x2149); (0x214E, 0x214E); (0x2160, 0x217F); (0x2183, 0x2184);
   (0x24B6, 0x24E9); (0x2C00, 0x2C7B); (0x2C7E, 0x2CE4); (0x2CEB, 0x2CEE); (0x2CF2, 0x2CF3); (0x2D00, 0x2D25);
   (0x2D27, 0x2D27); (0x2D2D, 0x2D2D); (0xA640, 0xA66D); (0xA680, 0xA69B); (0xA722, 0xA76F); (0xA771, 0xA787);
   (0xA78B, 0xA78E); (0xA790, 0xA7CA); (0xA7D0, 0xA7D1); (0xA7D3, 0xA7D3); (0xA7D5, 0xA7D9); (0xA7F5, 0xA7F6);
   (0xA7FA, 0xA7FA); (0xAB30, 0xAB5A); (0xAB60, 0xAB68); (0xAB70, 0xABBF); (0xFB00, 0xFB06); (0xFB13, 0xFB17);
   (0xFF21, 0xFF3A); (0xFF41, 0xFF5A); (0x10400, 0x1044F); (0x104B0, 0x104D3); (0x104D8, 0x104FB); (0x10570, 0x1057A);
   (0x1057C, 0x1058A); (0x1058C, 0x10592); (0x10594, 0x10595); (0x10597, 0x105A1); (0x105A3, 0x105B1); (0x105B3, 0x105B9);
   (0x105BB, 0x105BC); (0x10C80, 0x10CB2); (0x10CC0, 0x10CF2); (0x118A0, 0x118DF); (0x16E40, 0x16E7F); (0x1D400, 0x1D454);
   (0x1D456, 0x1D49C); (0x1D49E, 0x1D49F); (0x1D4A2, 0x1D4A2); (0x1D4A5, 0x1D4A6); (0x1D4A9, 0x1D4AC); (0x1D4AE, 0x1D4B9);
   (0x1D4BB, 0x1D4BB); (0x1D4BD, 0x1D4C3); (0x1D4C5, 0x1D505); (0x1D507, 0x1D50A); (0x1D50D, 0x1D514); (0x1D516, 0x1D51C);
   (0x1D51E, 0x1D539); (0x1D53B, 0x1D53E); (0x1D540, 0x1D544); (0x1D546, 0x1D546); (0x1D54A, 0x1D550); (0x1D552, 0x1D6A5);
   (0x1D6A8, 0x1D6C0); (0x1D6C2, 0x1D6DA); (0x1D6DC, 0x1D6FA); (0x1D6FC, 0x1D714); (0x1D716, 0x1D734); (0x1D736, 0x1D74E);
   (0x1D750, 0x1D76E); (0x1D770, 0x1D788); (0x1D78A, 0x1D7A8); (0x1D7AA, 0x1D7C2); (0x1D7C4, 0x1D7CB); (0x1DF00, 0x1DF09);
   (0x1DF0B, 0x1DF1E); (0x1E900, 0x1E943); (0x1F130, 0x1F149); (0x1F150, 0x1F169); (0x1F170, 0x1F189)].

Definition in_ranges (rs : list (N * N)) (c : N) : bool :=
  existsb (fun r => (fst r <=? c) && (c <=? snd r)) rs.

Definition case_ignorable (c : N) : bool := in_ranges case_ignorable_ranges c.
Definition cased (c : N) : bool := in_ranges cased_ranges c.

Fixpoint run_lookup (rs : list (N * N * N * Z)) (c : N) : N :=
  match rs with
  | [] => c
  | (lo, hi, step, d) :: rs' =>
    if (lo <=? c) && (c <=? hi) && (N.modulo (c - lo) step =? 0)
    then Z.to_N (Z.of_N c + d) else run_lookup rs' c
  end.

(** [_PyUnicode_ToLowerFull]: U+0130 is the one code point whose lower
    case has two code points. *)
Definition lower_full (c : N) : pystr :=
  if c =? 0x130 then [0x69; 0x307] else [run_lookup lower_runs c].

Fixpoint skip_ignorable (s : pystr) : pystr :=
  match s with
  | c :: s' => if case_ignorable c then skip_ignorable s' else s
  | [] => []
  end.

(** [handle_capital_sigma]: a capital sigma is final when, skipping
    case-ignorable code points, a cased one precedes it and no cased one
    follows it. *)
Definition final_sigma (before_rev after : pystr) : bool :=
  match skip_ignorable before_rev with
  | c :: _ =>
    cased c && match skip_ignorable after with
               | [] => true
               | c' :: _ => negb (cased c')
               end
  | [] => false
  end.

Fixpoint lower_aux (before_rev s : pystr) : pystr :=
  match s with
  | [] => []
  | c :: s' =>
    (if c =? 0x3A3 then [if final_sigma before_rev s' then 0x3C2 else 0x3C3]
     else lower_full c) ++ lower_aux (c :: before_rev) s'
  end.

(** [s.lower()] *)
Definition lower (s : pystr) : pystr := lower_aux [] s.

Fixpoint prefixb (p s : pystr) : bool :=
  match p, s with
  | [], _ => true
  | _ :: _, [] => false
  | a :: p', b :: s' => (a =? b) && prefixb p' s'
  end.

(** Python's [k in s] for two strings: [k] is a substring of [s]. *)
Fixpoint contains (s k : pystr) : bool :=
  prefixb k s || match s with [] => false | _ :: s' => contains s' k end.

End PyStr.

(** ** Python [float]: IEEE 754 binary64 *)
Module PyFloat.

Definition float := spec_float.
Definition fprec : Z := 53%Z.
Definition femax : Z := 1024%Z.

Definition fadd (x y : float) : float := SFadd fprec femax x y.
Definition fmul (x y : float) : float := SFmul fprec femax x y.
Definition fdiv (x y : float) : float := SFdiv fprec femax x y.
Definition fltb (x y : float) : bool := SFltb x y.
Definition fleb (x y : float) : bool := SFleb x y.

(** [float(n)] for an [int] [n], rounded to nearest, ties to even. *)
Definition float_of_int (n : Z) : float := binary_normalize fprec femax n 0 false.

(** The decimal literal [n / 10^k]: the binary64 value nearest to it,
    which is the correctly rounded quotient of the two exact integers. *)
Definition float_lit (n : Z) (k : nat) : float :=
  fdiv (float_of_int n) (float_of_int (10 ^ Z.of_nat k)).

Definition f0_0 := float_lit 0 1.
Definition f0_2 := float_lit 2 1.
Definition f0_3 := float_lit 3 1.
Definition f0_4 := float_lit 4 1.
Definition f0_45 := float_lit 45 2.
Definition f0_6 := float_lit 6 1.
Definition f0_8 := float_lit 8 1.
Definition f1_0 := float_lit 10 1.

End PyFloat.

(** ** [classifier.py] *)
Module Classifier.
Import PyStr PyFloat.

Inductive DocType := invoice | receipt | other | uncertain.

Definition kw_receipt : pystr := of_ascii "receipt".
Definition kw_sales_receipt : pystr := of_ascii "sales receipt".
(** "קבלה" *)
Definition kw_kabala : pystr := [0x5E7; 0x5D1; 0x5DC; 0x5D4].
(** "חשבונית" *)
Definition kw_heshbonit : pystr := [0x5D7; 0x5E9; 0x5D1; 0x5D5; 0x5E0; 0x5D9; 0x5EA].
(** "מס" *)
Definition kw_mas : pystr := [0x5DE; 0x5E1].

Definition RECEIPT_KEYWORDS : list pystr :=
  [kw_receipt; kw_sales_receipt; kw_kabala].

Definition INVOICE_KEYWORDS : list pystr :=
  [of_ascii "invoice";
   of_ascii "tax invoice";
   kw_heshbonit;
   kw_heshbonit ++ [0x20] ++ kw_mas;
   kw_heshbonit ++ [0x20] ++ kw_mas ++ [0x20] ++ kw_kabala;
   (* "חשבון" *)
   [0x5D7; 0x5E9; 0x5D1; 0x5D5; 0x5DF]].

(** The alternatives of the regular expression
    [total|subtotal|tax|amount|סך|סה"כ|מע"מ]. *)
Definition GENERIC_SIGNALS : list pystr :=
  [of_ascii "total"; of_ascii "subtotal"; of_ascii "tax"; of_ascii "amount";
   [0x5E1; 0x5DA];
   [0x5E1; 0x5D4; 0x22; 0x5DB];
   [0x5DE; 0x5E2; 0x22; 0x5DE]].

(** [sum(1 for k in KEYWORDS if k in lower)] *)
Definition hits (kws : list pystr) (lower_text : pystr) : nat :=
  List.length (filter (contains lower_text) kws).

(** [min(1.0, x)]: [x] when [x < 1.0], else [1.0]. *)
Definition min1 (x : float) : float := if fltb x f1_0 then x else f1_0.

(** [0.4 + 0.2 * hits] *)
Definition hit_score (n : nat) : float :=
  fadd f0_4 (fmul f0_2 (float_of_int (Z.of_nat n))).

Definition classify_text (text : pystr) : DocType * float :=
  match text with
  | [] => (uncertain, f0_0)
  | _ =>
    let low := lower text in
    let receipt_hits := hits RECEIPT_KEYWORDS low in
    let invoice_hits := hits INVOICE_KEYWORDS low in
    let total := (receipt_hits + invoice_hits)%nat in
    if Nat.eqb total 0 then
      if existsb (contains low) GENERIC_SIGNALS then (uncertain, f0_4)
      else (other, f0_3)
    else if Nat.ltb invoice_hits receipt_hits && Nat.leb 1 receipt_hits then
      (receipt, min1 (hit_score receipt_hits))
    else if Nat.ltb receipt_hits invoice_hits && Nat.leb 1 invoice_hits then
      (invoice, min1 (hit_score invoice_hits))
    else (uncertain, f0_45)
  end.

End Classifier.

(** ** Parsed JSON payloads, as the Python code sees them after [json.loads]

    JSON [null] is Python's [None]; objects are association lists with
    unique keys, in their insertion order. *)
Module Json.
Import PyStr.

Inductive json :=
| JNull
| JBool (b : bool)
| JNum (q : Q)
| JStr (s : pystr)
| JArr (l : list json)
| JObj (kvs : list (pystr * json)).

Fixpoint pystr_eqb (a b : pystr) : bool :=
  match a, b with
  | [], [] => true
  | x :: a', y :: b' => (x =? y) && pystr_eqb a' b'
  | _, _ => false
  end.

Definition lookup {V} (kvs : list (pystr * V)) (k : pystr) : option V :=
  match find (fun kv => pystr_eqb (fst kv) k) kvs with
  | Some kv => Some (snd kv)
  | None => None
  end.

(** [d.get(k, default)] on a dict. *)
Definition get_d (kvs : list (pystr * json)) (k : string) (default : json) : json :=
  match lookup kvs (of_ascii k) with Some v => v | None => default end.

(** [d.get(k)] on a dict. *)
Definition get (kvs : list (pystr * json)) (k : string) : json := get_d kvs k JNull.

(** [k in d] on a dict. *)
Definition has_key (kvs : list (pystr * json)) (k : string) : bool :=
  match lookup kvs (of_ascii k) with Some _ => true | None => false end.

(** Python truthiness. *)
Definition truthy (v : json) : bool :=
  match v with
  | JNull => false
  | JBool b => b
  | JNum q => negb (Qeq_bool q 0)
  | JStr s => negb (Nat.eqb (List.length s) 0)
  | JArr l => negb (Nat.eqb (List.length l) 0)
  | JObj kvs => negb (Nat.eqb (List.length kvs) 0)
  end.

(** The numeric value of a Python number ([bool] is a subclass of [int]). *)
Definition num (v : json) : option Q :=
  match v with
  | JBool b => Some (if b then 1%Q else 0%Q)
  | JNum q => Some q
  | _ => None
  end.

(** Values usable as dict keys. *)
Definition hashable (v : json) : bool :=
  match v with JArr _ | JObj _ => false | _ => true end.

(** [==] between two hashable keys: numbers (and booleans) by value. *)
Definition key_eqb (a b : json) : bool :=
  match num a, num b with
  | Some x, Some y => Qeq_bool x y
  | Some _, None | None, Some _ => false
  | None, None =>
    match a, b with
    | JNull, JNull => true
    | JStr s, JStr t => pystr_eqb s t
    | _, _ => false
    end
  end.

(** A dict with JSON keys: [d[k]] lookup and [d[k] = v] assignment (an
    existing key keeps its position and gets the new value). *)
Definition jlookup {V} (k : json) (d : list (json * V)) : option V :=
  match find (fun kv => key_eqb (fst kv) k) d with
  | Some kv => Some (snd kv)
  | None => None
  end.

Fixpoint jset {V} (k : json) (v : V) (d : list (json * V)) : list (json * V) :=
  match d with
  | [] => [(k, v)]
  | (k', v') :: d' => if key_eqb k' k then (k', v) :: d' else (k', v') :: jset k v d'
  end.

(** [d[k] = v] on a dict with string keys. *)
Fixpoint sset {V} (k : pystr) (v : V) (d : list (pystr * V)) : list (pystr * V) :=
  match d with
  | [] => [(k, v)]
  | (k', v') :: d' => if pystr_eqb k' k then (k', v) :: d' else (k', v') :: sset k v d'
  end.

Definition skey_in {V} (k : pystr) (d : list (pystr * V)) : bool :=
  match lookup d k with Some _ => true | None => false end.

End Json.

(** ** Python exceptions: a computation either returns or raises. *)
Module Exc.

Inductive Result (A : Type) := Ret (a : A) | Raise.
Arguments Ret {A} a.
Arguments Raise {A}.

Definition bind {A B} (m : Result A) (k : A -> Result B) : Result B :=
  match m with Ret a => k a | Raise => Raise end.

Notation "'let*' x := m 'in' k" := (bind m (fun x => k))
  (at level 200, x name, m at level 100, k at level 200).

Fixpoint mapM {A B} (f : A -> Result B) (l : list A) : Result (list B) :=
  match l with
  | [] => Ret []
  | a :: l' => let* b := f a in let* bs := mapM f l' in Ret (b :: bs)
  end.

End Exc.

(** ** [models.py] *)
Module Models.
Import PyStr Json.

Record BoundingBox := mkBoundingBox {
  polygon : list (Q * Q);
  page_number : json }.

Record LineItem := mkLineItem {
  description : json;
  quantity : option Q;
  unit_price : option Q;
  line_total : option Q }.

(** [InvoiceData].  pydantic's validation of the field types is not
    modelled: string-typed fields keep the JSON value they were given. *)
Record InvoiceData := mkInvoiceData {
  file_name : pystr;
  source_path : pystr;
  file_url : option pystr;
  language : pystr;
  document_type : pystr;
  supplier_name : json;
  invoice_number : json;
  invoice_date : option pystr;
  currency : json;
  subtotal : option Q;
  tax_amount : option Q;
  total : option Q;
  line_items : option (list LineItem);
  confidence : option Q;
  bounding_boxes : option (list (pystr * BoundingBox));
  page_count : option nat;
  field_confidence : option (list (pystr * json)) }.

End Models.

(** ** [mapping.py] *)
Module Mapping.
Import PyStr Json Exc Models.

(** [_get_page_dimensions]'s result: page number -> (width, height). *)
Definition page_dims_t := list (json * (json * json)).

Definition default_dims : page_dims_t := [(JNum 1, (JNum 1, JNum 1))].

(** The body of [for page in pages]: [page.get] raises on a non-dict,
    [page_dims[page_number] = ...] raises on an unhashable key. *)
Fixpoint fold_pages (pages : list json) (acc : page_dims_t) : Result page_dims_t :=
  match pages with
  | [] => Ret acc
  | page :: rest =>
    match page with
    | JObj pk =>
      let page_number := get_d pk "pageNumber" (JNum 1) in
      let width := get_d pk "width" (JNum 1) in
      let height := get_d pk "height" (JNum 1) in
      if hashable page_number
      then fold_pages rest (jset page_number (width, height) acc)
      else Raise
    | _ => Raise
    end
  end.

(** [_get_page_dimensions]: iterating a non-list [pages] either raises or
    (empty dict or string) yields no page; any exception, and an empty
    result, give [{1: (1, 1)}]. *)
Definition _get_page_dimensions (di : list (pystr * json)) : page_dims_t :=
  match get_d di "pages" (JArr []) with
  | JArr pages =>
    match fold_pages pages [] with
    | Ret [] => default_dims
    | Ret page_dims => page_dims
    | Raise => default_dims
    end
  | _ => default_dims
  end.

(** [_get_page_count]: [len(pages) if pages else 1], 1 on a [len] error. *)
Definition _get_page_count (di : list (pystr * json)) : nat :=
  match get_d di "pages" (JArr []) with
  | JArr l => match l with [] => 1 | _ => List.length l end
  | JObj l => match l with [] => 1 | _ => List.length l end
  | JStr l => match l with [] => 1 | _ => List.length l end
  | _ => 1
  end.

(** [[[polygon[i] / page_width, polygon[i+1] / page_height] for i in
    range(0, len(polygon), 2)]]; [None] when it raises: a non-numeric
    entry, an odd length (IndexError) or a zero dimension. *)
Fixpoint pair_points (poly : list json) (w h : Q) : option (list (Q * Q)) :=
  match poly with
  | [] => Some []
  | [_] => None
  | x :: y :: rest =>
    match num x, num y with
    | Some a, Some b =>
      if Qeq_bool w 0 || Qeq_bool h 0 then None
      else option_map (cons (a / w, b / h)%Q) (pair_points rest w h)
    | _, _ => None
    end
  end.

(** [_extract_bounding_box]; every exception is caught and gives [None].
    A non-list [polygon] of length at least 8 fails on indexing or on the
    division, a non-list [boundingRegions] on [[0]] or [len]. *)
Definition _extract_bounding_box (field : json) (page_dims : page_dims_t)
    : option BoundingBox :=
  match field with
  | JObj fk =>
    let bounding_regions := get_d fk "boundingRegions" (JArr []) in
    if negb (truthy bounding_regions) then None else
    match bounding_regions with
    | JArr (region :: _) =>
      match region with
      | JObj rk =>
        let poly := get_d rk "polygon" (JArr []) in
        let page_number := get_d rk "pageNumber" (JNum 1) in
        if negb (truthy poly) then None else
        match poly with
        | JArr pl =>
          if Nat.ltb (List.length pl) 8 then None
          else if negb (hashable page_number) then None
          else match jlookup page_number page_dims with
               | None => None
               | Some (wj, hj) =>
                 match num wj, num hj with
                 | Some page_width, Some page_height =>
                   option_map (fun pts => mkBoundingBox pts page_number)
                              (pair_points pl page_width page_height)
                 | _, _ => None
                 end
               end
        | _ => None
        end
      | _ => None
      end
    | _ => None
    end
  | _ => None
  end.

(** [_extract_field_confidence]: [field.get("confidence")] on a dict. *)
Definition _extract_field_confidence (field : json) : json :=
  match field with JObj fk => get fk "confidence" | _ => JNull end.

Section Conversions.
(** [float(s)] on a string ([None] when it raises ValueError). *)
Variable float_of_str : pystr -> option Q.
(** [dateparser.parse(str(v)).date().isoformat()] ([None] on error). *)
Variable parse_date_str : json -> option pystr.

Definition _safe_float (v : json) : option Q :=
  match v with
  | JNull => None
  | JBool b => Some (if b then 1%Q else 0%Q)
  | JNum q => Some q
  | JStr s => float_of_str s
  | _ => None
  end.

Definition _parse_date (v : json) : option pystr :=
  if truthy v then parse_date_str v else None.

(** The local helper [get_currency_value] of both mappers. *)
Definition get_currency_value (field : json) : Result (option Q * json) :=
  match field with
  | JObj fk =>
    let currency_obj := get_d fk "valueCurrency" (JObj []) in
    if truthy currency_obj then
      match currency_obj with
      | JObj ck => Ret (_safe_float (get ck "amount"), get ck "currencyCode")
      | _ => Raise
      end
    else Ret (_safe_float (get fk "valueNumber"), JNull)
  | _ => Ret (None, JNull)
  end.

(** [(d.get(k, {}) or {}).get(sub) if isinstance(d.get(k), dict) else None] *)
Definition sub_get (d : list (pystr * json)) (k sub : string) : json :=
  match get d k with JObj sk => get sk sub | _ => JNull end.

(** One entry of the [Items] loop; [price] and [amount] are the names
    of the unit-price and line-total sub-fields. *)
Definition map_item (price amount : string) (it : json)
    : Result (option LineItem) :=
  match it with
  | JObj ik =>
    match get_d ik "valueObject" (JObj []) with
    | JObj obj =>
      let desc := sub_get obj "Description" "valueString" in
      let quantity := _safe_float (sub_get obj "Quantity" "valueNumber") in
      let* up := get_currency_value (get_d obj price (JObj [])) in
      let* lt := get_currency_value (get_d obj amount (JObj [])) in
      Ret (if truthy desc then Some (mkLineItem desc quantity (fst up) (fst lt))
           else None)
    | _ => Raise
    end
  | _ => Raise
  end.

(** [for it in (fields.get("Items", {}).get("valueArray", []) if
    isinstance(fields.get("Items"), dict) else [])]. *)
Definition map_items (price amount : string) (fields : list (pystr * json))
    : Result (list LineItem) :=
  let src := match get fields "Items" with
             | JObj ik => get_d ik "valueArray" (JArr [])
             | _ => JArr []
             end in
  let* its := match src with
              | JArr l => Ret l
              | JObj [] | JStr [] => Ret []
              | _ => Raise
              end in
  let* mapped := mapM (map_item price amount) its in
  Ret (flat_map (fun o => match o with Some x => [x] | None => [] end) mapped).

(** [fields = di.get("documents", [{}])[0].get("fields", {}) if
    di.get("documents") else di.get("fields", {})]; the later
    [fields.get] calls raise unless it is a dict. *)
Definition get_fields (di : list (pystr * json)) : Result (list (pystr * json)) :=
  let* f := if truthy (get di "documents") then
              match get di "documents" with
              | JArr (JObj d :: _) => Ret (get_d d "fields" (JObj []))
              | _ => Raise
              end
            else Ret (get_d di "fields" (JObj [])) in
  match f with JObj kvs => Ret kvs | _ => Raise end.

(** The canonical field names. *)
Definition c_supplier_name := of_ascii "supplier_name".
Definition c_invoice_number := of_ascii "invoice_number".
Definition c_invoice_date := of_ascii "invoice_date".
Definition c_subtotal := of_ascii "subtotal".
Definition c_tax_amount := of_ascii "tax_amount".
Definition c_total := of_ascii "total".

(** [field_mapping] of [map_receipt], in dict order. *)
Definition receipt_field_mapping : list (pystr * pystr) :=
  [(of_ascii "MerchantName", c_supplier_name);
   (of_ascii "TransactionDate", c_invoice_date);
   (of_ascii "Subtotal", c_subtotal);
   (of_ascii "TotalTax", c_tax_amount);
   (of_ascii "Tax", c_tax_amount);
   (of_ascii "Total", c_total)].

(** [field_mapping] of [map_invoice], in dict order. *)
Definition invoice_field_mapping : list (pystr * pystr) :=
  [(of_ascii "VendorName", c_supplier_name);
   (of_ascii "CustomerName", c_supplier_name);
   (of_ascii "InvoiceId", c_invoice_number);
   (of_ascii "InvoiceNumber", c_invoice_number);
   (of_ascii "InvoiceDate", c_invoice_date);
   (of_ascii "SubTotal", c_subtotal);
   (of_ascii "TotalTax", c_tax_amount);
   (of_ascii "InvoiceTotal", c_total)].

Definition boxes_t := list (pystr * BoundingBox).
Definition confs_t := list (pystr * json).

(** The confidence half of one loop iteration, the same in both mappers:
    [if our_field_name not in field_confidences: ...]. *)
Definition conf_step (fv : json) (our : pystr) (fc : confs_t) : confs_t :=
  if skey_in our fc then fc
  else match _extract_field_confidence fv with
       | JNull => fc
       | conf => sset our conf fc
       end.

(** One iteration of [map_receipt]'s loop: the bounding box is stored
    whenever one is extracted. *)
Definition receipt_step (fields : list (pystr * json)) (page_dims : page_dims_t)
    (st : boxes_t * confs_t) (m : pystr * pystr) : boxes_t * confs_t :=
  let (bb, fc) := st in
  let (azure, our) := m in
  match lookup fields azure with
  | None => (bb, fc)
  | Some fv =>
    let bb' := match _extract_bounding_box fv page_dims with
               | Some bbox => sset our bbox bb
               | None => bb
               end in
    (bb', conf_step fv our fc)
  end.

(** One iteration of [map_invoice]'s loop: [if our_field_name not in
    bounding_boxes] guards the bounding box as well. *)
Definition invoice_step (fields : list (pystr * json)) (page_dims : page_dims_t)
    (st : boxes_t * confs_t) (m : pystr * pystr) : boxes_t * confs_t :=
  let (bb, fc) := st in
  let (azure, our) := m in
  match lookup fields azure with
  | None => (bb, fc)
  | Some fv =>
    let bb' := if skey_in our bb then bb
               else match _extract_bounding_box fv page_dims with
                    | Some bbox => sset our bbox bb
                    | None => bb
                    end in
    (bb', conf_step fv our fc)
  end.

Definition nonempty_or_none {A} (l : list A) : option (list A) :=
  match l with [] => None | _ => Some l end.

(** [_safe_float(di.get("confidence")) or None] *)
Definition doc_confidence (di : list (pystr * json)) : option Q :=
  match _safe_float (get di "confidence") with
  | Some q => if Qeq_bool q 0 then None else Some q
  | None => None
  end.

Definition map_receipt (di : json) (file_name source_path language : pystr)
    (file_url : option pystr) : Result InvoiceData :=
  match di with
  | JObj dk =>
    let* fields := get_fields dk in
    let* items := map_items "Price" "TotalPrice" fields in
    let* sub := get_currency_value (get_d fields "Subtotal" (JObj [])) in
    let* tax0 := get_currency_value (get_d fields "TotalTax" (JObj [])) in
    let* tax_val := match fst tax0 with
                    | None => let* t := get_currency_value (get_d fields "Tax" (JObj [])) in
                              Ret (fst t)
                    | Some _ => Ret (fst tax0)
                    end in
    let* tot := get_currency_value (get_d fields "Total" (JObj [])) in
    let* currency_code :=
      if truthy (snd tot) then Ret (snd tot)
      else let* s := get_currency_value (get_d fields "Subtotal" (JObj [])) in
           Ret (snd s) in
    let page_dims := _get_page_dimensions dk in
    let page_count := _get_page_count dk in
    let (bb, fc) := fold_left (receipt_step fields page_dims)
                              receipt_field_mapping ([], []) in
    Ret {| file_name := file_name; source_path := source_path;
           file_url := file_url; language := language;
           document_type := of_ascii "receipt";
           supplier_name := sub_get fields "MerchantName" "valueString";
           invoice_number := JNull;
           invoice_date := _parse_date (sub_get fields "TransactionDate" "valueDate");
           currency := currency_code;
           subtotal := fst sub; tax_amount := tax_val; total := fst tot;
           line_items := nonempty_or_none items;
           confidence := doc_confidence dk;
           bounding_boxes := nonempty_or_none bb;
           page_count := Some page_count;
           field_confidence := nonempty_or_none fc |}
  | _ => Raise
  end.

(** The debug loop at the top of [map_invoice]: for a dict field whose
    [valueString], [valueNumber] and [valueDate] are all falsy,
    [field_data.get('valueCurrency', {}).get('amount')] raises unless
    [valueCurrency] is a dict. *)
Definition debug_field_ok (fd : json) : bool :=
  match fd with
  | JObj k =>
    if truthy (get k "valueString") || truthy (get k "valueNumber")
       || truthy (get k "valueDate") then true
    else match get_d k "valueCurrency" (JObj []) with JObj _ => true | _ => false end
  | _ => true
  end.

(** [(fields.get(a, {}) or {}).get("valueString") if isinstance(fields.get(a), dict)
    else (fields.get(b, {}) or {}).get("valueString") if isinstance(fields.get(b), dict)
    else None] *)
Definition first_string (fields : list (pystr * json)) (a b : string) : json :=
  match get fields a with
  | JObj ak => get ak "valueString"
  | _ => sub_get fields b "valueString"
  end.

Definition map_invoice (di : json) (file_name source_path language : pystr)
    (file_url : option pystr) : Result InvoiceData :=
  match di with
  | JObj dk =>
    let* fields := get_fields dk in
    let* _ := if forallb (fun kv => debug_field_ok (snd kv)) fields
              then Ret tt else Raise in
    let* items := map_items "UnitPrice" "Amount" fields in
    let* sub := get_currency_value (get_d fields "SubTotal" (JObj [])) in
    let* tax := get_currency_value (get_d fields "TotalTax" (JObj [])) in
    let* tot := get_currency_value (get_d fields "InvoiceTotal" (JObj [])) in
    let* currency_code :=
      if truthy (snd tot) then Ret (snd tot)
      else let* s := get_currency_value (get_d fields "SubTotal" (JObj [])) in
           Ret (snd s) in
    let page_dims := _get_page_dimensions dk in
    let page_count := _get_page_count dk in
    let (bb, fc) := fold_left (invoice_step fields page_dims)
                              invoice_field_mapping ([], []) in
    Ret {| file_name := file_name; source_path := source_path;
           file_url := file_url; language := language;
           document_type := of_ascii "invoice";
           supplier_name := first_string fields "VendorName" "CustomerName";
           invoice_number := first_string fields "InvoiceId" "InvoiceNumber";
           invoice_date := _parse_date (sub_get fields "InvoiceDate" "valueDate");
           currency := currency_code;
           subtotal := fst sub; tax_amount := fst tax; total := fst tot;
           line_items := nonempty_or_none items;
           confidence := doc_confidence dk;
           bounding_boxes := nonempty_or_none bb;
           page_count := Some page_count;
           field_confidence := nonempty_or_none fc |}
  | _ => Raise
  end.

End Conversions.

End Mapping.

(** ** [azure_di.py]: the analysis client

    The network is a queue of responses, consumed one per HTTP request
    (submit or poll); the state also logs every [asyncio.sleep]. *)
Module Gateway.
Import PyStr Json.

Record Resp := mkResp {
  status_code : Z;
  retry_after : option pystr;    (** the [Retry-After] header *)
  op_location : option pystr;    (** the [Operation-Location] header *)
  body : option json }.          (** [None]: the body is not JSON *)

Inductive Exn :=
| HTTPStatusError (response : Resp)
| ValueError
| TimeoutError
| RuntimeError
| TransportError
| OtherError.

Record St := mkSt { pending : list Resp; slept : list Z }.

Inductive Out (A : Type) := Val (a : A) | Err (e : Exn).
Arguments Val {A} a.
Arguments Err {A} e.

(** A small state and exception monad. *)
Definition M (A : Type) := St -> Out A * St.

Definition ret {A} (a : A) : M A := fun s => (Val a, s).
Definition throw {A} (e : Exn) : M A := fun s => (Err e, s).
Definition bind {A B} (m : M A) (k : A -> M B) : M B :=
  fun s => match m s with
           | (Val a, s') => k a s'
           | (Err e, s') => (Err e, s')
           end.

Notation "x <- m ;; k" := (bind m (fun x => k))
  (at level 61, m at next level, right associativity).
Notation "m ;;; k" := (bind m (fun _ => k))
  (at level 61, right associativity).

(** One HTTP request: the next response of the queue; an exhausted queue
    stands for a transport failure. *)
Definition http : M Resp :=
  fun s => match pending s with
           | r :: rs => (Val r, mkSt rs (slept s))
           | [] => (Err TransportError, s)
           end.

Definition sleep (n : Z) : M unit :=
  fun s => (Val tt, mkSt (pending s) (slept s ++ [n])).

Definition is_2xx (c : Z) : bool := ((200 <=? c) && (c <=? 299))%Z.

(** httpx's [raise_for_status]: every non-2xx status raises. *)
Definition raise_for_status (r : Resp) : M unit :=
  if is_2xx (status_code r) then ret tt else throw (HTTPStatusError r).

(** The code points [str.isspace] holds for. *)
Definition whitespace_cps : pystr := [
   0x9; 0xA; 0xB; 0xC; 0xD; 0x1C; 0x1D; 0x1E; 0x1F; 0x20;
   0x85; 0xA0; 0x1680; 0x2000; 0x2001; 0x2002; 0x2003; 0x2004; 0x2005; 0x2006;
   0x2007; 0x2008; 0x2009; 0x200A; 0x2028; 0x2029; 0x202F; 0x205F; 0x3000].

(** The code points of digit 0 of every run of ten decimal digits
    (Unicode category Nd). *)
Definition decimal_zeros : pystr := [
   0x30; 0x660; 0x6F0; 0x7C0; 0x966; 0x9E6; 0xA66; 0xAE6; 0xB66; 0xBE6;
   0xC66; 0xCE6; 0xD66; 0xDE6; 0xE50; 0xED0; 0xF20; 0x1040; 0x1090; 0x17E0;
   0x1810; 0x1946; 0x19D0; 0x1A80; 0x1A90; 0x1B50; 0x1BB0; 0x1C40; 0x1C50; 0xA620;
   0xA8D0; 0xA900; 0xA9D0; 0xA9F0; 0xAA50; 0xABF0; 0xFF10; 0x104A0; 0x10D30; 0x11066;
   0x110F0; 0x11136; 0x111D0; 0x112F0; 0x11450; 0x114D0; 0x11650; 0x116C0; 0x11730; 0x118E0;
   0x11950; 0x11C50; 0x11D50; 0x11DA0; 0x16A60; 0x16AC0; 0x16B50; 0x1D7CE; 0x1D7D8; 0x1D7E2;
   0x1D7EC; 0x1D7F6; 0x1E140; 0x1E2F0; 0x1E950; 0x1FBF0].

Definition py_isspace (c : N) : bool := existsb (N.eqb c) whitespace_cps.

(** [Py_UNICODE_TODECIMAL] *)
Definition decimal_value (c : N) : option N :=
  match find (fun z => (z <=? c) && (c <=? z + 9)) decimal_zeros with
  | Some z => Some (c - z)
  | None => None
  end.

(** [_PyUnicode_TransformDecimalAndSpaceToASCII]: a code point below 127
    is kept; above, white space becomes a space, a decimal digit its
    ASCII digit, anything else ['?']. *)
Definition to_ascii_digit_space (c : N) : N :=
  if c <? 127 then c
  else if py_isspace c then 32
  else match decimal_value c with
       | Some d => 48 + d
       | None => 63
       end.

(** [Py_ISSPACE] on the transformed (ASCII) text. *)
Definition ascii_space (c : N) : bool := (c =? 32) || ((9 <=? c) && (c <=? 13)).
Definition ascii_digit (c : N) : bool := (48 <=? c) && (c <=? 57).

Fixpoint skip_spaces (s : pystr) : pystr :=
  match s with
  | c :: s' => if ascii_space c then skip_spaces s' else s
  | [] => []
  end.

(** The digits loop of [PyLong_FromString] for base 10: digits with
    single underscores between them; the value, the number of digits and
    the unread rest; [None] for a doubled or trailing underscore. *)
Fixpoint scan_digits (s : pystr) (acc : Z) (ndigits : nat) (prev_underscore : bool)
    : option (Z * nat * pystr) :=
  match s with
  | c :: s' =>
    if ascii_digit c then scan_digits s' (acc * 10 + Z.of_N (c - 48))%Z (S ndigits) false
    else if c =? 95 then
      if prev_underscore then None else scan_digits s' acc ndigits true
    else if prev_underscore then None else Some (acc, ndigits, s)
  | [] => if prev_underscore then None else Some (acc, ndigits, [])
  end.

(** [sys.get_int_max_str_digits()] by default. *)
Definition int_max_str_digits : nat := 4300.

(** [PyLong_FromString(buffer, &end, 10)] with the check of
    [PyLong_FromUnicodeObject] that it read the whole buffer. *)
Definition long_from_ascii (s : pystr) : option Z :=
  let s := skip_spaces s in
  let '(sign, s) := match s with
                    | 43 :: s' => (1%Z, s')
                    | 45 :: s' => ((-1)%Z, s')
                    | _ => (1%Z, s)
                    end in
  match s with
  | 95 :: _ => None
  | _ =>
    match scan_digits s 0 0 false with
    | None => None
    | Some (v, nd, rest) =>
      if Nat.ltb int_max_str_digits nd then None
      else if Nat.eqb nd 0 then None
      else match skip_spaces rest with
           | [] => Some (sign * v)%Z
           | _ => None
           end
    end
  end.

(** [int(s)] for a [str] [s]: [None] is the [ValueError]. *)
Definition py_int (s : pystr) : option Z :=
  long_from_ascii (map to_ascii_digit_space s).

(** [int(resp.headers.get("Retry-After", 2 ** attempt))] *)
Definition retry_after_secs (r : Resp) (attempt : nat) : M Z :=
  match retry_after r with
  | None => ret (2 ^ Z.of_nat attempt)%Z
  | Some h => match py_int h with Some n => ret n | None => throw ValueError end
  end.

(** [res.json()] *)
Definition json_of (r : Resp) : M json :=
  match body r with Some j => ret j | None => throw ValueError end.

Definition terminal_states : list pystr :=
  [of_ascii "succeeded"; of_ascii "failed"; of_ascii "partiallySucceeded"].

(** [status in {"succeeded", "failed", "partiallySucceeded"}]; an
    unhashable status raises TypeError. *)
Definition in_terminal (st : json) : M bool :=
  if hashable st then
    ret (match st with
         | JStr s => existsb (pystr_eqb s) terminal_states
         | _ => false
         end)
  else throw OtherError.

(** [data.get("analyzeResult") or data] *)
Definition analysis_payload (dk : list (pystr * json)) : json :=
  let ar := get dk "analyzeResult" in
  if truthy ar then ar else JObj dk.

(** The [for _ in range(60)] loop of [_poll_operation], [n] iterations
    left. *)
Fixpoint poll_loop (n : nat) : M json :=
  match n with
  | O => throw TimeoutError
  | S n' =>
    res <- http ;;
    raise_for_status res ;;;
    data <- json_of res ;;
    match data with
    | JObj dk =>
      let status := if truthy (get dk "status") then get dk "status"
                    else get dk "operationState" in
      term <- in_terminal status ;;
      if term then ret (analysis_payload dk)
      else sleep 1 ;;; poll_loop n'
    | _ => throw OtherError
    end
  end.

Definition _poll_operation : M json := poll_loop 60.

(** The [try] body of one attempt of [_post_analyze]: [ret None] is the
    [continue] after a 429 that is not the last attempt, [ret (Some j)]
    the [return]. *)
Definition submit_once (max_retries attempt : nat) : M (option json) :=
  resp <- http ;;
  let code := status_code resp in
  let accepted := ((code =? 200) || (code =? 202))%Z in
  continued <-
    (if accepted then ret false
     else if (code =? 429)%Z then
       retry_after <- retry_after_secs resp attempt ;;
       if Nat.ltb attempt (max_retries - 1)
       then sleep retry_after ;;; ret true
       else ret false
     else ret false) ;;
  if continued then ret None
  else
    (if accepted then ret tt else raise_for_status resp) ;;;
    let fallback := match body resp with
                    | Some j => ret (Some j)
                    | None => throw RuntimeError
                    end in
    match op_location resp with
    | Some u => if truthy (JStr u)
                then j <- _poll_operation ;; ret (Some j)
                else fallback
    | None => fallback
    end.

(** The [for attempt in range(max_retries)] loop with its
    [except httpx.HTTPStatusError] handler; [fuel] iterations left. *)
Fixpoint attempts (max_retries attempt fuel : nat) (last_error : option Exn)
    : M (option json) :=
  match fuel with
  | O => match last_error with Some e => throw e | None => ret None end
  | S fuel' =>
    fun s =>
      match submit_once max_retries attempt s with
      | (Val (Some j), s') => (Val (Some j), s')
      | (Val None, s') => attempts max_retries (S attempt) fuel' last_error s'
      | (Err (HTTPStatusError r), s') =>
        (if ((status_code r =? 429)%Z && Nat.ltb attempt (max_retries - 1))%bool
         then retry_after <- retry_after_secs r attempt ;;
              sleep retry_after ;;;
              attempts max_retries (S attempt) fuel' (Some (HTTPStatusError r))
         else throw (HTTPStatusError r)) s'
      | (Err e, s') => (Err e, s')
      end
  end.

(** [_post_analyze(model_id, content, content_type, max_retries)]; the
    result [None] is Python's [None] returned after an empty loop. *)
Definition _post_analyze (max_retries : nat) : M (option json) :=
  attempts max_retries 0 max_retries None.

End Gateway.

(** ** [pathlib] on the POSIX path strings the driver handles *)
Module PathLib.
Import PyStr Json.

Definition slash : N := 47.
Definition dot : N := 46.

Fixpoint last_index_aux (c : N) (s : pystr) (i : nat) (acc : option nat) : option nat :=
  match s with
  | [] => acc
  | x :: s' => last_index_aux c s' (S i) (if (x =? c)%N then Some i else acc)
  end.

(** [s.rfind(c)], [None] for -1. *)
Definition last_index (c : N) (s : pystr) : option nat := last_index_aux c s 0 None.

(** [(str(p.parent), p.name)] *)
Definition split_path (p : pystr) : pystr * pystr :=
  match last_index slash p with
  | None => (of_ascii ".", p)
  | Some O => ([slash], skipn 1 p)
  | Some i => (firstn i p, skipn (S i) p)
  end.

Definition parent (p : pystr) : pystr := fst (split_path p).
Definition name (p : pystr) : pystr := snd (split_path p).

Definition ends_with_slash (d : pystr) : bool :=
  match rev d with x :: _ => (x =? slash)%N | [] => false end.

(** [str(Path(d) / n)] *)
Definition join (d n : pystr) : pystr :=
  if pystr_eqb d (of_ascii ".") then n
  else if ends_with_slash d then d ++ n
  else d ++ [slash] ++ n.

(** [p.suffix]: from the last dot of the name, unless that dot starts or
    ends the name. *)
Definition suffix (nm : pystr) : pystr :=
  match last_index dot nm with
  | Some i => if (Nat.ltb 0 i && Nat.ltb i (List.length nm - 1))%bool
              then skipn i nm else []
  | None => []
  end.

Definition stem (nm : pystr) : pystr :=
  firstn (List.length nm - List.length (suffix nm)) nm.

(** [str(n)] for a natural number. *)
Fixpoint uint_digits (u : Decimal.uint) : pystr :=
  match u with
  | Decimal.Nil => []
  | Decimal.D0 u' => 48 :: uint_digits u'
  | Decimal.D1 u' => 49 :: uint_digits u'
  | Decimal.D2 u' => 50 :: uint_digits u'
  | Decimal.D3 u' => 51 :: uint_digits u'
  | Decimal.D4 u' => 52 :: uint_digits u'
  | Decimal.D5 u' => 53 :: uint_digits u'
  | Decimal.D6 u' => 54 :: uint_digits u'
  | Decimal.D7 u' => 55 :: uint_digits u'
  | Decimal.D8 u' => 56 :: uint_digits u'
  | Decimal.D9 u' => 57 :: uint_digits u'
  end.

Definition str_nat (n : nat) : pystr := uint_digits (Nat.to_uint n).

Definition is_abs (p : pystr) : bool :=
  match p with x :: _ => (x =? slash)%N | [] => false end.

Fixpoint split_slash_aux (s cur : pystr) : list pystr :=
  match s with
  | [] => [rev cur]
  | x :: s' => if (x =? slash)%N then rev cur :: split_slash_aux s' []
               else split_slash_aux s' (x :: cur)
  end.

(** [s.split("/")] *)
Definition split_slash (s : pystr) : list pystr := split_slash_aux s [].

(** ["/".join(parts)] *)
Fixpoint slash_join (ps : list pystr) : pystr :=
  match ps with
  | [] => []
  | [p] => p
  | p :: ps' => p ++ [slash] ++ slash_join ps'
  end.

(** The parts of [PurePath(s)] after its anchor: the components of [s]
    other than [''] and ['.']. *)
Definition pl_parts (s : pystr) : list pystr :=
  filter (fun c => negb (pystr_eqb c [] || pystr_eqb c (of_ascii "."))) (split_slash s).

(** The root of [PurePath(s)]: ['//'] for exactly two leading slashes,
    ['/'] for one or for three and more, [''] for a relative path. *)
Definition pl_anchor (s : pystr) : pystr :=
  match s with
  | x :: s1 =>
    if (x =? slash)%N then
      match s1 with
      | y :: s2 =>
        if (y =? slash)%N then
          match s2 with
          | z :: _ => if (z =? slash)%N then [slash] else [slash; slash]
          | [] => [slash; slash]
          end
        else [slash]
      | [] => [slash]
      end
    else []
  | [] => []
  end.

(** [str(PurePath(s))] *)
Definition path_str (s : pystr) : pystr :=
  match pl_anchor s, pl_parts s with
  | [], [] => of_ascii "."
  | a, ps => a ++ slash_join ps
  end.

(** [PurePath(s).name]: the last part, [''] when there is none. *)
Definition pl_name (s : pystr) : pystr := last (pl_parts s) [].

(** One component of [os.path.realpath] on a path without symbolic
    links, on the reversed list of the components so far: [''] and
    ['.'] are skipped, ['..'] goes up (the root is its own parent). *)
Definition resolve_step (st : list pystr) (c : pystr) : list pystr :=
  if pystr_eqb c [] || pystr_eqb c (of_ascii ".") then st
  else if pystr_eqb c (of_ascii "..") then tl st
  else c :: st.

Definition resolve_parts (cwd p : pystr) : list pystr :=
  fold_left resolve_step (split_slash p)
            (if is_abs p then [] else fold_left resolve_step (split_slash cwd) []).

(** [str(Path(p).resolve())] in the working directory [cwd], for a file
    system without symbolic links: [realpath] normalises [p] lexically,
    relative paths from [cwd], and prints a single leading slash. *)
Definition resolve (cwd p : pystr) : pystr :=
  slash :: slash_join (rev (resolve_parts cwd p)).

End PathLib.

(** ** The batch driver: [discovery.py] and [pipeline.py] *)
Module Batch.
Import PyStr Json Exc Models PathLib.

(** The world the driver runs against: the local regular files as
    (directory, name), the S3 objects as (bucket, key), the places
    where [mkdir] or [shutil.move] fail (permissions, full disk, ...),
    and the working directory of the process.  Directory strings and the
    working directory are resolved paths, as [p.resolve()] gives them, in
    a file system without symbolic links. *)
Record World := mkWorld {
  files : list (pystr * pystr);
  bucket_keys : list (pystr * pystr);
  mkdir_fails : pystr -> bool;
  move_fails : pystr -> bool;
  cwd : pystr }.

Definition show_entry (e : pystr * pystr) : pystr := join (fst e) (snd e).

Definition file_exists (w : World) (p : pystr) : bool :=
  existsb (fun e => pystr_eqb (show_entry e) p) (files w).

Definition file_prefix : pystr := of_ascii "file://".
Definition s3_prefix : pystr := of_ascii "s3://".

Definition SUPPORTED_EXTENSIONS : list pystr :=
  map of_ascii [".pdf"; ".png"; ".jpg"; ".jpeg"; ".tif"; ".tiff"; ".txt"; ".heic"; ".heif"]%string.

(** [is_supported(path)]: [Path(path.lower()).suffix in SUPPORTED_EXTENSIONS] *)
Definition is_supported (p : pystr) : bool :=
  existsb (pystr_eqb (suffix (pl_name (lower p)))) SUPPORTED_EXTENSIONS.

Definition under (root d : pystr) : bool :=
  pystr_eqb d root || prefixb (join root []) d.

(** [str(p)] for the hit [p] of [root.glob("*")] or [root.rglob("*")]
    that lists the entry [e] below the resolved root [r]: [Path(root)]
    joined with the subdirectories from [r] to [fst e] and the name. *)
Definition glob_str (root r : pystr) (e : pystr * pystr) : pystr :=
  if pystr_eqb (fst e) r then join (path_str root) (snd e)
  else join (join (path_str root) (skipn (List.length (join r [])) (fst e))) (snd e).

(** [discover_local(root, recursive)], in directory-listing order: the
    regular files of the directory [root] denotes (of it and of its
    subdirectories when [recursive]) whose [str(p)] is supported.  A
    listed name is never empty, ['.'] or ['..'] and has no slash, so
    [str(p.resolve())] is the entry's directory joined with its name. *)
Definition discover_local (w : World) (root : pystr) (recursive : bool) : list pystr :=
  let r := resolve (cwd w) root in
  map (fun e => file_prefix ++ show_entry e)
      (filter (fun e => (if recursive then under r (fst e) else pystr_eqb (fst e) r)
                        && is_supported (glob_str root r e))
              (files w)).

Fixpoint strip_slashes_l (s : pystr) : pystr :=
  match s with x :: s' => if (x =? slash)%N then strip_slashes_l s' else s | [] => [] end.

(** [s.strip("/")] *)
Definition strip_slashes (s : pystr) : pystr := rev (strip_slashes_l (rev (strip_slashes_l s))).

Fixpoint split_first_slash (s : pystr) : pystr * pystr :=
  match s with
  | [] => ([], [])
  | x :: s' => if (x =? slash)%N then ([], s')
               else let (a, b) := split_first_slash s' in (x :: a, b)
  end.

(** The text up to the first newline: what [.*] matches without
    [re.DOTALL]. *)
Fixpoint take_line (s : pystr) : pystr :=
  match s with
  | [] => []
  | x :: s' => if (x =? 10)%N then [] else x :: take_line s'
  end.

(** [discover_s3(uri, recursive)] after the [s3://] prefix: the regular
    expression of [discover_s3] (a non-empty bucket name up to the
    first slash, newlines included; after one optional slash, the key
    prefix up to the first newline; no match raises) and the listing of
    the bucket under the prefix (all result pages concatenated). *)
Definition discover_s3 (w : World) (rest : pystr) (recursive : bool) : Result (list pystr) :=
  let (bucket, after) := split_first_slash rest in
  let prefix := take_line after in
  match bucket with
  | [] => Raise
  | _ =>
    Ret (map (fun bk => s3_prefix ++ bucket ++ [slash] ++ snd bk)
             (filter (fun bk =>
                        pystr_eqb (fst bk) bucket && prefixb prefix (snd bk)
                        && (recursive || negb (existsb (fun c => (c =? slash)%N)
                              (strip_slashes (skipn (List.length prefix) (snd bk)))))
                        && is_supported (snd bk))
                     (bucket_keys w)))
  end.

(** [discover(path, recursive)] *)
Definition discover (w : World) (path : pystr) (recursive : bool) : Result (list pystr) :=
  if prefixb file_prefix path then Ret (discover_local w (skipn 7 path) recursive)
  else if prefixb s3_prefix path then discover_s3 w (skipn 5 path) recursive
  else Ret (discover_local w path recursive).

(** The [while destination.exists()] loop: the first free
    [{stem}_{counter}{suffix}] from [counter] on, [fuel] candidates at most. *)
Fixpoint find_free (w : World) (pd st sfx : pystr) (fuel counter : nat) : option pystr :=
  match fuel with
  | O => None
  | S fuel' =>
    let nm := st ++ [95%N] ++ str_nat counter ++ sfx in
    if file_exists w (join pd nm) then find_free w pd st sfx fuel' (S counter)
    else Some nm
  end.

(** The [try] body of [_move_to_processed] for a local path [fp]: the new
    path string and world, or an exception.  The collision loop is given
    one more candidate than there are files, which always suffices
    ([find_free] never runs out, see [find_free_total]). *)
Definition move_body (w : World) (fp : pystr) (had_prefix : bool) (original : pystr)
    : Result (pystr * World) :=
  if negb (file_exists w fp) then Ret (original, w) else
  let (par, nm) := split_path fp in
  let processed_dir := join par (of_ascii "processed") in
  if mkdir_fails w processed_dir || file_exists w processed_dir then Raise else
  let dest_name :=
    if file_exists w (join processed_dir nm)
    then match find_free w processed_dir (stem nm) (suffix nm)
                         (S (List.length (files w))) 1 with
         | Some d => d
         | None => nm
         end
    else nm in
  if move_fails w fp then Raise else
  let w' := mkWorld (filter (fun e => negb (pystr_eqb (show_entry e) fp)) (files w)
                     ++ [(processed_dir, dest_name)])
                    (bucket_keys w) (mkdir_fails w) (move_fails w) (cwd w) in
  let new_path := join processed_dir dest_name in
  Ret ((if had_prefix then file_prefix ++ new_path else new_path), w').

(** [_move_to_processed(file_path)]: [except Exception] returns the
    original path. *)
Definition _move_to_processed (w : World) (file_path : pystr) : pystr * World :=
  let body :=
    if prefixb file_prefix file_path then move_body w (skipn 7 file_path) true file_path
    else if prefixb s3_prefix file_path then Ret (file_path, w)
    else move_body w file_path false file_path in
  match body with
  | Ret r => r
  | Raise => (file_path, w)
  end.

(** [detect_language] of [pipeline.py]: any code point of U+0590..U+05FF. *)
Definition detect_language (text : pystr) : pystr :=
  if existsb (fun c => ((0x590 <=? c) && (c <=? 0x5FF))%N) text
  then of_ascii "he" else of_ascii "en".

(** [lang = detect_language(azure_content) if language_detection and
    azure_content else "en"], with [azure_content = parsed.get("content", "")];
    [azure_content[:200]] in the preceding log line raises unless the
    value is sliceable. *)
Definition language_of (language_detection : bool) (parsed : json) : Result pystr :=
  match parsed with
  | JObj pk =>
    match get_d pk "content" (JStr []) with
    | JStr s => Ret (if language_detection && negb (Nat.eqb (List.length s) 0)
                     then detect_language s else of_ascii "en")
    | JArr l => if language_detection && negb (Nat.eqb (List.length l) 0)
                then Raise else Ret (of_ascii "en")
    | _ => Raise
    end
  | _ => Raise
  end.

Definition with_document_type (d : InvoiceData) (t : pystr) : InvoiceData :=
  {| file_name := file_name d; source_path := source_path d; file_url := file_url d;
     language := language d; document_type := t;
     supplier_name := supplier_name d; invoice_number := invoice_number d;
     invoice_date := invoice_date d; currency := currency d;
     subtotal := subtotal d; tax_amount := tax_amount d; total := total d;
     line_items := line_items d; confidence := confidence d;
     bounding_boxes := bounding_boxes d; page_count := page_count d;
     field_confidence := field_confidence d |}.

Definition with_location (d : InvoiceData) (src : pystr) (url : option pystr) : InvoiceData :=
  {| file_name := file_name d; source_path := src; file_url := url;
     language := language d; document_type := document_type d;
     supplier_name := supplier_name d; invoice_number := invoice_number d;
     invoice_date := invoice_date d; currency := currency d;
     subtotal := subtotal d; tax_amount := tax_amount d; total := total d;
     line_items := line_items d; confidence := confidence d;
     bounding_boxes := bounding_boxes d; page_count := page_count d;
     field_confidence := field_confidence d |}.

Definition truthy_float (x : option Q) : bool :=
  match x with Some q => negb (Qeq_bool q 0) | None => false end.

(** [if mapped.invoice_number or mapped.total or mapped.supplier_name:
    mapped.document_type = "invoice" else: mapped.document_type = "other"] *)
Definition decide_document_type (mapped : InvoiceData) : InvoiceData :=
  if truthy (invoice_number mapped) || truthy_float (total mapped)
     || truthy (supplier_name mapped)
  then with_document_type mapped (of_ascii "invoice")
  else with_document_type mapped (of_ascii "other").

(** [validate_invoice_data]: the reconciliation check returns [data] on
    every branch. *)
Definition validate_invoice_data (data : InvoiceData) : InvoiceData := data.

(** The degraded record of the [except Exception] handler. *)
Definition sentinel (uri : pystr) : InvoiceData :=
  {| file_name := name uri; source_path := uri; file_url := None;
     language := of_ascii "en"; document_type := of_ascii "other";
     supplier_name := JNull; invoice_number := JNull; invoice_date := None;
     currency := JNull; subtotal := None; tax_amount := None; total := None;
     line_items := None; confidence := Some 0%Q; bounding_boxes := None;
     page_count := None; field_confidence := None |}.

(** [min(a, b)] *)
Definition py_min (a b : Z) : Z := if (b <? a)%Z then b else a.

(** A slice bound of a sequence of length [n], as [PySlice_AdjustIndices]
    computes it: a negative index counts from the end, and the result is
    clamped to [[0, n]]. *)
Definition slice_index (i n : Z) : Z :=
  if (i <? 0)%Z then Z.max 0 (i + n) else Z.min i n.

(** [l[a:b]] *)
Definition py_slice {A} (l : list A) (a b : Z) : list A :=
  let n := Z.of_nat (List.length l) in
  let a' := slice_index a n in
  let b' := slice_index b n in
  firstn (Z.to_nat (b' - a')) (skipn (Z.to_nat a') l).

(** [uris[starting_point:min(starting_point + bulk_size, total_files)]] *)
Definition batch_window (uris : list pystr) (starting_point bulk_size : Z) : list pystr :=
  py_slice uris starting_point
           (py_min (starting_point + bulk_size) (Z.of_nat (List.length uris))).

Section Driver.
Variable float_of_str : pystr -> option Q.
Variable parse_date_str : json -> option pystr.
(** [urllib.parse.quote] *)
Variable quote : pystr -> pystr.
(** Modelled from the spec: [_read_file_bytes(uri)] followed by
    [client.analyze_invoice] of the package's [azure_di] module, which is
    missing from the sources (the top-level [azure_di.py] has no [locale]
    parameter): the parsed analysis payload, the file name and the source
    URI, or an exception. *)
Variable read_and_analyze : pystr -> Result (json * pystr * pystr).

Definition view_url (u : pystr) : pystr := of_ascii "/file/view?path=" ++ quote u.

(** The [try] body of the loop of [process_path] for one URI. *)
Definition process_body (language_detection : bool) (w : World) (uri : pystr)
    : Result (InvoiceData * World) :=
  let* r := read_and_analyze uri in
  let '(parsed, file_name, source_uri) := r in
  let* lang := language_of language_detection parsed in
  let* mapped := Mapping.map_invoice float_of_str parse_date_str parsed
                   file_name source_uri lang (Some (view_url source_uri)) in
  let validated := validate_invoice_data (decide_document_type mapped) in
  let (new_uri, w') := _move_to_processed w uri in
  Ret ((if pystr_eqb new_uri uri then validated
        else with_location validated new_uri (Some (view_url new_uri))), w').

(** One iteration of the loop, with its [except Exception] handler. *)
Definition process_one (language_detection : bool) (w : World) (uri : pystr)
    : InvoiceData * World :=
  match process_body language_detection w uri with
  | Ret r => r
  | Raise => (sentinel uri, w)
  end.

Fixpoint process_all (language_detection : bool) (w : World) (uris : list pystr)
    : list InvoiceData * World :=
  match uris with
  | [] => ([], w)
  | uri :: rest =>
    let (rec, w1) := process_one language_detection w uri in
    let (recs, w2) := process_all language_detection w1 rest in
    (rec :: recs, w2)
  end.

(** [process_path(path, recursive, language_detection, starting_point)]
    with [settings.bulk_size]: [(results, total_files, files_handled)]
    and the world after the moves. *)
Definition process_path (w : World) (path : pystr) (recursive language_detection : bool)
    (starting_point bulk_size : Z) : Result (list InvoiceData * nat * nat * World) :=
  let* uris := discover w path recursive in
  let total_files := List.length uris in
  let uris_to_process := batch_window uris starting_point bulk_size in
  let files_handled := List.length uris_to_process in
  let (results, w') := process_all language_detection w uris_to_process in
  Ret (results, total_files, files_handled, w').

(** One iteration of the loop of [process_specific_files], with its
    [except Exception] handler: the body of [process_path]'s loop without
    the move to [processed/]. *)
Definition process_specific_one (language_detection : bool) (uri : pystr) : InvoiceData :=
  let body :=
    let* r := read_and_analyze uri in
    let '(parsed, file_name, source_uri) := r in
    let* lang := language_of language_detection parsed in
    let* mapped := Mapping.map_invoice float_of_str parse_date_str parsed
                     file_name source_uri lang (Some (view_url source_uri)) in
    Ret (validate_invoice_data (decide_document_type mapped)) in
  match body with
  | Ret d => d
  | Raise => sentinel uri
  end.

(** [process_specific_files(file_paths, language_detection)] *)
Definition process_specific_files (file_paths : list pystr) (language_detection : bool)
    : list InvoiceData :=
  map (process_specific_one language_detection) file_paths.


End Driver.


(** The [field_mapping] of [process_path_with_llm], in dict order. *)
Definition llm_field_mapping : list (pystr * pystr) :=
  [(of_ascii "VendorName", Mapping.c_supplier_name);
   (of_ascii "CustomerName", Mapping.c_supplier_name);
   (of_ascii "InvoiceId", Mapping.c_invoice_number);
   (of_ascii "InvoiceNumber", Mapping.c_invoice_number);
   (of_ascii "InvoiceDate", Mapping.c_invoice_date);
   (of_ascii "SubTotal", Mapping.c_subtotal);
   (of_ascii "TotalTax", Mapping.c_tax_amount);
   (of_ascii "InvoiceTotal", Mapping.c_total);
   (of_ascii "MerchantName", Mapping.c_supplier_name);
   (of_ascii "TransactionDate", Mapping.c_invoice_date);
   (of_ascii "Subtotal", Mapping.c_subtotal);
   (of_ascii "Tax", Mapping.c_tax_amount);
   (of_ascii "Total", Mapping.c_total)].

(** The bounding-box and confidence loop of [process_path_with_llm]:
    both halves are guarded by [our_field_name not in ...], as in
    [map_invoice]. *)
Definition llm_boxes_and_confidences (fields : list (pystr * json))
    (page_dims : Mapping.page_dims_t) : Mapping.boxes_t * Mapping.confs_t :=
  fold_left (Mapping.invoice_step fields page_dims) llm_field_mapping ([], []).

End Batch.

(** ** Concrete inputs used by the properties below *)
Module Samples.
Import PyStr Json Exc Models.

Definition sample_text : pystr := of_ascii "Invoice Invoice Total due".

(** Conversions that reject every string and date. *)
Definition no_float (_ : pystr) : option Q := None.
Definition no_date (_ : json) : option pystr := None.

Definition jfield (k : string) (v : json) : pystr * json := (of_ascii k, v).

(** A first bounding region on page 1 with the given flat polygon. *)
Definition region_on_page1 (poly : list Q) : json :=
  JArr [JObj [jfield "pageNumber" (JNum 1); jfield "polygon" (JArr (map JNum poly))]].

Definition page_1000x500 : json :=
  JArr [JObj [jfield "pageNumber" (JNum 1); jfield "width" (JNum 1000);
              jfield "height" (JNum 500)]].

(** A payload whose only field is the generic [Tax] field. *)
Definition tax_only_keys : list (pystr * json) :=
  [jfield "fields" (JObj [jfield "Tax" (JObj [jfield "valueNumber" (JNum 18)])])].
Definition tax_only_payload : json := JObj tax_only_keys.

Definition box_a : list Q := [100; 50; 200; 50; 200; 150; 100; 150]%Q.
Definition box_b : list Q := [300; 50; 400; 50; 400; 150; 300; 150]%Q.

(** A receipt payload with both [TotalTax] and [Tax], each with a
    bounding region and a confidence. *)
Definition two_tax_receipt : json :=
  JObj [jfield "pages" page_1000x500;
        jfield "documents" (JArr [JObj [jfield "fields" (JObj [
          jfield "TotalTax" (JObj [jfield "valueNumber" (JNum 18);
                                   jfield "confidence" (JNum (9 # 10));
                                   jfield "boundingRegions" (region_on_page1 box_a)]);
          jfield "Tax" (JObj [jfield "valueNumber" (JNum 18);
                              jfield "confidence" (JNum (5 # 10));
                              jfield "boundingRegions" (region_on_page1 box_b)])])]])].

(** An invoice payload whose only field is a zero [InvoiceTotal]. *)
Definition zero_total_payload : json :=
  JObj [jfield "fields" (JObj [jfield "InvoiceTotal" (JObj [jfield "valueNumber" (JNum 0)])])].

(** An invoice payload with a 1000 x 500 page 1 whose total has a
    bounding region with a 10-value polygon. *)
Definition box_pentagon : list Q := [100; 50; 200; 50; 250; 100; 200; 150; 100; 150]%Q.
Definition pentagon_payload : json :=
  JObj [jfield "pages" page_1000x500;
        jfield "fields" (JObj [
          jfield "InvoiceTotal" (JObj [jfield "valueNumber" (JNum 118);
                                       jfield "boundingRegions" (region_on_page1 box_pentagon)])])].

(** An invoice payload without [pages] whose total has a bounding region. *)
Definition no_pages_payload : json :=
  JObj [jfield "fields" (JObj [
    jfield "InvoiceTotal" (JObj [jfield "valueNumber" (JNum 118);
                                 jfield "boundingRegions" (region_on_page1 box_a)])])].

(** The working directory [/] of the sample worlds. *)
Definition root_dir : pystr := of_ascii "/".

(** A local input directory [/in] holding [a.pdf] and [b.pdf], where
    [mkdir] and [shutil.move] succeed or fail everywhere as given. *)
Definition in_dir : pystr := of_ascii "/in".
Definition world_ab (mkdir_ko move_ko : bool) : Batch.World :=
  Batch.mkWorld [(in_dir, of_ascii "a.pdf"); (in_dir, of_ascii "b.pdf")] []
                (fun _ => mkdir_ko) (fun _ => move_ko) root_dir.

(** A bucket [b] holding [x.pdf], [y.pdf] and [z.pdf]. *)
Definition world_s3 : Batch.World :=
  Batch.mkWorld [] [(of_ascii "b", of_ascii "x.pdf"); (of_ascii "b", of_ascii "y.pdf");
                    (of_ascii "b", of_ascii "z.pdf")]
                (fun _ => false) (fun _ => false) root_dir.

(** Modelled from the spec: an analysis that succeeds and returns
    [zero_total_payload] for every file, as the spec describes the Azure
    analysis whose package module is missing from the sources. *)
Definition analyze_zero_total (u : pystr) : Result (json * pystr * pystr) :=
  Ret (zero_total_payload, PathLib.name u, u).


(** An analysis that raises for every file. *)
Definition analyze_fail (_ : pystr) : Result (json * pystr * pystr) := Raise.

(** Two entries for page 1: 800x600, then 1000x500. *)
Definition two_page1_keys : list (pystr * json) :=
  [jfield "pages" (JArr [JObj [jfield "pageNumber" (JNum 1); jfield "width" (JNum 800);
                               jfield "height" (JNum 600)];
                         JObj [jfield "pageNumber" (JNum 1); jfield "width" (JNum 1000);
                               jfield "height" (JNum 500)]])].

(** An invoice payload naming both a vendor and a customer, each with a
    bounding region and a confidence. *)
Definition two_party_keys : list (pystr * json) :=
  [jfield "pages" page_1000x500;
   jfield "fields" (JObj [
     jfield "VendorName" (JObj [jfield "valueString" (JStr (of_ascii "Acme"));
                                jfield "confidence" (JNum (9 # 10));
                                jfield "boundingRegions" (region_on_page1 box_a)]);
     jfield "CustomerName" (JObj [jfield "valueString" (JStr (of_ascii "Bob"));
                                  jfield "confidence" (JNum (5 # 10));
                                  jfield "boundingRegions" (region_on_page1 box_b)])])].

(** The keys of [two_tax_receipt]. *)
Definition two_tax_receipt_keys : list (pystr * json) :=
  match two_tax_receipt with JObj dk => dk | _ => [] end.


End Samples.

(** ** Vocabulary of the gateway properties *)
Module GatewaySpec.
Import PyStr Json Gateway.

(** The status [_poll_operation] tests: [data.get("status") or
    data.get("operationState")]. *)
Definition poll_status (dk : list (pystr * json)) : json :=
  if truthy (get dk "status") then get dk "status" else get dk "operationState".

Definition is_terminal_status (st : json) : bool :=
  match st with
  | JStr s => existsb (pystr_eqb s) terminal_states
  | _ => false
  end.

(** A successful poll response whose JSON object reports a status that
    is not terminal. *)
Definition pending_poll (r : Resp) : bool :=
  is_2xx (status_code r) &&
  match body r with
  | Some (JObj dk) => hashable (poll_status dk) && negb (is_terminal_status (poll_status dk))
  | _ => false
  end.

(** The delay in seconds a 429 at attempt [i] asks for: the
    [Retry-After] header when present, read as an integer, else [2 ** i];
    [None] when the header is not an integer. *)
Definition retry_delay (r : Resp) (i : nat) : option Z :=
  match retry_after r with
  | Some h => py_int h
  | None => Some (2 ^ Z.of_nat i)%Z
  end.

(** The sleeps between consecutive 429 responses [rs], the first one at
    attempt [i]: one after every response but the last. *)
Fixpoint backoff (rs : list Resp) (i : nat) : list Z :=
  match rs with
  | [] | [_] => []
  | r :: rs' => match retry_delay r i with Some d => d | None => 0%Z end :: backoff rs' (S i)
  end.

Definition resp_429 (h : option pystr) : Resp := mkResp 429 h None None.

(** A poll response carrying the given JSON object. *)
Definition poll_resp (dk : list (pystr * json)) : Resp := mkResp 200 None None (Some (JObj dk)).

(** The computation [x], from any state, consumes at most [nr] responses
    from the front of the queue and appends at most [ns] sleeps. *)
Definition bounded {A} (nr ns : nat) (x : M A) : Prop :=
  forall s, exists c z,
    pending s = c ++ pending (snd (x s)) /\ slept (snd (x s)) = slept s ++ z /\
    (List.length c <= nr)%nat /\ (List.length z <= ns)%nat.

(** An accepted submission pointing at an operation URL. *)
Definition accepted_202 : Resp := mkResp 202 None (Some (of_ascii "https://op/1")) None.

(** A successful poll reporting [succeeded]. *)
Definition poll_succeeded : Resp :=
  poll_resp [(of_ascii "status", JStr (of_ascii "succeeded"));
             (of_ascii "analyzeResult", JObj [(of_ascii "content", JStr (of_ascii "x"))])].

End GatewaySpec.

(** ** Vocabulary of the mapper properties *)
Module MapperSpec.
Import PyStr Json Models Mapping.

(** The first [Some] of a list of candidates. *)
Fixpoint first_some {A} (l : list (option A)) : option A :=
  match l with
  | [] => None
  | Some a :: _ => Some a
  | None :: l' => first_some l'
  end.

(** The bounding box a provider field yields, if it is present. *)
Definition box_of (fields : list (pystr * json)) (page_dims : page_dims_t) (azure : pystr)
    : option BoundingBox :=
  match lookup fields azure with
  | Some fv => _extract_bounding_box fv page_dims
  | None => None
  end.

(** The confidence a provider field yields, if it is present and not null. *)
Definition conf_of (fields : list (pystr * json)) (azure : pystr) : option json :=
  match lookup fields azure with
  | Some fv => match _extract_field_confidence fv with JNull => None | c => Some c end
  | None => None
  end.

(** What each entry of a field mapping offers for the canonical name [c],
    in the mapping's order. *)
Definition candidates {A} (mapping : list (pystr * pystr)) (c : pystr)
    (f : pystr -> option A) : list (option A) :=
  map (fun m => if pystr_eqb (snd m) c then f (fst m) else None) mapping.

(** A page entry as [_get_page_dimensions] reads it: the page number and
    the (width, height), each defaulting to 1. *)
Definition page_fields (page : json) : json * (json * json) :=
  match page with
  | JObj pk => (get_d pk "pageNumber" (JNum 1),
                (get_d pk "width" (JNum 1), get_d pk "height" (JNum 1)))
  | _ => (JNum 1, (JNum 1, JNum 1))
  end.

Definition is_obj (v : json) : bool := match v with JObj _ => true | _ => false end.

(** An optional list read as a list: [None] as the empty one. *)
Definition olist {A} (o : option (list A)) : list A :=
  match o with Some l => l | None => [] end.

(** [_get_page_dimensions]'s update of its dict for one page entry. *)
Definition page_step (acc : page_dims_t) (e : json * (json * json)) : page_dims_t :=
  jset (fst e) (snd e) acc.

(** What the field loop of both mappers keeps: keys without duplicates,
    all canonical, and no null confidence. *)
(** The invariant both loops keep: every canonical name at most once,
    only the mapping's canonical names, no null confidence. *)
Definition loop_inv (canon : list pystr) (st : boxes_t * confs_t) : Prop :=
  NoDup (map fst (fst st)) /\ incl (map fst (fst st)) canon /\
  NoDup (map fst (snd st)) /\ incl (map fst (snd st)) canon /\
  Forall (fun kv => snd kv <> JNull) (snd st).

(** The shape of a record [map_invoice] or [map_receipt] returns. *)
(** The shape of a record a mapper returns. *)
Definition record_shape (canon : list pystr) (d : InvoiceData) : Prop :=
  (exists n, page_count d = Some n /\ (1 <= n)%nat) /\
  line_items d <> Some [] /\
  Forall (fun it => truthy (description it) = true) (olist (line_items d)) /\
  bounding_boxes d <> Some [] /\ field_confidence d <> Some [] /\
  NoDup (map fst (olist (bounding_boxes d))) /\ incl (map fst (olist (bounding_boxes d))) canon /\
  NoDup (map fst (olist (field_confidence d))) /\ incl (map fst (olist (field_confidence d))) canon /\
  Forall (fun kv => snd kv <> JNull) (olist (field_confidence d)).

End MapperSpec.

(** * Properties *)

Module ClassifierFacts.
Import PyStr PyFloat Classifier Samples.

(** C9 (counterexample): [classify_text("Invoice Invoice Total due")] is not
    [("invoice", 0.8)]: its score is not the float 0.8. *)
Lemma classify_sample_score_not_08 :
  fst (classify_text sample_text) = invoice /\
  snd (classify_text sample_text) <> f0_8.
Proof.
  split; [reflexivity |].
  vm_compute. discriminate.
Qed.

(** C9 (amended): each keyword counts once however often it occurs, so
    the text has one invoice-keyword hit and no receipt-keyword hit, and
    [classify_text] returns [("invoice", min(1.0, 0.4 + 0.2 * 1))].  In
    binary64 that score is [0x1.3333333333334p-1], i.e.
    0.6000000000000001, the float just above the literal 0.6. *)
Theorem classify_sample_one_hit :
  hits INVOICE_KEYWORDS (lower sample_text) = 1%nat /\
  hits RECEIPT_KEYWORDS (lower sample_text) = 0%nat /\
  classify_text sample_text = (invoice, min1 (fadd f0_4 (fmul f0_2 (float_of_int 1)))) /\
  snd (classify_text sample_text) = S754_finite false 5404319552844596%positive (-53)%Z /\
  f0_6 = S754_finite false 5404319552844595%positive (-53)%Z.
Proof.
  split; [vm_compute; reflexivity |]. split; [vm_compute; reflexivity |].
  split; [vm_compute; reflexivity |]. split; vm_compute; reflexivity.
Qed.

End ClassifierFacts.

Module MappingFacts.
Import PyStr Json Exc Models Mapping Samples.

(** Case analysis on the exceptions and pattern matches of a mapper run. *)
Ltac res_cases H :=
  repeat match type of H with
  | context [match ?e with Ret _ => _ | Raise => _ end] =>
      let E := fresh "E" in destruct e eqn:E
  | context [match ?e with (_, _) => _ end] =>
      let E := fresh "E" in destruct e eqn:E
  | context [match ?e with Some _ => _ | None => _ end] =>
      let E := fresh "E" in destruct e eqn:E
  | context [if ?e then _ else _] =>
      let E := fresh "E" in destruct e eqn:E
  end.

(** C7 (counterexample): for a payload whose only tax field is the
    generic [Tax] (amount 18), [map_invoice] leaves [tax_amount] null: it
    does not fall back to [Tax]. *)
Lemma map_invoice_ignores_tax_field :
  get_currency_value no_float
    (JObj [jfield "valueNumber" (JNum 18)]) = Ret (Some 18%Q, JNull) /\
  match map_invoice no_float no_date tax_only_payload [] [] [] None with
  | Ret d => tax_amount d = None
  | Raise => False
  end.
Proof. split; vm_compute; reflexivity. Qed.

(** C7 (amended): [map_receipt] takes [tax_amount] from [TotalTax] and,
    when that amount is absent, from [Tax]; [map_invoice] takes it from
    [TotalTax] only. *)
Theorem tax_amount_resolution :
  forall fl pd dk fields fn sp lang url d,
    get_fields dk = Ret fields ->
    (map_receipt fl pd (JObj dk) fn sp lang url = Ret d ->
     (exists t c, get_currency_value fl (get_d fields "TotalTax" (JObj [])) = Ret (Some t, c)
                  /\ tax_amount d = Some t) \/
     (exists c c', get_currency_value fl (get_d fields "TotalTax" (JObj [])) = Ret (None, c)
                   /\ get_currency_value fl (get_d fields "Tax" (JObj [])) = Ret (tax_amount d, c'))) /\
    (map_invoice fl pd (JObj dk) fn sp lang url = Ret d ->
     exists c, get_currency_value fl (get_d fields "TotalTax" (JObj [])) = Ret (tax_amount d, c)).
Proof.
  intros fl pd dk fields fn sp lang url d Hf. split; intro H.
  - unfold map_receipt, bind in H. rewrite Hf in H. res_cases H; try discriminate.
    injection H as <-; simpl.
    destruct a1 as [[t|] c0]; simpl in E2.
    + left. injection E2 as <-. eauto.
    + right.
      destruct (get_currency_value fl (get_d fields "Tax" (JObj []))) as [[tx c']|] eqn:Et;
        [| discriminate].
      injection E2 as <-. eauto.
  - unfold map_invoice, bind in H. rewrite Hf in H. res_cases H; try discriminate.
    injection H as <-; simpl.
    destruct a2; eauto.
Qed.

Lemma tax_amount_resolution_witness :
  exists fields d,
    get_fields tax_only_keys = Ret fields /\
    map_receipt no_float no_date (JObj tax_only_keys) [] [] [] None = Ret d /\
    ((exists t c, get_currency_value no_float (get_d fields "TotalTax" (JObj [])) = Ret (Some t, c)
                  /\ tax_amount d = Some t) \/
     (exists c c', get_currency_value no_float (get_d fields "TotalTax" (JObj [])) = Ret (None, c)
                   /\ get_currency_value no_float (get_d fields "Tax" (JObj [])) = Ret (tax_amount d, c'))).
Proof.
  do 2 eexists.
  split; [vm_compute; reflexivity |].
  split; [vm_compute; reflexivity |].
  apply (proj1 (tax_amount_resolution no_float no_date tax_only_keys _ [] [] [] None _
                  ltac:(vm_compute; reflexivity))).
  vm_compute; reflexivity.
Defined.

(** C8 (code bug): on a receipt with [TotalTax] and then [Tax], both with
    a bounding box, [map_receipt] records the [tax_amount] bounding box of
    [Tax] (box_b, x = 0.3), overwriting the one of [TotalTax] (box_a,
    x = 0.1), while its confidence stays the one of [TotalTax] (0.9). *)
Theorem map_receipt_tax_box_overwritten :
  match map_receipt no_float no_date two_tax_receipt [] [] [] None with
  | Ret d =>
    bounding_boxes d =
      Some [(c_tax_amount,
             mkBoundingBox [(300 # 1000, 50 # 500); (400 # 1000, 50 # 500);
                            (400 # 1000, 150 # 500); (300 # 1000, 150 # 500)]%Q
                           (JNum 1))]
    /\ field_confidence d = Some [(c_tax_amount, JNum (9 # 10))]
  | Raise => False
  end.
Proof. vm_compute. split; reflexivity. Qed.

End MappingFacts.

Module BoxFacts.
Import PyStr Json Exc Models Mapping Samples.

(** C3 (code bug): [_extract_bounding_box] promises normalized
    coordinates (0-1 range) and needs at least 4 points, but (1) an
    invoice payload without [pages] whose total has a bounding region on
    page 1 gets a box with the raw coordinates (100, 50, ...), since
    [_get_page_dimensions] defaults to [{1: (1, 1)}]; and (2) with page
    dimensions 1000 x 500 present, a total whose polygon has 10 values
    gets a box of 5 points, not 4. *)
Lemma bounding_box_defaults_and_point_count :
  (match map_invoice no_float no_date no_pages_payload [] [] [] None with
   | Ret d =>
     bounding_boxes d =
       Some [(c_total,
              mkBoundingBox [(100, 50); (200, 50); (200, 150); (100, 150)]%Q (JNum 1))]
   | Raise => False
   end /\ ~ (100 <= 1)%Q) /\
  match map_invoice no_float no_date pentagon_payload [] [] [] None with
  | Ret d =>
    option_map (map (fun kb => (fst kb, List.length (polygon (snd kb))))) (bounding_boxes d) =
      Some [(c_total, 5%nat)]
  | Raise => False
  end.
Proof.
  split; [split |].
  - vm_compute. reflexivity.
  - intros C. apply Qle_bool_iff in C. vm_compute in C. discriminate.
  - vm_compute. reflexivity.
Qed.

End BoxFacts.

Module DocTypeFacts.
Import PyStr Json Exc Models Mapping Batch Samples.

(** C6 (counterexample): an invoice whose only field is an [InvoiceTotal]
    of 0 is mapped with a non-null [total] (0.0), yet the driver sets its
    [document_type] to ["other"]: the test is Python truthiness, and 0.0
    is falsy. *)
Lemma zero_total_marked_other :
  match map_invoice no_float no_date zero_total_payload [] [] [] None with
  | Ret d => total d = Some 0%Q /\ invoice_number d = JNull /\ supplier_name d = JNull /\
             document_type (decide_document_type d) = of_ascii "other"
  | Raise => False
  end.
Proof. vm_compute. repeat split. Qed.

(** C6 (amended): the driver sets [document_type] to ["invoice"] if and
    only if at least one of [invoice_number], [total], [supplier_name] is
    truthy after mapping (not null, and not 0, an empty string or an empty
    container), and to ["other"] otherwise; the record [process_path]
    appends for a file whose analysis and mapping succeed carries that
    decision on the mapped record. *)
Theorem document_type_truthiness :
  (forall d,
    (document_type (decide_document_type d) = of_ascii "invoice" <->
     truthy (invoice_number d) = true \/ (exists q, total d = Some q /\ ~ (q == 0)%Q) \/
     truthy (supplier_name d) = true) /\
    (document_type (decide_document_type d) = of_ascii "other" <->
     truthy (invoice_number d) = false /\ (forall q, total d = Some q -> (q == 0)%Q) /\
     truthy (supplier_name d) = false)) /\
  (forall fl pd quote analyze ld w uri d w',
    process_body fl pd quote analyze ld w uri = Ret (d, w') ->
    exists parsed fn su lang mapped,
      analyze uri = Ret (parsed, fn, su) /\
      map_invoice fl pd parsed fn su lang (Some (view_url quote su)) = Ret mapped /\
      document_type d = document_type (decide_document_type mapped)).
Proof.
  split.
  - intros d. unfold decide_document_type, truthy_float.
    destruct (truthy (invoice_number d)) eqn:Hn, (total d) as [q|] eqn:Ht,
             (truthy (supplier_name d)) eqn:Hs; simpl;
      try destruct (Qeq_bool q 0) eqn:Hq; simpl;
      (split; split;
       [ intros; try (left; reflexivity); try (right; right; reflexivity);
         try (right; left; exists q; split; [reflexivity | apply Qeq_bool_neq; assumption]);
         try discriminate
       | intros H; try reflexivity;
         try (destruct H as [H | [[q' [H1 H2]] | H]]; try discriminate;
              injection H1 as <-; apply Qeq_bool_iff in Hq; contradiction)
       | intros; try discriminate;
         repeat split; try reflexivity; try (intros q' H'; discriminate);
         try (intros q' H'; injection H' as <-; apply Qeq_bool_iff; assumption)
       | intros [H1 [H2 H3]]; try reflexivity; try discriminate;
         exfalso; apply Qeq_bool_neq in Hq; apply Hq; apply H2; reflexivity ]).
  - intros fl pd quote analyze ld w uri d w' H.
    unfold process_body, bind in H.
    destruct (analyze uri) as [[[parsed fn] su]|] eqn:Ha; [| discriminate].
    destruct (language_of ld parsed) as [lang|] eqn:Hl; [| discriminate].
    destruct (map_invoice fl pd parsed fn su lang (Some (view_url quote su)))
      as [mapped|] eqn:Hm; [| discriminate].
    exists parsed, fn, su, lang, mapped. split; [reflexivity |]. split; [exact Hm |].
    destruct (_move_to_processed w uri) as [nu w1].
    injection H as <- _. unfold validate_invoice_data.
    destruct (pystr_eqb nu uri); reflexivity.
Qed.

Lemma document_type_truthiness_witness :
  exists d w',
    process_body no_float no_date (fun u => u) analyze_zero_total false
                 (world_ab false false) (of_ascii "file:///in/a.pdf") = Ret (d, w') /\
    exists parsed fn su lang mapped,
      analyze_zero_total (of_ascii "file:///in/a.pdf") = Ret (parsed, fn, su) /\
      map_invoice no_float no_date parsed fn su lang (Some (view_url (fun u => u) su)) = Ret mapped /\
      document_type d = document_type (decide_document_type mapped).
Proof.
  do 2 eexists. split; [vm_compute; reflexivity |].
  eapply (proj2 document_type_truthiness no_float no_date (fun u => u) analyze_zero_total
           false (world_ab false false) (of_ascii "file:///in/a.pdf")).
  vm_compute. reflexivity.
Defined.

End DocTypeFacts.

Module MoveFacts.
Import PyStr Json Exc Models PathLib Batch Samples.

Lemma pystr_eqb_eq : forall a b, pystr_eqb a b = true <-> a = b.
Proof.
  induction a as [|x a IH]; intros [|y b]; simpl; split; intro H;
    try reflexivity; try discriminate.
  - apply andb_true_iff in H as [H1 H2]. apply N.eqb_eq in H1. apply IH in H2.
    subst. reflexivity.
  - injection H as <- <-. rewrite N.eqb_refl. simpl. apply IH. reflexivity.
Qed.

Lemma file_exists_in : forall w p,
  file_exists w p = true -> In p (map show_entry (files w)).
Proof.
  intros w p H. unfold file_exists in H. apply existsb_exists in H as [e [He Hq]].
  apply pystr_eqb_eq in Hq. subst. apply in_map. assumption.
Qed.

Lemma uint_digits_inj : forall u v, uint_digits u = uint_digits v -> u = v.
Proof.
  induction u; destruct v; simpl; intro H; try discriminate; try reflexivity;
    injection H as H; f_equal; apply IHu; assumption.
Qed.

Lemma str_nat_inj : forall m n, str_nat m = str_nat n -> m = n.
Proof.
  intros m n H. apply uint_digits_inj in H.
  apply DecimalNat.Unsigned.to_uint_inj. assumption.
Qed.

Lemma join_inj : forall d a b, join d a = join d b -> a = b.
Proof.
  intros d a b. unfold join.
  destruct (pystr_eqb d (of_ascii ".")); [tauto |].
  destruct (ends_with_slash d); intro H; apply app_inv_head in H;
    try (injection H as H); assumption.
Qed.

Lemma candidate_inj : forall pd st sfx,
  Finite.Injective (fun k => join pd (st ++ [95%N] ++ str_nat k ++ sfx)).
Proof.
  intros pd st sfx m n H. apply join_inj, app_inv_head in H.
  injection H as H. apply app_inv_tail in H. apply str_nat_inj. assumption.
Qed.

Lemma find_free_none : forall w pd st sfx fuel c,
  find_free w pd st sfx fuel c = None ->
  forall k, In k (seq c fuel) ->
    file_exists w (join pd (st ++ [95%N] ++ str_nat k ++ sfx)) = true.
Proof.
  induction fuel as [|fuel IH]; intros c H k Hk; simpl in Hk; [contradiction |].
  simpl in H.
  match type of H with context [if ?b then _ else _] => destruct b eqn:Hc end;
    [| discriminate].
  destruct Hk as [<- | Hk]; [exact Hc |]. apply (IH (S c)); assumption.
Qed.

(** The collision loop of [_move_to_processed] always finds a free name
    within one more candidate than there are files. *)
Lemma find_free_total : forall w pd st sfx,
  find_free w pd st sfx (S (List.length (files w))) 1 <> None.
Proof.
  intros w pd st sfx H.
  pose proof (find_free_none _ _ _ _ _ _ H) as Hall.
  set (f := fun k => join pd (st ++ [95%N] ++ str_nat k ++ sfx)).
  assert (Hnd : NoDup (map f (seq 1 (S (List.length (files w)))))).
  { apply Finite.Injective_map_NoDup; [apply candidate_inj | apply seq_NoDup]. }
  assert (Hincl : incl (map f (seq 1 (S (List.length (files w))))) (map show_entry (files w))).
  { intros p Hp. apply in_map_iff in Hp as [k [<- Hk]].
    apply file_exists_in, Hall. assumption. }
  pose proof (NoDup_incl_length Hnd Hincl) as Hlen.
  rewrite !length_map, length_seq in Hlen. lia.
Qed.

Lemma s3_not_file : forall u, prefixb s3_prefix u = true -> prefixb file_prefix u = false.
Proof.
  intros u Hs. destruct (prefixb file_prefix u) eqn:Hf; [| reflexivity].
  exfalso. destruct u as [|c u]; [discriminate |].
  assert (Hhd : forall a p b s, prefixb (a :: p) (b :: s) = true -> a = b).
  { intros a p b s H. simpl in H. apply andb_true_iff in H as [H _].
    apply N.eqb_eq. exact H. }
  pose proof (Hhd 102 (skipn 1 file_prefix) c u Hf) as E1.
  pose proof (Hhd 115 (skipn 1 s3_prefix) c u Hs) as E2.
  rewrite <- E1 in E2. discriminate.
Qed.

Lemma move_s3 : forall w u, prefixb s3_prefix u = true -> _move_to_processed w u = (u, w).
Proof.
  intros w u Hs. unfold _move_to_processed. rewrite (s3_not_file u Hs), Hs. reflexivity.
Qed.

Lemma process_one_ok : forall fl pd quote analyze ld w uri parsed fn su lang mapped,
  analyze uri = Ret (parsed, fn, su) ->
  language_of ld parsed = Ret lang ->
  Mapping.map_invoice fl pd parsed fn su lang (Some (view_url quote su)) = Ret mapped ->
  let v := decide_document_type mapped in
  let '(nu, w') := _move_to_processed w uri in
  process_one fl pd quote analyze ld w uri =
    ((if pystr_eqb nu uri then v else with_location v nu (Some (view_url quote nu))), w').
Proof.
  intros fl pd quote analyze ld w uri parsed fn su lang mapped Ha Hl Hm v.
  unfold process_one, process_body, bind. rewrite Ha, Hl, Hm.
  destruct (_move_to_processed w uri) as [nu w']. reflexivity.
Qed.

(** C10: [_move_to_processed] returns a path and never raises: an
    [s3://] URI comes back unchanged with the world untouched; for a local
    path (with or without [file://]) a missing source, a failing
    [mkdir] of [<parent>/processed] or a failing move gives back the
    original URI and the world untouched; the collision loop always finds
    a free name; and a file whose read, analysis, language detection and
    mapping succeed gets its mapped record (with the document-type
    decision) whatever the move does, relocated only when the move
    returned a different path, never the sentinel. *)
Theorem move_to_processed_total :
  (forall w u, prefixb s3_prefix u = true -> _move_to_processed w u = (u, w)) /\
  (forall w u,
    let fp := if prefixb file_prefix u then skipn 7 u else u in
    prefixb s3_prefix u = false ->
    file_exists w fp = false \/
    mkdir_fails w (join (parent fp) (of_ascii "processed")) = true \/
    move_fails w fp = true ->
    _move_to_processed w u = (u, w)) /\
  (forall w pd st sfx, find_free w pd st sfx (S (List.length (files w))) 1 <> None) /\
  (forall fl pd quote analyze ld w uri parsed fn su lang mapped,
    analyze uri = Ret (parsed, fn, su) ->
    language_of ld parsed = Ret lang ->
    Mapping.map_invoice fl pd parsed fn su lang (Some (view_url quote su)) = Ret mapped ->
    let v := decide_document_type mapped in
    let '(nu, w') := _move_to_processed w uri in
    process_one fl pd quote analyze ld w uri =
      ((if pystr_eqb nu uri then v else with_location v nu (Some (view_url quote nu))), w')).
Proof.
  split; [| split; [| split]].
  - exact move_s3.
  - intros w u fp Hs Hfail. unfold _move_to_processed.
    assert (Hb : move_body w fp (prefixb file_prefix u) u = Ret (u, w) \/
                 move_body w fp (prefixb file_prefix u) u = Raise).
    { unfold move_body, parent in *.
      destruct (file_exists w fp) eqn:He; simpl; [| left; reflexivity].
      destruct (split_path fp) as [par nm]. simpl in Hfail.
      destruct Hfail as [Hfail | [Hfail | Hfail]]; [discriminate | |].
      - rewrite Hfail. right. reflexivity.
      - right. destruct (mkdir_fails w (join par (of_ascii "processed"))
                        || file_exists w (join par (of_ascii "processed"))); [reflexivity |].
        rewrite Hfail. reflexivity. }
    unfold fp in Hb.
    destruct (prefixb file_prefix u); [| rewrite Hs];
      destruct Hb as [Hb | Hb]; rewrite Hb; reflexivity.
  - exact find_free_total.
  - exact process_one_ok.
Qed.

Lemma move_to_processed_total_witness :
  _move_to_processed (world_ab false true) (of_ascii "file:///in/a.pdf")
    = (of_ascii "file:///in/a.pdf", world_ab false true) /\
  process_one no_float no_date (fun u => u) analyze_zero_total false
              (world_ab false true) (of_ascii "file:///in/a.pdf")
    = (decide_document_type
         (match Mapping.map_invoice no_float no_date zero_total_payload (of_ascii "a.pdf")
                  (of_ascii "file:///in/a.pdf") (of_ascii "en")
                  (Some (view_url (fun u => u) (of_ascii "file:///in/a.pdf"))) with
          | Ret m => m | Raise => sentinel [] end),
       world_ab false true).
Proof.
  split.
  - apply (proj1 (proj2 move_to_processed_total)); [reflexivity |].
    right. right. reflexivity.
  - exact (proj2 (proj2 (proj2 move_to_processed_total))
             no_float no_date (fun u => u) analyze_zero_total false (world_ab false true)
             (of_ascii "file:///in/a.pdf") zero_total_payload (of_ascii "a.pdf")
             (of_ascii "file:///in/a.pdf") (of_ascii "en") _ eq_refl eq_refl
             ltac:(vm_compute; reflexivity)).
Defined.

End MoveFacts.

Module DriverFacts.
Import PyStr Json Exc Models PathLib Batch Samples.

Section Run.
Variable fl : pystr -> option Q.
Variable pd : json -> option pystr.
Variable quote : pystr -> pystr.
Variable analyze : pystr -> Result (json * pystr * pystr).
Variable ld : bool.

Lemma process_all_length : forall uris w,
  List.length (fst (process_all fl pd quote analyze ld w uris)) = List.length uris.
Proof.
  induction uris as [|u rest IH]; intros w; [reflexivity |].
  simpl. destruct (process_one fl pd quote analyze ld w u) as [r w1].
  specialize (IH w1).
  destruct (process_all fl pd quote analyze ld w1 rest) as [recs w2].
  simpl in *. rewrite IH. reflexivity.
Qed.
End Run.

(** C2: [process_path] appends exactly one record per URI of the window
    [uris[starting_point:end_point]], in order; it raises only when the
    discovery itself raises, never because of one file; when the
    processing of a file raises, its record is the sentinel and the
    remaining files are processed from the same state; the sentinel has
    [document_type = "other"], [confidence = 0.0] and [supplier_name],
    [invoice_number], [invoice_date], [currency], [subtotal],
    [tax_amount], [total], [line_items] all null. *)
Theorem process_path_one_record_per_file :
  (forall fl pd quote analyze ld w path recursive sp bs uris,
    discover w path recursive = Ret uris ->
    exists results w',
      process_path fl pd quote analyze w path recursive ld sp bs
        = Ret (results, List.length uris, List.length (batch_window uris sp bs), w') /\
      results = fst (process_all fl pd quote analyze ld w (batch_window uris sp bs)) /\
      List.length results = List.length (batch_window uris sp bs)) /\
  (forall fl pd quote analyze ld w path recursive sp bs,
    process_path fl pd quote analyze w path recursive ld sp bs = Raise ->
    discover w path recursive = Raise) /\
  (forall fl pd quote analyze ld w uri rest,
    process_body fl pd quote analyze ld w uri = Raise ->
    process_all fl pd quote analyze ld w (uri :: rest)
      = (sentinel uri :: fst (process_all fl pd quote analyze ld w rest),
         snd (process_all fl pd quote analyze ld w rest))) /\
  (forall uri,
    document_type (sentinel uri) = of_ascii "other" /\ confidence (sentinel uri) = Some 0%Q /\
    supplier_name (sentinel uri) = JNull /\ invoice_number (sentinel uri) = JNull /\
    invoice_date (sentinel uri) = None /\ currency (sentinel uri) = JNull /\
    subtotal (sentinel uri) = None /\ tax_amount (sentinel uri) = None /\
    total (sentinel uri) = None /\ line_items (sentinel uri) = None).
Proof.
  split; [| split; [| split]].
  - intros fl pd quote analyze ld w path recursive sp bs uris Hd.
    pose proof (process_all_length fl pd quote analyze ld (batch_window uris sp bs) w) as Hl.
    unfold process_path, bind. rewrite Hd.
    destruct (process_all fl pd quote analyze ld w (batch_window uris sp bs)) as [res w'].
    exists res, w'. repeat split. exact Hl.
  - intros fl pd quote analyze ld w path recursive sp bs H.
    unfold process_path, bind in H.
    destruct (discover w path recursive); [| reflexivity].
    destruct (process_all _ _ _ _ _ _ _). discriminate.
  - intros fl pd quote analyze ld w uri rest H.
    simpl. unfold process_one at 1. rewrite H.
    destruct (process_all fl pd quote analyze ld w rest). reflexivity.
  - intros uri. repeat split.
Qed.

Lemma process_path_one_record_per_file_witness :
  (exists results w',
    process_path no_float no_date (fun u => u) analyze_fail (world_ab false false)
                 (of_ascii "/in") false false 0 5
      = Ret (results, List.length [of_ascii "file:///in/a.pdf"; of_ascii "file:///in/b.pdf"],
             List.length (batch_window [of_ascii "file:///in/a.pdf"; of_ascii "file:///in/b.pdf"] 0 5),
             w') /\
    results = fst (process_all no_float no_date (fun u => u) analyze_fail false
                     (world_ab false false)
                     (batch_window [of_ascii "file:///in/a.pdf"; of_ascii "file:///in/b.pdf"] 0 5)) /\
    List.length results
      = List.length (batch_window [of_ascii "file:///in/a.pdf"; of_ascii "file:///in/b.pdf"] 0 5)) /\
  process_all no_float no_date (fun u => u) analyze_fail false (world_ab false false)
              [of_ascii "file:///in/a.pdf"; of_ascii "file:///in/b.pdf"]
    = (sentinel (of_ascii "file:///in/a.pdf") ::
         fst (process_all no_float no_date (fun u => u) analyze_fail false
                (world_ab false false) [of_ascii "file:///in/b.pdf"]),
       snd (process_all no_float no_date (fun u => u) analyze_fail false
              (world_ab false false) [of_ascii "file:///in/b.pdf"])).
Proof.
  split.
  - apply (proj1 process_path_one_record_per_file). vm_compute. reflexivity.
  - apply (proj1 (proj2 (proj2 process_path_one_record_per_file))). reflexivity.
Defined.

End DriverFacts.

Module GatewayFacts.
Import PyStr Json Gateway GatewaySpec.

Lemma poll_step_pending : forall n r rest sl,
  pending_poll r = true ->
  poll_loop (S n) (mkSt (r :: rest) sl) = poll_loop n (mkSt rest (sl ++ [1%Z])).
Proof.
  intros n r rest sl H. unfold pending_poll in H.
  apply andb_true_iff in H as [H2 Hb].
  destruct (body r) as [[| | | | | dk]|] eqn:Eb; try discriminate.
  apply andb_true_iff in Hb as [Hh Ht].
  simpl. unfold bind, http, raise_for_status. simpl. rewrite H2. simpl.
  unfold json_of. rewrite Eb. simpl.
  unfold poll_status in Hh, Ht.
  unfold in_terminal. rewrite Hh. simpl.
  unfold is_terminal_status in Ht.
  destruct (if truthy (get dk "status") then get dk "status" else get dk "operationState");
    simpl in Ht |- *; try reflexivity.
  apply negb_true_iff in Ht. rewrite Ht. reflexivity.
Qed.

Lemma poll_step_terminal : forall n r dk rest sl,
  is_2xx (status_code r) = true -> body r = Some (JObj dk) ->
  is_terminal_status (poll_status dk) = true ->
  poll_loop (S n) (mkSt (r :: rest) sl) = (Val (analysis_payload dk), mkSt rest sl).
Proof.
  intros n r dk rest sl H2 Eb Ht.
  simpl. unfold bind, http, raise_for_status. simpl. rewrite H2. simpl.
  unfold json_of. rewrite Eb. simpl.
  unfold poll_status in Ht. unfold in_terminal.
  destruct (if truthy (get dk "status") then get dk "status" else get dk "operationState");
    simpl in Ht |- *; try discriminate.
  rewrite Ht. reflexivity.
Qed.

Lemma poll_pending_prefix : forall ps n rest sl,
  Forall (fun r => pending_poll r = true) ps ->
  poll_loop (List.length ps + n) (mkSt (ps ++ rest) sl)
    = poll_loop n (mkSt rest (sl ++ repeat 1%Z (List.length ps))).
Proof.
  induction ps as [|r ps IH]; intros n rest sl Hps.
  - simpl. rewrite app_nil_r. reflexivity.
  - inversion Hps as [|? ? Hr Hps']; subst.
    simpl (List.length (r :: ps) + n)%nat. simpl ((r :: ps) ++ rest).
    rewrite poll_step_pending by assumption. rewrite IH by assumption.
    rewrite <- app_assoc. reflexivity.
Qed.

(** C5: [_poll_operation] polls at most 60 times: after [k < 60]
    successful polls reporting a non-terminal status and one successful
    poll reporting [succeeded], [failed] or [partiallySucceeded], it
    returns [data.get("analyzeResult") or data] of that last poll, having
    slept 1 second after each of the [k] earlier polls and made no
    further request; after 60 non-terminal polls it raises
    [TimeoutError] having slept 1 second 60 times; and a poll response
    [{"status": s, "analyzeResult": ar}] gives the same [ar] for each of
    the three terminal states [s]. *)
Theorem poll_operation_bounded :
  (forall ps r dk rest sl,
    Forall (fun r => pending_poll r = true) ps -> (List.length ps < 60)%nat ->
    is_2xx (status_code r) = true -> body r = Some (JObj dk) ->
    is_terminal_status (poll_status dk) = true ->
    _poll_operation (mkSt (ps ++ r :: rest) sl)
      = (Val (analysis_payload dk), mkSt rest (sl ++ repeat 1%Z (List.length ps)))) /\
  (forall ps rest sl,
    Forall (fun r => pending_poll r = true) ps -> List.length ps = 60%nat ->
    _poll_operation (mkSt (ps ++ rest) sl) = (Err TimeoutError, mkSt rest (sl ++ repeat 1%Z 60))) /\
  (forall s ar rest sl,
    In s terminal_states -> truthy ar = true ->
    _poll_operation (mkSt (poll_resp [(of_ascii "status", JStr s); (of_ascii "analyzeResult", ar)]
                             :: rest) sl)
      = (Val ar, mkSt rest sl)).
Proof.
  split; [| split].
  - intros ps r dk rest sl Hps Hlen H2 Eb Ht. unfold _poll_operation.
    replace 60%nat with (List.length ps + S (59 - List.length ps))%nat by lia.
    rewrite poll_pending_prefix by assumption.
    apply poll_step_terminal; assumption.
  - intros ps rest sl Hps Hlen. unfold _poll_operation.
    replace 60%nat with (List.length ps + 0)%nat by lia.
    rewrite poll_pending_prefix by assumption.
    rewrite Nat.add_0_r, Hlen. reflexivity.
  - intros s ar rest sl Hs Har. unfold _poll_operation.
    rewrite (poll_step_terminal 59 _ [(of_ascii "status", JStr s); (of_ascii "analyzeResult", ar)]);
      [| reflexivity | reflexivity |].
    + unfold analysis_payload.
      replace (get [(of_ascii "status", JStr s); (of_ascii "analyzeResult", ar)] "analyzeResult")
        with ar by reflexivity.
      rewrite Har. reflexivity.
    + simpl in Hs. destruct Hs as [<- | [<- | [<- | []]]]; reflexivity.
Qed.

Lemma retry_after_secs_ok : forall r i d s,
  retry_delay r i = Some d -> retry_after_secs r i s = (Val d, s).
Proof.
  intros r i d s H. unfold retry_delay in H. unfold retry_after_secs.
  destruct (retry_after r) as [h|].
  - rewrite H. reflexivity.
  - injection H as <-. reflexivity.
Qed.

Lemma submit_429 : forall max a r rest sl d,
  status_code r = 429%Z -> retry_delay r a = Some d ->
  submit_once max a (mkSt (r :: rest) sl)
    = if Nat.ltb a (max - 1) then (Val None, mkSt rest (sl ++ [d]))
      else (Err (HTTPStatusError r), mkSt rest sl).
Proof.
  intros max a r rest sl d Hc Hd.
  unfold submit_once, bind at 1, http. simpl. rewrite Hc. simpl.
  unfold bind at 1. unfold bind at 1. rewrite (retry_after_secs_ok _ _ _ _ Hd).
  destruct (Nat.ltb a (max - 1)); [reflexivity |].
  unfold ret at 1. simpl. unfold bind, raise_for_status. rewrite Hc. reflexivity.
Qed.

Lemma attempts_all_429 : forall rs a max rest sl le r0,
  rs <> [] -> Forall (fun r => status_code r = 429%Z) rs ->
  (forall i r, nth_error rs i = Some r -> retry_delay r (a + i) <> None) ->
  (a + List.length rs = max)%nat ->
  attempts max a (List.length rs) le (mkSt (rs ++ rest) sl)
    = (Err (HTTPStatusError (last rs r0)), mkSt rest (sl ++ backoff rs a)).
Proof.
  induction rs as [|r rs IH]; intros a max rest sl le r0 Hne H429 Hd Hlen;
    [contradiction |].
  apply Forall_cons_iff in H429 as [Hc H429'].
  destruct (retry_delay r a) as [d|] eqn:Ed;
    [| exfalso; apply (Hd 0%nat r); [reflexivity | rewrite Nat.add_0_r; exact Ed]].
  simpl (List.length (r :: rs)). simpl ((r :: rs) ++ rest).
  simpl attempts. rewrite (submit_429 _ _ _ _ _ _ Hc Ed).
  destruct rs as [|r2 rs'].
  - simpl in Hlen. replace (Nat.ltb a (max - 1)) with false by (symmetry; apply Nat.ltb_ge; lia).
    rewrite Hc. simpl. rewrite app_nil_r. reflexivity.
  - simpl in Hlen. replace (Nat.ltb a (max - 1)) with true by (symmetry; apply Nat.ltb_lt; lia).
    rewrite (IH (S a) max rest (sl ++ [d]) le r0).
    + change (backoff (r :: r2 :: rs') a) with
        (match retry_delay r a with Some d => d | None => 0%Z end :: backoff (r2 :: rs') (S a)).
      rewrite Ed, <- app_assoc. reflexivity.
    + discriminate.
    + assumption.
    + intros i r' Hi. replace (S a + i)%nat with (a + S i)%nat by lia. apply (Hd (S i)). exact Hi.
    + simpl. lia.
Qed.

Lemma attempts_non_429 : forall max a fuel le r rest sl,
  is_2xx (status_code r) = false -> status_code r <> 429%Z ->
  attempts max a (S fuel) le (mkSt (r :: rest) sl) = (Err (HTTPStatusError r), mkSt rest sl).
Proof.
  intros max a fuel le r rest sl H2 H429.
  assert (Hacc : ((status_code r =? 200) || (status_code r =? 202))%Z = false).
  { unfold is_2xx in H2.
    destruct (Z.eqb_spec (status_code r) 200) as [E|]; [rewrite E in H2; discriminate |].
    destruct (Z.eqb_spec (status_code r) 202) as [E|]; [rewrite E in H2; discriminate |].
    reflexivity. }
  apply Z.eqb_neq in H429.
  simpl attempts. unfold submit_once, bind at 1, http. simpl.
  rewrite Hacc, H429. simpl. unfold raise_for_status. rewrite H2. simpl.
  rewrite H429. reflexivity.
Qed.

Lemma attempts_bad_retry_after : forall max a fuel le r h rest sl,
  status_code r = 429%Z -> retry_after r = Some h -> py_int h = None ->
  attempts max a (S fuel) le (mkSt (r :: rest) sl) = (Err ValueError, mkSt rest sl).
Proof.
  intros max a fuel le r h rest sl Hc Hh Hp.
  simpl attempts. unfold submit_once, bind at 1, http. simpl.
  rewrite Hc. simpl. unfold bind at 1. unfold bind at 1.
  unfold retry_after_secs. rewrite Hh, Hp. reflexivity.
Qed.

Lemma poll_operation_bounded_witness :
  _poll_operation
    (mkSt ([poll_resp [(of_ascii "status", JStr (of_ascii "running"))]] ++
           poll_resp [(of_ascii "status", JStr (of_ascii "partiallySucceeded"));
                      (of_ascii "analyzeResult", JObj [(of_ascii "content", JStr [])])] :: []) [])
    = (Val (analysis_payload
              [(of_ascii "status", JStr (of_ascii "partiallySucceeded"));
               (of_ascii "analyzeResult", JObj [(of_ascii "content", JStr [])])]),
       mkSt [] ([] ++ repeat 1%Z (List.length [poll_resp [(of_ascii "status", JStr (of_ascii "running"))]]))).
Proof.
  apply (proj1 poll_operation_bounded);
    [repeat constructor | simpl; lia | reflexivity | reflexivity | reflexivity].
Defined.

(** C4 (code bug): the rate-limit handling of [_post_analyze] is meant
    to retry a 429 after the provider's interval, but a [Retry-After]
    header given as an HTTP date makes [int(...)] raise [ValueError] at
    the first attempt: with three attempts allowed and a successful
    response waiting, the submission fails at once, with no sleep and no
    retry. *)
Lemma retry_after_date_no_retry :
  _post_analyze 3
    (mkSt [resp_429 (Some (of_ascii "Wed, 21 Oct 2015 07:28:00 GMT"));
           mkResp 200 None None (Some (JObj []))] [])
    = (Err ValueError, mkSt [mkResp 200 None None (Some (JObj []))] []).
Proof. vm_compute. reflexivity. Qed.

(** Retry policy of [_post_analyze]: a non-2xx submit response other than 429 raises its
    [HTTPStatusError] at once, with no retry and no sleep; when all
    [max_retries >= 1] attempts get a 429 whose [Retry-After] is absent or
    an integer, the submission sleeps after each attempt but the last,
    for the [Retry-After] value when present and [2 ** attempt] seconds
    otherwise, and then raises the [HTTPStatusError] of the last
    response; a 429 whose [Retry-After] is present but not an integer
    raises [ValueError] at once, with no sleep and no retry. *)
Theorem post_analyze_retry_policy :
  (forall max_retries r rest sl,
    (0 < max_retries)%nat -> is_2xx (status_code r) = false -> status_code r <> 429%Z ->
    _post_analyze max_retries (mkSt (r :: rest) sl) = (Err (HTTPStatusError r), mkSt rest sl)) /\
  (forall max_retries rs rest sl r0,
    List.length rs = max_retries -> (0 < max_retries)%nat ->
    Forall (fun r => status_code r = 429%Z) rs ->
    (forall i r, nth_error rs i = Some r -> retry_delay r i <> None) ->
    _post_analyze max_retries (mkSt (rs ++ rest) sl)
      = (Err (HTTPStatusError (last rs r0)), mkSt rest (sl ++ backoff rs 0))) /\
  (forall max_retries a fuel last_error r h rest sl,
    status_code r = 429%Z -> retry_after r = Some h -> py_int h = None ->
    attempts max_retries a (S fuel) last_error (mkSt (r :: rest) sl)
      = (Err ValueError, mkSt rest sl)).
Proof.
  split; [| split].
  - intros max_retries r rest sl Hm H2 H429. unfold _post_analyze.
    destruct max_retries as [|m]; [lia |]. apply attempts_non_429; assumption.
  - intros max_retries rs rest sl r0 Hl Hm H429 Hd. unfold _post_analyze.
    rewrite <- Hl. apply attempts_all_429.
    + intros ->. simpl in Hl. lia.
    + assumption.
    + intros i r Hi. apply Hd. exact Hi.
    + reflexivity.
  - exact attempts_bad_retry_after.
Qed.

Lemma post_analyze_retry_policy_witness :
  _post_analyze 3 (mkSt ([resp_429 None; resp_429 (Some (of_ascii " 7 ")); resp_429 None] ++ []) [])
    = (Err (HTTPStatusError (last [resp_429 None; resp_429 (Some (of_ascii " 7 ")); resp_429 None]
                                  (resp_429 None))),
       mkSt [] ([] ++ backoff [resp_429 None; resp_429 (Some (of_ascii " 7 ")); resp_429 None] 0)) /\
  backoff [resp_429 None; resp_429 (Some (of_ascii " 7 ")); resp_429 None] 0 = [1%Z; 7%Z].
Proof.
  split; [| reflexivity].
  apply (proj1 (proj2 post_analyze_retry_policy)).
  - reflexivity.
  - lia.
  - repeat constructor.
  - intros [|[|[|i]]] r Hi; simpl in Hi;
      [injection Hi as <- | injection Hi as <- | injection Hi as <- | destruct i; discriminate];
      discriminate.
Defined.

End GatewayFacts.

Module CursorFacts.
Import PyStr Json Exc Models PathLib Batch Samples MoveFacts.


Lemma pystr_eqb_false : forall a b, pystr_eqb a b = false <-> a <> b.
Proof.
  intros a b. rewrite <- pystr_eqb_eq. destruct (pystr_eqb a b); split; congruence.
Qed.











Lemma prefixb_app : forall p s, prefixb p (p ++ s) = true.
Proof. induction p as [|x p IH]; intros s; simpl; [reflexivity | rewrite N.eqb_refl, IH; reflexivity]. Qed.















Section LocalRun.
Variable fl : pystr -> option Q.
Variable pd : json -> option pystr.
Variable quote : pystr -> pystr.
Variable analyze : pystr -> Result (json * pystr * pystr).
Variable ld : bool.
Variable root c : pystr.
Hypothesis Hok : forall u, exists parsed fn su lang mapped,
  analyze u = Ret (parsed, fn, su) /\ language_of ld parsed = Ret lang /\
  Mapping.map_invoice fl pd parsed fn su lang (Some (view_url quote su)) = Ret mapped.


End LocalRun.









Section LocalCalls.
Variable fl : pystr -> option Q.
Variable pd : json -> option pystr.
Variable quote : pystr -> pystr.
Variable analyze : pystr -> Result (json * pystr * pystr).
Variable ld : bool.
Variable root c path : pystr.
Variable W : Z.
Hypothesis Hok : forall u, exists parsed fn su lang mapped,
  analyze u = Ret (parsed, fn, su) /\ language_of ld parsed = Ret lang /\
  Mapping.map_invoice fl pd parsed fn su lang (Some (view_url quote su)) = Ret mapped.
Hypothesis HW : (0 <= W)%Z.
Hypothesis Hdisc : forall w, discover w path false = Ret (discover_local w root false).

End LocalCalls.













End CursorFacts.

Module ClassifierProps.
Import PyStr PyFloat Classifier.
Import Samples.

Lemma hits_le : forall kws low, (hits kws low <= List.length kws)%nat.
Proof. intros kws low. unfold hits. apply filter_length_le. Qed.

(** The capped scores [min(1.0, 0.4 + 0.2 * n)] for the hit counts the
    keyword lists allow, evaluated in binary64. *)
Lemma hit_score_range : forall n, (1 <= n <= 6)%nat ->
  fleb f0_6 (min1 (hit_score n)) = true /\ fleb (min1 (hit_score n)) f1_0 = true /\
  fleb f0_0 (min1 (hit_score n)) = true /\ min1 (hit_score n) <> f0_0.
Proof.
  intros n Hn.
  do 7 (destruct n as [|n]; [try lia; vm_compute; repeat split; discriminate |]).
  lia.
Qed.

(** [classify_text] always returns a score in [0.0, 1.0]; a [receipt] or
    [invoice] label comes with a score of at least 0.6; and the score is
    0.0 exactly for the empty text.  Scores compared as binary64 floats. *)
Theorem classify_text_score_range : forall text,
  let '(label, score) := classify_text text in
  fleb f0_0 score = true /\ fleb score f1_0 = true /\
  ((label = receipt \/ label = invoice) -> fleb f0_6 score = true) /\
  (score = f0_0 <-> text = []).
Proof.
  intros text. unfold classify_text.
  destruct text as [|c t].
  - split; [vm_compute; reflexivity |]. split; [vm_compute; reflexivity |].
    split; [intros [H|H]; discriminate |]. split; reflexivity.
  - set (low := lower (c :: t)).
    pose proof (hits_le RECEIPT_KEYWORDS low) as Br.
    pose proof (hits_le INVOICE_KEYWORDS low) as Bi.
    set (r := hits RECEIPT_KEYWORDS low) in *. set (i := hits INVOICE_KEYWORDS low) in *.
    simpl in Br, Bi.
    destruct (Nat.eqb (r + i) 0).
    { destruct (existsb (contains low) GENERIC_SIGNALS);
        (split; [vm_compute; reflexivity |]; split; [vm_compute; reflexivity |];
         split; [intros [H|H]; discriminate |];
         split; [intros H; vm_compute in H; discriminate H | discriminate]). }
    destruct (Nat.ltb i r && Nat.leb 1 r) eqn:E1.
    { apply andb_true_iff in E1 as [_ E1]. apply Nat.leb_le in E1.
      destruct (hit_score_range r ltac:(lia)) as (L & U & Z0 & NZ).
      split; [exact Z0 |]. split; [exact U |]. split; [intros _; exact L |].
      split; [intros H; contradiction | discriminate]. }
    destruct (Nat.ltb r i && Nat.leb 1 i) eqn:E2.
    { apply andb_true_iff in E2 as [_ E2]. apply Nat.leb_le in E2.
      destruct (hit_score_range i ltac:(lia)) as (L & U & Z0 & NZ).
      split; [exact Z0 |]. split; [exact U |]. split; [intros _; exact L |].
      split; [intros H; contradiction | discriminate]. }
    split; [vm_compute; reflexivity |]. split; [vm_compute; reflexivity |].
    split; [intros [H|H]; discriminate |].
    split; [intros H; vm_compute in H; discriminate H | discriminate].
Qed.

Lemma classify_text_score_range_witness :
  let '(label, score) := classify_text sample_text in
  fleb f0_0 score = true /\ fleb score f1_0 = true /\
  ((label = receipt \/ label = invoice) -> fleb f0_6 score = true) /\
  (score = f0_0 <-> sample_text = []).
Proof. exact (classify_text_score_range sample_text). Defined.

End ClassifierProps.

Module DiscoveryProps.
Import PyStr Json Exc PathLib Batch MoveFacts CursorFacts.
Import Samples.

Lemma filter_incl_mono : forall {A} (f g : A -> bool) l,
  (forall x, In x l -> f x = true -> g x = true) -> incl (filter f l) (filter g l).
Proof.
  intros A f g l H x Hx. apply filter_In in Hx as [Hin Hf].
  apply filter_In. split; [exact Hin | apply H; assumption].
Qed.

Lemma discover_local_rec_incl : forall w root,
  incl (discover_local w root false) (discover_local w root true).
Proof.
  intros w root. unfold discover_local. apply incl_map, filter_incl_mono.
  intros e _ H. apply andb_true_iff in H as [H1 H2]. rewrite H2, andb_true_r.
  unfold under. rewrite H1. reflexivity.
Qed.

(** [discover] with [recursive=True] finds every URI the non-recursive
    call finds, and both calls raise on the same paths. *)
Theorem discover_recursive_superset : forall w path,
  match discover w path false, discover w path true with
  | Ret l1, Ret l2 => incl l1 l2
  | Raise, Raise => True
  | _, _ => False
  end.
Proof.
  intros w path. unfold discover.
  destruct (prefixb file_prefix path); [apply discover_local_rec_incl |].
  destruct (prefixb s3_prefix path); [| apply discover_local_rec_incl].
  unfold discover_s3. destruct (split_first_slash (skipn 5 path)) as [bucket prefix].
  destruct bucket as [|b bucket]; [exact I |].
  apply incl_map, filter_incl_mono. intros bk _ H.
  apply andb_true_iff in H as [H H4]. apply andb_true_iff in H as [H _].
  rewrite H, H4. reflexivity.
Qed.

(** [discover] on [s3://<rest>] raises when the bucket part of [rest] is
    empty; otherwise every URI it returns is [s3://<bucket>/<key>] for a
    key of that bucket that starts with the requested prefix (the text after
    the first slash, cut at its first newline as the regular expression's
    [.*] stops there) and has a supported extension, and without
    [recursive] the key has no slash after the prefix (besides leading and
    trailing ones). *)
Theorem discover_s3_listing : forall w rest recursive,
  let (bucket, after) := split_first_slash rest in
  let prefix := take_line after in
  (bucket = [] -> discover w (s3_prefix ++ rest) recursive = Raise) /\
  (forall l, discover w (s3_prefix ++ rest) recursive = Ret l ->
   forall u, In u l -> exists key,
     u = s3_prefix ++ bucket ++ [slash] ++ key /\
     In (bucket, key) (bucket_keys w) /\
     prefixb prefix key = true /\ is_supported key = true /\
     (recursive = false -> ~ In slash (strip_slashes (skipn (List.length prefix) key)))).
Proof.
  intros w rest recursive.
  assert (Hd : discover w (s3_prefix ++ rest) recursive = discover_s3 w rest recursive).
  { unfold discover. rewrite (s3_not_file _ (prefixb_app s3_prefix rest)), prefixb_app.
    reflexivity. }
  rewrite Hd. unfold discover_s3.
  destruct (split_first_slash rest) as [bucket after]. cbv zeta.
  split; [intros ->; reflexivity |].
  intros l Hl u Hu. destruct bucket as [|b bucket]; [discriminate |].
  injection Hl as <-. apply in_map_iff in Hu as [[bk key] [<- Hin]].
  apply filter_In in Hin as [Hin Hc]. simpl in Hc.
  apply andb_true_iff in Hc as [Hc Hsup]. apply andb_true_iff in Hc as [Hc Hrec].
  apply andb_true_iff in Hc as [Hb Hpre]. apply pystr_eqb_eq in Hb. subst bk.
  exists key. split; [reflexivity |]. split; [exact Hin |]. split; [exact Hpre |].
  split; [exact Hsup |].
  intros ->. simpl in Hrec. apply negb_true_iff in Hrec. intros Hsl.
  assert (Hex : existsb (fun c => (c =? slash)%N)
                  (strip_slashes (skipn (List.length (take_line after)) key)) = true).
  { apply existsb_exists. exists slash. split; [exact Hsl | apply N.eqb_refl]. }
  congruence.
Qed.

Lemma discover_s3_listing_witness :
  discover world_s3 (s3_prefix ++ of_ascii "b/") false
    = Ret [of_ascii "s3://b/x.pdf"; of_ascii "s3://b/y.pdf"; of_ascii "s3://b/z.pdf"] /\
  exists key,
    of_ascii "s3://b/y.pdf" = s3_prefix ++ of_ascii "b" ++ [slash] ++ key /\
    In (of_ascii "b", key) (bucket_keys world_s3) /\
    prefixb [] key = true /\ is_supported key = true /\
    (false = false -> ~ In slash (strip_slashes (skipn (List.length (@nil N)) key))).
Proof.
  assert (Hd : discover world_s3 (s3_prefix ++ of_ascii "b/") false
    = Ret [of_ascii "s3://b/x.pdf"; of_ascii "s3://b/y.pdf"; of_ascii "s3://b/z.pdf"])
    by (vm_compute; reflexivity).
  split; [exact Hd |].
  exact (proj2 (discover_s3_listing world_s3 (of_ascii "b/") false) _ Hd
           (of_ascii "s3://b/y.pdf") (or_intror (or_introl eq_refl))).
Defined.

End DiscoveryProps.

Module PageDimsProps.
Import PyStr Json Exc Mapping MapperSpec MoveFacts.

Lemma Qeq_bool_sym : forall x y, Qeq_bool x y = Qeq_bool y x.
Proof.
  intros x y. destruct (Qeq_bool x y) eqn:E; symmetry.
  - apply Qeq_bool_iff. apply Qeq_bool_iff in E. symmetry. exact E.
  - apply Qeq_bool_neq in E. destruct (Qeq_bool y x) eqn:F; [| reflexivity].
    exfalso. apply E. apply Qeq_bool_iff in F. symmetry. exact F.
Qed.

Lemma pystr_eqb_sym : forall a b, pystr_eqb a b = pystr_eqb b a.
Proof.
  intros a b. destruct (pystr_eqb a b) eqn:E.
  - apply pystr_eqb_eq in E. subst. symmetry. apply pystr_eqb_eq. reflexivity.
  - destruct (pystr_eqb b a) eqn:F; [| reflexivity].
    apply pystr_eqb_eq in F. subst. rewrite <- E. apply pystr_eqb_eq. reflexivity.
Qed.

Lemma key_eqb_sym : forall a b, key_eqb a b = key_eqb b a.
Proof.
  intros [] []; unfold key_eqb; simpl; try reflexivity;
    try apply Qeq_bool_sym; apply pystr_eqb_sym.
Qed.

Lemma key_eqb_trans : forall a b c,
  key_eqb a b = true -> key_eqb b c = true -> key_eqb a c = true.
Proof.
  intros [] [] []; unfold key_eqb; simpl; intros H1 H2; try discriminate; try reflexivity;
    first [ apply Qeq_bool_iff; apply Qeq_bool_iff in H1, H2; eapply Qeq_trans; eassumption
          | apply pystr_eqb_eq in H1, H2; subst; apply pystr_eqb_eq; reflexivity ].
Qed.

Lemma jlookup_cons : forall {V} k k0 (v0 : V) d,
  jlookup k ((k0, v0) :: d) = if key_eqb k0 k then Some v0 else jlookup k d.
Proof. intros. unfold jlookup. simpl. destruct (key_eqb k0 k); reflexivity. Qed.

Lemma jlookup_jset : forall {V} k k' (v : V) d,
  jlookup k (jset k' v d) = if key_eqb k' k then Some v else jlookup k d.
Proof.
  intros V k k' v d. induction d as [|[k0 v0] d IH]; simpl.
  - unfold jlookup. simpl. destruct (key_eqb k' k); reflexivity.
  - destruct (key_eqb k0 k') eqn:E0; rewrite !jlookup_cons.
    + destruct (key_eqb k0 k) eqn:E1; destruct (key_eqb k' k) eqn:E2; try reflexivity.
      * rewrite key_eqb_sym in E0. rewrite (key_eqb_trans _ _ _ E0 E1) in E2. discriminate.
      * rewrite (key_eqb_trans _ _ _ E0 E2) in E1. discriminate.
    + rewrite IH.
      destruct (key_eqb k0 k) eqn:E1; destruct (key_eqb k' k) eqn:E2; try reflexivity.
      rewrite key_eqb_sym in E2. rewrite (key_eqb_trans _ _ _ E1 E2) in E0. discriminate.
Qed.


Lemma fold_pages_ok : forall pages acc,
  Forall (fun p => is_obj p = true /\ hashable (fst (page_fields p)) = true) pages ->
  fold_pages pages acc = Ret (fold_left page_step (map page_fields pages) acc).
Proof.
  induction pages as [|p pages IH]; intros acc H; [reflexivity |].
  apply Forall_cons_iff in H as [[Ho Hh] H].
  destruct p; try discriminate. simpl in Hh |- *. rewrite Hh. apply IH. exact H.
Qed.

Lemma fold_pages_raise : forall pages acc,
  (exists p, In p pages /\ is_obj p = false) -> fold_pages pages acc = Raise.
Proof.
  induction pages as [|p pages IH]; intros acc [q [Hq Ho]]; [destruct Hq |].
  destruct Hq as [-> | Hq].
  - destruct q; try reflexivity. discriminate.
  - simpl. destruct p; try reflexivity.
    destruct (hashable _); [| reflexivity]. apply IH. exists q. split; assumption.
Qed.

Lemma jlookup_fold : forall k es acc,
  jlookup k (fold_left page_step es acc)
    = match find (fun e => key_eqb (fst e) k) (rev es) with
      | Some e => Some (snd e)
      | None => jlookup k acc
      end.
Proof.
  intros k es. induction es as [|e es IH] using rev_ind; intros acc; [reflexivity |].
  rewrite fold_left_app, rev_app_distr. simpl. unfold page_step at 1.
  rewrite jlookup_jset. destruct (key_eqb (fst e) k); [reflexivity |]. apply IH.
Qed.

Lemma jset_nonnil : forall {V} k (v : V) d, jset k v d <> [].
Proof. intros V k v [|[k0 v0] d]; simpl; [discriminate |]. destruct (key_eqb k0 k); discriminate. Qed.

Lemma fold_nonnil : forall es acc, es <> [] -> fold_left page_step es acc <> [].
Proof.
  intros es acc H. destruct es as [|e es] using rev_ind; [contradiction |].
  rewrite fold_left_app. apply jset_nonnil.
Qed.

(** [_get_page_dimensions]: when every page entry is a dict with a
    hashable page number, the dimensions recorded for a page number are
    those of the last entry with that number (width and height default to
    1); with no pages, or a page entry that is not a dict, the result is
    the default [{1: (1, 1)}]. *)
Theorem page_dimensions_last_entry_wins : forall di pages,
  get_d di "pages" (JArr []) = JArr pages ->
  (Forall (fun p => is_obj p = true /\ hashable (fst (page_fields p)) = true) pages ->
   pages <> [] ->
   forall k, jlookup k (_get_page_dimensions di)
     = option_map snd (find (fun e => key_eqb (fst e) k) (rev (map page_fields pages)))) /\
  ((pages = [] \/ exists p, In p pages /\ is_obj p = false) ->
   _get_page_dimensions di = default_dims).
Proof.
  intros di pages Hp. unfold _get_page_dimensions. rewrite Hp. split.
  - intros Hall Hne k. rewrite (fold_pages_ok pages [] Hall).
    destruct (fold_left page_step (map page_fields pages) []) eqn:E.
    + exfalso. refine (fold_nonnil _ [] _ E).
      destruct pages; [contradiction | discriminate].
    + rewrite <- E, jlookup_fold.
      destruct (find _ _); reflexivity.
  - intros [-> | Hbad]; [reflexivity |]. rewrite fold_pages_raise by exact Hbad. reflexivity.
Qed.

Lemma page_dimensions_last_entry_wins_witness :
  jlookup (JNum 1) (_get_page_dimensions Samples.two_page1_keys) = Some (JNum 1000, JNum 500) /\
  _get_page_dimensions [] = default_dims.
Proof.
  split.
  - rewrite (proj1 (page_dimensions_last_entry_wins Samples.two_page1_keys _ eq_refl)).
    + reflexivity.
    + repeat constructor.
    + discriminate.
  - apply (proj2 (page_dimensions_last_entry_wins [] [] eq_refl)). left. reflexivity.
Defined.

End PageDimsProps.

Module MapperProps.
Import PyStr Json Exc Models Mapping MapperSpec MoveFacts.

Ltac peel H :=
  repeat match type of H with
  | context [match ?m with Ret _ => _ | Raise => _ end] =>
    let E := fresh "E" in destruct m eqn:E; [| discriminate H]
  end.

Lemma map_invoice_unpack : forall fl pd di fn sp lang url d,
  map_invoice fl pd di fn sp lang url = Ret d ->
  exists dk fields items,
    di = JObj dk /\ get_fields dk = Ret fields /\
    map_items fl "UnitPrice" "Amount" fields = Ret items /\
    document_type d = of_ascii "invoice" /\
    line_items d = nonempty_or_none items /\
    page_count d = Some (_get_page_count dk) /\
    bounding_boxes d = nonempty_or_none
      (fst (fold_left (invoice_step fields (_get_page_dimensions dk)) invoice_field_mapping ([], []))) /\
    field_confidence d = nonempty_or_none
      (snd (fold_left (invoice_step fields (_get_page_dimensions dk)) invoice_field_mapping ([], []))).
Proof.
  intros fl pd di fn sp lang url d H.
  destruct di as [| | | | | dk]; try discriminate.
  unfold map_invoice, Exc.bind in H.
  destruct (get_fields dk) as [fields|] eqn:Ef; [| discriminate].
  destruct (forallb _ fields); [| discriminate].
  destruct (map_items fl "UnitPrice" "Amount" fields) as [items|] eqn:Ei; [| discriminate].
  peel H.
  destruct (fold_left (invoice_step fields (_get_page_dimensions dk)) invoice_field_mapping ([], [])) as [bb fc] eqn:Efold.
  injection H as <-. exists dk, fields, items. rewrite Efold. repeat split; assumption.
Qed.

Lemma map_receipt_unpack : forall fl pd di fn sp lang url d,
  map_receipt fl pd di fn sp lang url = Ret d ->
  exists dk fields items,
    di = JObj dk /\ get_fields dk = Ret fields /\
    map_items fl "Price" "TotalPrice" fields = Ret items /\
    document_type d = of_ascii "receipt" /\
    line_items d = nonempty_or_none items /\
    page_count d = Some (_get_page_count dk) /\
    bounding_boxes d = nonempty_or_none
      (fst (fold_left (receipt_step fields (_get_page_dimensions dk)) receipt_field_mapping ([], []))) /\
    field_confidence d = nonempty_or_none
      (snd (fold_left (receipt_step fields (_get_page_dimensions dk)) receipt_field_mapping ([], []))).
Proof.
  intros fl pd di fn sp lang url d H.
  destruct di as [| | | | | dk]; try discriminate.
  unfold map_receipt, Exc.bind in H.
  destruct (get_fields dk) as [fields|] eqn:Ef; [| discriminate].
  destruct (map_items fl "Price" "TotalPrice" fields) as [items|] eqn:Ei; [| discriminate].
  peel H.
  destruct (fold_left (receipt_step fields (_get_page_dimensions dk)) receipt_field_mapping ([], [])) as [bb fc] eqn:Efold.
  injection H as <-. exists dk, fields, items. rewrite Efold. repeat split; assumption.
Qed.

Lemma lookup_cons : forall {V} (k c : pystr) (v : V) d,
  lookup ((k, v) :: d) c = if pystr_eqb k c then Some v else lookup d c.
Proof. intros. unfold lookup. simpl. destruct (pystr_eqb k c); reflexivity. Qed.

Lemma lookup_sset : forall {V} (k c : pystr) (v : V) d,
  lookup (sset k v d) c = if pystr_eqb k c then Some v else lookup d c.
Proof.
  intros V k c v d. induction d as [|[k0 v0] d IH]; simpl.
  - apply lookup_cons.
  - destruct (pystr_eqb k0 k) eqn:E0; rewrite !lookup_cons.
    + apply pystr_eqb_eq in E0. subst k0. destruct (pystr_eqb k c); reflexivity.
    + rewrite IH. destruct (pystr_eqb k0 c) eqn:E1; destruct (pystr_eqb k c) eqn:E2;
        try reflexivity.
      apply pystr_eqb_eq in E1, E2. rewrite E1, E2 in E0.
      rewrite (proj2 (pystr_eqb_eq c c) eq_refl) in E0. discriminate.
Qed.

Lemma in_keys_sset : forall {V} (k x : pystr) (v : V) d,
  In x (map fst (sset k v d)) -> x = k \/ In x (map fst d).
Proof.
  intros V k x v d. induction d as [|[k0 v0] d IH]; simpl; intros H.
  - destruct H as [H | []]. left. symmetry. exact H.
  - destruct (pystr_eqb k0 k); simpl in H.
    + right. exact H.
    + destruct H as [H | H]; [right; left; exact H |].
      destruct (IH H) as [H' | H']; [left; exact H' | right; right; exact H'].
Qed.

Lemma nodup_sset : forall {V} (k : pystr) (v : V) d,
  NoDup (map fst d) -> NoDup (map fst (sset k v d)).
Proof.
  intros V k v d. induction d as [|[k0 v0] d IH]; simpl; intros H.
  - constructor; [intros [] | constructor].
  - apply NoDup_cons_iff in H as [Hn H].
    destruct (pystr_eqb k0 k) eqn:E; simpl; constructor; try assumption.
    + intros Hin. apply in_keys_sset in Hin as [Hk | Hin]; [| contradiction].
      rewrite Hk in E. rewrite (proj2 (pystr_eqb_eq k k) eq_refl) in E. discriminate.
    + apply IH. exact H.
Qed.

Lemma forall_sset : forall {V} (P : V -> Prop) (k : pystr) v d,
  P v -> Forall (fun kv => P (snd kv)) d -> Forall (fun kv => P (snd kv)) (sset k v d).
Proof.
  intros V P k v d Hv. induction d as [|[k0 v0] d IH]; simpl; intros H.
  - constructor; [exact Hv | constructor].
  - apply Forall_cons_iff in H as [H0 H].
    destruct (pystr_eqb k0 k); constructor; simpl; auto.
Qed.


Lemma loop_inv_sset : forall {V} canon (k : pystr) (v : V) d,
  In k canon -> NoDup (map fst d) -> incl (map fst d) canon ->
  NoDup (map fst (sset k v d)) /\ incl (map fst (sset k v d)) canon.
Proof.
  intros V canon k v d Hk Hn Hi. split; [apply nodup_sset; exact Hn |].
  intros x Hx. apply in_keys_sset in Hx as [-> | Hx]; [exact Hk | apply Hi; exact Hx].
Qed.

Lemma conf_step_inv : forall canon fv our fc,
  In our canon -> NoDup (map fst fc) -> incl (map fst fc) canon ->
  Forall (fun kv => snd kv <> JNull) fc ->
  let fc' := conf_step fv our fc in
  NoDup (map fst fc') /\ incl (map fst fc') canon /\ Forall (fun kv => snd kv <> JNull) fc'.
Proof.
  intros canon fv our fc Hk Hn Hi Hf fc'. unfold fc', conf_step.
  destruct (skey_in our fc); [auto |].
  destruct (_extract_field_confidence fv) eqn:E; [auto | ..];
    (split; [| split];
     [apply nodup_sset; exact Hn | apply loop_inv_sset; assumption
     | apply (forall_sset (fun v => v <> JNull)); [discriminate | exact Hf]]).
Qed.

Lemma invoice_loop_inv : forall fields pdims mapping st,
  loop_inv (map snd mapping) st ->
  forall pre, (forall m, In m pre -> In m mapping) ->
  loop_inv (map snd mapping) (fold_left (invoice_step fields pdims) pre st).
Proof.
  intros fields pdims mapping st Hst pre. revert st Hst.
  induction pre as [|[az our] pre IH]; intros st Hst Hpre; [exact Hst |].
  simpl. apply IH; [| intros m Hm; apply Hpre; right; exact Hm].
  assert (Hour : In our (map snd mapping)).
  { apply (in_map snd _ (az, our)). apply Hpre. left. reflexivity. }
  destruct st as [bb fc]. destruct Hst as (H1 & H2 & H3 & H4 & H5).
  unfold invoice_step. destruct (lookup fields az) as [fv|]; [| repeat split; assumption].
  destruct (conf_step_inv _ fv our fc Hour H3 H4 H5) as (J1 & J2 & J3).
  unfold loop_inv. simpl. split; [| split]; [| | split; [exact J1 | split; assumption]].
  - destruct (skey_in our bb); [exact H1 |].
    destruct (_extract_bounding_box fv pdims); [apply nodup_sset; exact H1 | exact H1].
  - destruct (skey_in our bb); [exact H2 |].
    destruct (_extract_bounding_box fv pdims); [apply loop_inv_sset; assumption | exact H2].
Qed.

Lemma receipt_loop_inv : forall fields pdims mapping st,
  loop_inv (map snd mapping) st ->
  forall pre, (forall m, In m pre -> In m mapping) ->
  loop_inv (map snd mapping) (fold_left (receipt_step fields pdims) pre st).
Proof.
  intros fields pdims mapping st Hst pre. revert st Hst.
  induction pre as [|[az our] pre IH]; intros st Hst Hpre; [exact Hst |].
  simpl. apply IH; [| intros m Hm; apply Hpre; right; exact Hm].
  assert (Hour : In our (map snd mapping)).
  { apply (in_map snd _ (az, our)). apply Hpre. left. reflexivity. }
  destruct st as [bb fc]. destruct Hst as (H1 & H2 & H3 & H4 & H5).
  unfold receipt_step. destruct (lookup fields az) as [fv|]; [| repeat split; assumption].
  destruct (conf_step_inv _ fv our fc Hour H3 H4 H5) as (J1 & J2 & J3).
  unfold loop_inv. simpl. split; [| split]; [| | split; [exact J1 | split; assumption]].
  - destruct (_extract_bounding_box fv pdims); [apply nodup_sset; exact H1 | exact H1].
  - destruct (_extract_bounding_box fv pdims); [apply loop_inv_sset; assumption | exact H2].
Qed.

Lemma loop_inv_nil : forall canon, loop_inv canon ([], []).
Proof. intros canon. repeat split; try constructor; intros x []. Qed.

Lemma mapM_in : forall {A B} (f : A -> Result B) l l',
  mapM f l = Ret l' -> forall b, In b l' -> exists a, In a l /\ f a = Ret b.
Proof.
  intros A B f l. induction l as [|a l IH]; intros l' H b Hb; simpl in H.
  - injection H as <-. destruct Hb.
  - unfold Exc.bind in H. destruct (f a) as [x|] eqn:Ea; [| discriminate].
    destruct (mapM f l) as [xs|] eqn:Es; [| discriminate].
    injection H as <-. destruct Hb as [<- | Hb].
    + exists a. split; [left; reflexivity | exact Ea].
    + destruct (IH xs eq_refl b Hb) as [a' [Ha' Hf]]. exists a'. split; [right|]; assumption.
Qed.

Lemma map_items_described : forall fl price amount fields items,
  map_items fl price amount fields = Ret items ->
  Forall (fun it => truthy (description it) = true) items.
Proof.
  intros fl price amount fields items H. unfold map_items, Exc.bind in H.
  destruct (match _ with JArr l => Ret l | JObj [] | JStr [] => Ret [] | _ => Raise end)
    as [its|]; [| discriminate].
  destruct (mapM (map_item fl price amount) its) as [mapped|] eqn:Em; [| discriminate].
  injection H as <-. apply Forall_forall. intros it Hit.
  apply in_flat_map in Hit as [o [Ho Hit]].
  destruct o as [x|]; [| destruct Hit]. destruct Hit as [<- | []].
  destruct (mapM_in _ _ _ Em _ Ho) as [a [_ Ha]].
  unfold map_item, Exc.bind in Ha.
  destruct a as [| | | | | ik]; try discriminate.
  destruct (get_d ik "valueObject" (JObj [])) as [| | | | | obj]; try discriminate.
  destruct (get_currency_value fl _); [| discriminate].
  destruct (get_currency_value fl _); [| discriminate].
  destruct (truthy (sub_get obj "Description" "valueString")) eqn:Et; [| discriminate].
  injection Ha as <-. exact Et.
Qed.

Lemma page_count_pos : forall dk, (1 <= _get_page_count dk)%nat.
Proof.
  intros dk. unfold _get_page_count.
  destruct (get_d dk "pages" (JArr [])) as [| | | s | l | l]; try lia;
    destruct s || destruct l; simpl; lia.
Qed.

Lemma nonempty_or_none_ne : forall {A} (l : list A), nonempty_or_none l <> Some [].
Proof. intros A [|x l]; simpl; [discriminate | intros H; discriminate H]. Qed.

Lemma olist_nonempty_or_none : forall {A} (l : list A), olist (nonempty_or_none l) = l.
Proof. intros A [|x l]; reflexivity. Qed.


(** A record returned by [map_invoice] (resp. [map_receipt]) has
    [document_type] ["invoice"] (resp. ["receipt"]), a page count of at
    least 1, no empty [line_items], [bounding_boxes] or
    [field_confidence] (they are [None] instead), only line items with a
    truthy description, box and confidence keys that are distinct
    canonical field names of the mapping, and no null confidence. *)
Theorem mapped_record_shape : forall fl pd di fn sp lang url,
  (forall d, map_invoice fl pd di fn sp lang url = Ret d ->
     document_type d = of_ascii "invoice" /\ record_shape (map snd invoice_field_mapping) d) /\
  (forall d, map_receipt fl pd di fn sp lang url = Ret d ->
     document_type d = of_ascii "receipt" /\ record_shape (map snd receipt_field_mapping) d).
Proof.
  intros fl pd di fn sp lang url. split; intros d H.
  - destruct (map_invoice_unpack _ _ _ _ _ _ _ _ H)
      as (dk & fields & items & _ & _ & Hi & Ht & Hl & Hp & Hb & Hc).
    pose proof (invoice_loop_inv fields (_get_page_dimensions dk) invoice_field_mapping
                  ([], []) (loop_inv_nil _) invoice_field_mapping (fun m Hm => Hm))
      as (I1 & I2 & I3 & I4 & I5).
    split; [exact Ht |]. unfold record_shape.
    rewrite Hl, Hp, Hb, Hc, !olist_nonempty_or_none.
    split; [eexists; split; [reflexivity | apply page_count_pos] |].
    split; [apply nonempty_or_none_ne |].
    split; [apply (map_items_described _ _ _ _ _ Hi) |].
    split; [apply nonempty_or_none_ne |]. split; [apply nonempty_or_none_ne |].
    repeat split; assumption.
  - destruct (map_receipt_unpack _ _ _ _ _ _ _ _ H)
      as (dk & fields & items & _ & _ & Hi & Ht & Hl & Hp & Hb & Hc).
    pose proof (receipt_loop_inv fields (_get_page_dimensions dk) receipt_field_mapping
                  ([], []) (loop_inv_nil _) receipt_field_mapping (fun m Hm => Hm))
      as (I1 & I2 & I3 & I4 & I5).
    split; [exact Ht |]. unfold record_shape.
    rewrite Hl, Hp, Hb, Hc, !olist_nonempty_or_none.
    split; [eexists; split; [reflexivity | apply page_count_pos] |].
    split; [apply nonempty_or_none_ne |].
    split; [apply (map_items_described _ _ _ _ _ Hi) |].
    split; [apply nonempty_or_none_ne |]. split; [apply nonempty_or_none_ne |].
    repeat split; assumption.
Qed.

Lemma first_some_app1 : forall {A} (l : list (option A)) x,
  first_some (l ++ [x]) = match first_some l with Some a => Some a | None => x end.
Proof. intros A l x. induction l as [|[a|] l IH]; simpl; [destruct x | |]; reflexivity || exact IH. Qed.

Lemma candidates_app1 : forall {A} mapping e c (f : pystr -> option A),
  candidates (mapping ++ [e]) c f
    = candidates mapping c f ++ [if pystr_eqb (snd e) c then f (fst e) else None].
Proof. intros. unfold candidates. rewrite map_app. reflexivity. Qed.

Lemma guarded_update : forall {V} (bb : list (pystr * V)) our c (x : option V) l,
  lookup bb c = first_some l ->
  lookup (if skey_in our bb then bb else match x with Some b => sset our b bb | None => bb end) c
    = first_some (l ++ [if pystr_eqb our c then x else None]).
Proof.
  intros V bb our c x l H. rewrite first_some_app1, <- H. unfold skey_in.
  destruct (pystr_eqb our c) eqn:E.
  - apply pystr_eqb_eq in E. subst our. destruct (lookup bb c) eqn:L; [exact L |].
    destruct x; [| exact L]. rewrite lookup_sset, (proj2 (pystr_eqb_eq c c) eq_refl).
    reflexivity.
  - assert (R : lookup (if match lookup bb our with Some _ => true | None => false end then bb
                        else match x with Some b => sset our b bb | None => bb end) c
                = lookup bb c).
    { destruct (lookup bb our); [reflexivity |].
      destruct x; [rewrite lookup_sset, E |]; reflexivity. }
    rewrite R. destruct (lookup bb c); reflexivity.
Qed.

Lemma unguarded_update : forall {V} (bb : list (pystr * V)) our c (x : option V) l,
  lookup bb c = first_some (rev l) ->
  lookup (match x with Some b => sset our b bb | None => bb end) c
    = first_some (rev (l ++ [if pystr_eqb our c then x else None])).
Proof.
  intros V bb our c x l H. rewrite rev_app_distr. simpl rev.
  destruct (pystr_eqb our c) eqn:E.
  - apply pystr_eqb_eq in E. subst our.
    destruct x; simpl; [rewrite lookup_sset, (proj2 (pystr_eqb_eq c c) eq_refl) |];
      [reflexivity | exact H].
  - simpl. destruct x; [rewrite lookup_sset, E |]; exact H.
Qed.

Lemma conf_step_eq : forall fv our fc,
  conf_step fv our fc
    = if skey_in our fc then fc
      else match (match _extract_field_confidence fv with JNull => None | c => Some c end) with
           | Some b => sset our b fc | None => fc end.
Proof. intros. unfold conf_step. destruct (_extract_field_confidence fv); reflexivity. Qed.

Lemma invoice_fold_origin : forall fields pdims mapping c,
  lookup (fst (fold_left (invoice_step fields pdims) mapping ([], []))) c
    = first_some (candidates mapping c (box_of fields pdims)) /\
  lookup (snd (fold_left (invoice_step fields pdims) mapping ([], []))) c
    = first_some (candidates mapping c (conf_of fields)).
Proof.
  intros fields pdims mapping c.
  induction mapping as [|[az our] mapping IH] using rev_ind; [split; reflexivity |].
  rewrite fold_left_app, !candidates_app1. simpl (fst (az, our)). simpl (snd (az, our)).
  destruct (fold_left (invoice_step fields pdims) mapping ([], [])) as [bb fc].
  destruct IH as [IHb IHc]. simpl fst in IHb. simpl snd in IHc.
  cbn [fold_left]. unfold invoice_step.
  replace (box_of fields pdims az) with
    (match lookup fields az with Some fv => _extract_bounding_box fv pdims | None => None end)
    by reflexivity.
  replace (conf_of fields az) with
    (match lookup fields az with
     | Some fv => match _extract_field_confidence fv with JNull => None | x => Some x end
     | None => None end) by reflexivity.
  destruct (lookup fields az) as [fv|].
  - simpl fst. simpl snd. split; [apply guarded_update; exact IHb |].
    rewrite conf_step_eq. apply guarded_update. exact IHc.
  - simpl. rewrite !first_some_app1, <- IHb, <- IHc.
    destruct (pystr_eqb our c), (lookup bb c), (lookup fc c); split; reflexivity.
Qed.

Lemma receipt_fold_origin : forall fields pdims mapping c,
  lookup (fst (fold_left (receipt_step fields pdims) mapping ([], []))) c
    = first_some (rev (candidates mapping c (box_of fields pdims))) /\
  lookup (snd (fold_left (receipt_step fields pdims) mapping ([], []))) c
    = first_some (candidates mapping c (conf_of fields)).
Proof.
  intros fields pdims mapping c.
  induction mapping as [|[az our] mapping IH] using rev_ind; [split; reflexivity |].
  rewrite fold_left_app, !candidates_app1. simpl (fst (az, our)). simpl (snd (az, our)).
  destruct (fold_left (receipt_step fields pdims) mapping ([], [])) as [bb fc].
  destruct IH as [IHb IHc]. simpl fst in IHb. simpl snd in IHc.
  cbn [fold_left]. unfold receipt_step.
  replace (box_of fields pdims az) with
    (match lookup fields az with Some fv => _extract_bounding_box fv pdims | None => None end)
    by reflexivity.
  replace (conf_of fields az) with
    (match lookup fields az with
     | Some fv => match _extract_field_confidence fv with JNull => None | x => Some x end
     | None => None end) by reflexivity.
  destruct (lookup fields az) as [fv|].
  - simpl fst. simpl snd. split; [apply unguarded_update; exact IHb |].
    rewrite conf_step_eq. apply guarded_update. exact IHc.
  - simpl. rewrite rev_app_distr, first_some_app1, <- IHc.
    destruct (pystr_eqb our c); simpl; rewrite <- IHb;
      destruct (lookup fc c); split; reflexivity.
Qed.

(** In [map_invoice] and in the field loop of [process_path_with_llm],
    the bounding box and the confidence recorded for a canonical field
    come from the first provider field of the mapping, in mapping order,
    that is present and yields one. *)
Theorem invoice_and_llm_field_origin :
  (forall fl pd dk fields fn sp lang url d c,
    get_fields dk = Ret fields ->
    map_invoice fl pd (JObj dk) fn sp lang url = Ret d ->
    lookup (olist (bounding_boxes d)) c
      = first_some (candidates invoice_field_mapping c (box_of fields (_get_page_dimensions dk))) /\
    lookup (olist (field_confidence d)) c
      = first_some (candidates invoice_field_mapping c (conf_of fields))) /\
  (forall fields pdims c,
    lookup (fst (Batch.llm_boxes_and_confidences fields pdims)) c
      = first_some (candidates Batch.llm_field_mapping c (box_of fields pdims)) /\
    lookup (snd (Batch.llm_boxes_and_confidences fields pdims)) c
      = first_some (candidates Batch.llm_field_mapping c (conf_of fields))).
Proof.
  split.
  - intros fl pd dk fields fn sp lang url d c Hf H.
    destruct (map_invoice_unpack _ _ _ _ _ _ _ _ H)
      as (dk' & fields' & items & Hdk & Hf' & _ & _ & _ & _ & Hb & Hc).
    injection Hdk as <-. rewrite Hf in Hf'. injection Hf' as <-.
    rewrite Hb, Hc, !olist_nonempty_or_none. apply invoice_fold_origin.
  - intros fields pdims c. apply invoice_fold_origin.
Qed.

(** In [map_receipt] the bounding box recorded for a canonical field
    comes from the last provider field of the mapping that is present and
    yields one (later boxes overwrite earlier ones), while the confidence
    comes from the first one. *)
Theorem receipt_field_origin : forall fl pd dk fields fn sp lang url d c,
  get_fields dk = Ret fields ->
  map_receipt fl pd (JObj dk) fn sp lang url = Ret d ->
  lookup (olist (bounding_boxes d)) c
    = first_some (rev (candidates receipt_field_mapping c (box_of fields (_get_page_dimensions dk)))) /\
  lookup (olist (field_confidence d)) c
    = first_some (candidates receipt_field_mapping c (conf_of fields)).
Proof.
  intros fl pd dk fields fn sp lang url d c Hf H.
  destruct (map_receipt_unpack _ _ _ _ _ _ _ _ H)
    as (dk' & fields' & items & Hdk & Hf' & _ & _ & _ & _ & Hb & Hc).
  injection Hdk as <-. rewrite Hf in Hf'. injection Hf' as <-.
  rewrite Hb, Hc, !olist_nonempty_or_none. apply receipt_fold_origin.
Qed.

Lemma mapped_record_shape_witness :
  (exists d, map_invoice Samples.no_float Samples.no_date (JObj Samples.two_party_keys) [] [] [] None = Ret d /\
     document_type d = of_ascii "invoice" /\ record_shape (map snd invoice_field_mapping) d) /\
  (exists d, map_receipt Samples.no_float Samples.no_date Samples.two_tax_receipt [] [] [] None = Ret d /\
     document_type d = of_ascii "receipt" /\ record_shape (map snd receipt_field_mapping) d).
Proof.
  split.
  - destruct (map_invoice Samples.no_float Samples.no_date (JObj Samples.two_party_keys) [] [] [] None)
      as [d|] eqn:E; [| vm_compute in E; discriminate].
    exists d. split; [reflexivity |].
    exact (proj1 (mapped_record_shape Samples.no_float Samples.no_date _ [] [] [] None) d E).
  - destruct (map_receipt Samples.no_float Samples.no_date Samples.two_tax_receipt [] [] [] None)
      as [d|] eqn:E; [| vm_compute in E; discriminate].
    exists d. split; [reflexivity |].
    exact (proj2 (mapped_record_shape Samples.no_float Samples.no_date _ [] [] [] None) d E).
Defined.

Lemma invoice_and_llm_field_origin_witness :
  (exists d fields,
     get_fields Samples.two_party_keys = Ret fields /\
     map_invoice Samples.no_float Samples.no_date (JObj Samples.two_party_keys) [] [] [] None = Ret d /\
     lookup (olist (field_confidence d)) c_supplier_name
       = first_some (candidates invoice_field_mapping c_supplier_name (conf_of fields)) /\
     first_some (candidates invoice_field_mapping c_supplier_name (conf_of fields))
       = Some (JNum (9 # 10))) /\
  lookup (snd (Batch.llm_boxes_and_confidences [] [])) c_total
    = first_some (candidates Batch.llm_field_mapping c_total (conf_of [])).
Proof.
  split.
  - destruct (map_invoice Samples.no_float Samples.no_date (JObj Samples.two_party_keys) [] [] [] None)
      as [d|] eqn:E; [| vm_compute in E; discriminate].
    destruct (get_fields Samples.two_party_keys) as [fields|] eqn:F; [| vm_compute in F; discriminate].
    exists d, fields. split; [reflexivity |]. split; [reflexivity |].
    split.
    + exact (proj2 (proj1 invoice_and_llm_field_origin Samples.no_float Samples.no_date _ fields
                      [] [] [] None d c_supplier_name F E)).
    + vm_compute in F. injection F as <-. vm_compute. reflexivity.
  - exact (proj2 (proj2 invoice_and_llm_field_origin [] [] c_total)).
Defined.

Lemma receipt_field_origin_witness :
  exists d fields,
    get_fields Samples.two_tax_receipt_keys = Ret fields /\
    map_receipt Samples.no_float Samples.no_date (JObj Samples.two_tax_receipt_keys) [] [] [] None = Ret d /\
    lookup (olist (bounding_boxes d)) c_tax_amount
      = first_some (rev (candidates receipt_field_mapping c_tax_amount
                           (box_of fields (_get_page_dimensions Samples.two_tax_receipt_keys)))) /\
    lookup (olist (field_confidence d)) c_tax_amount
      = first_some (candidates receipt_field_mapping c_tax_amount (conf_of fields)) /\
    lookup (olist (field_confidence d)) c_tax_amount = Some (JNum (9 # 10)).
Proof.
  destruct (map_receipt Samples.no_float Samples.no_date (JObj Samples.two_tax_receipt_keys) [] [] [] None)
    as [d|] eqn:E; [| vm_compute in E; discriminate].
  destruct (get_fields Samples.two_tax_receipt_keys) as [fields|] eqn:F; [| vm_compute in F; discriminate].
  exists d, fields. split; [reflexivity |]. split; [reflexivity |].
  destruct (receipt_field_origin Samples.no_float Samples.no_date _ fields [] [] [] None d c_tax_amount F E)
    as [H1 H2].
  split; [exact H1 |]. split; [exact H2 |].
  vm_compute in E. injection E as <-. vm_compute. reflexivity.
Defined.

End MapperProps.

Module GatewayProps.
Import PyStr Json Gateway GatewaySpec GatewayFacts.

Ltac join_steps E1 F1 E2 F2 :=
  repeat split;
  [ rewrite E1, E2, app_assoc; reflexivity
  | rewrite F2, F1, app_assoc; reflexivity
  | rewrite length_app; lia | rewrite length_app; lia ].


Lemma bounded_mono : forall {A} nr ns nr' ns' (x : M A),
  bounded nr ns x -> (nr <= nr')%nat -> (ns <= ns')%nat -> bounded nr' ns' x.
Proof.
  intros A nr ns nr' ns' x H H1 H2 s. destruct (H s) as (c & z & E1 & E2 & L1 & L2).
  exists c, z. repeat split; auto; lia.
Qed.

Lemma bounded_ret : forall {A} (a : A), bounded 0 0 (ret a).
Proof. intros A a s. exists [], []. simpl. rewrite app_nil_r. auto. Qed.

Lemma bounded_throw : forall {A} e, bounded 0 0 (@throw A e).
Proof. intros A e s. exists [], []. simpl. rewrite app_nil_r. auto. Qed.

Lemma bounded_http : bounded 1 0 http.
Proof.
  intros [p sl]. unfold http. simpl. destruct p as [|r rs].
  - exists [], []. simpl. rewrite app_nil_r. auto.
  - exists [r], []. simpl. rewrite app_nil_r. auto.
Qed.

Lemma bounded_sleep : forall n, bounded 0 1 (sleep n).
Proof. intros n [p sl]. exists [], [n]. simpl. auto. Qed.

Lemma bounded_bind : forall {A B} n1 m1 n2 m2 (x : M A) (k : A -> M B),
  bounded n1 m1 x -> (forall a, bounded n2 m2 (k a)) -> bounded (n1 + n2) (m1 + m2) (bind x k).
Proof.
  intros A B n1 m1 n2 m2 x k Hx Hk s. unfold bind.
  destruct (Hx s) as (c1 & z1 & E1 & F1 & L1 & M1).
  destruct (x s) as [[a|e] s1] eqn:Es; simpl in *.
  - destruct (Hk a s1) as (c2 & z2 & E2 & F2 & L2 & M2).
    exists (c1 ++ c2), (z1 ++ z2). join_steps E1 F1 E2 F2.
  - exists c1, z1. repeat split; auto; lia.
Qed.

Lemma bounded_retry_after_secs : forall r a, bounded 0 0 (retry_after_secs r a).
Proof.
  intros r a. unfold retry_after_secs.
  destruct (retry_after r); [destruct (py_int _) |]; apply bounded_ret || apply bounded_throw.
Qed.

Lemma bounded_raise_for_status : forall r, bounded 0 0 (raise_for_status r).
Proof.
  intros r. unfold raise_for_status. destruct (is_2xx _); [apply bounded_ret | apply bounded_throw].
Qed.

Lemma bounded_json_of : forall r, bounded 0 0 (json_of r).
Proof. intros r. unfold json_of. destruct (body r); [apply bounded_ret | apply bounded_throw]. Qed.

Lemma bounded_in_terminal : forall j, bounded 0 0 (in_terminal j).
Proof. intros j. unfold in_terminal. destruct (hashable j); [apply bounded_ret | apply bounded_throw]. Qed.

Lemma bounded_poll_loop : forall n, bounded n n (poll_loop n).
Proof.
  induction n as [|n IH]; [apply bounded_throw |]. simpl.
  apply (bounded_mono (1 + (0 + (0 + (0 + (0 + n))))) (0 + (0 + (0 + (0 + (1 + n)))))); [| lia | lia].
  apply bounded_bind; [apply bounded_http | intros r].
  apply bounded_bind; [apply bounded_raise_for_status | intros _].
  apply bounded_bind; [apply bounded_json_of | intros data].
  destruct data as [| | | | | dk];
    try (apply (bounded_mono 0 0); [apply bounded_throw | lia | lia]).
  apply bounded_bind; [apply bounded_in_terminal | intros term].
  destruct term; [apply (bounded_mono 0 0); [apply bounded_ret | lia | lia] |].
  apply bounded_bind; [apply bounded_sleep | intros _]. exact IH.
Qed.

Lemma bounded_submit_once : forall m a, bounded 61 61 (submit_once m a).
Proof.
  intros m a. unfold submit_once.
  apply (bounded_mono (1 + (0 + (0 + 60))) (0 + (1 + (0 + 60)))); [| lia | lia].
  apply bounded_bind; [apply bounded_http | intros resp].
  apply (bounded_bind 0 1 (0 + 60) (0 + 60)).
  - destruct ((status_code resp =? 200) || (status_code resp =? 202))%Z;
      [apply (bounded_mono 0 0); [apply bounded_ret | lia | lia] |].
    destruct (status_code resp =? 429)%Z;
      [| apply (bounded_mono 0 0); [apply bounded_ret | lia | lia]].
    apply (bounded_bind 0 0 0 1); [apply bounded_retry_after_secs | intros d].
    destruct (Nat.ltb a (m - 1)); [| apply (bounded_mono 0 0); [apply bounded_ret | lia | lia]].
    apply (bounded_bind 0 1 0 0); [apply bounded_sleep | intros _; apply bounded_ret].
  - intros continued. destruct continued; [apply (bounded_mono 0 0); [apply bounded_ret | lia | lia] |].
    apply (bounded_bind 0 0 60 60);
      [destruct ((status_code resp =? 200) || (status_code resp =? 202))%Z;
         [apply bounded_ret | apply bounded_raise_for_status] | intros _].
    assert (Hf : bounded 60 60 (match body resp with
                                | Some j => ret (Some j)
                                | None => throw RuntimeError
                                end : M (option json))).
    { destruct (body resp); (apply (bounded_mono 0 0); [apply bounded_ret || apply bounded_throw | lia | lia]). }
    destruct (op_location resp) as [u|]; [| exact Hf].
    destruct (truthy (JStr u)); [| exact Hf].
    apply (bounded_bind 60 60 0 0); [apply bounded_poll_loop | intros j; apply bounded_ret].
Qed.

Lemma bounded_attempts : forall m fuel a le, bounded (61 * fuel) (62 * fuel) (attempts m a fuel le).
Proof.
  intros m fuel. induction fuel as [|fuel IH]; intros a le.
  - simpl. destruct le; [apply bounded_throw | apply bounded_ret].
  - intros s. simpl attempts.
    destruct (bounded_submit_once m a s) as (c1 & z1 & E1 & F1 & L1 & M1).
    destruct (submit_once m a s) as [[[j|]|[r| | | | |]] s1]; simpl in E1, F1.
    + exists c1, z1. simpl. repeat split; auto; lia.
    + destruct (IH (S a) le s1) as (c2 & z2 & E2 & F2 & L2 & M2).
      exists (c1 ++ c2), (z1 ++ z2). join_steps E1 F1 E2 F2.
    + assert (Hh : bounded (0 + (0 + 61 * fuel)) (0 + (1 + 62 * fuel))
                     (if ((status_code r =? 429)%Z && Nat.ltb a (m - 1))%bool
                      then retry_after <- retry_after_secs r a ;;
                           sleep retry_after ;;;
                           attempts m (S a) fuel (Some (HTTPStatusError r))
                      else throw (HTTPStatusError r))).
      { destruct (_ && _)%bool.
        - apply bounded_bind; [apply bounded_retry_after_secs | intros d].
          apply bounded_bind; [apply bounded_sleep | intros _; apply IH].
        - apply (bounded_mono 0 0); [apply bounded_throw | lia | lia]. }
      destruct (Hh s1) as (c2 & z2 & E2 & F2 & L2 & M2).
      exists (c1 ++ c2), (z1 ++ z2). join_steps E1 F1 E2 F2.
    + exists c1, z1. simpl. repeat split; auto; lia.
    + exists c1, z1. simpl. repeat split; auto; lia.
    + exists c1, z1. simpl. repeat split; auto; lia.
    + exists c1, z1. simpl. repeat split; auto; lia.
    + exists c1, z1. simpl. repeat split; auto; lia.
Qed.

(** [_post_analyze(max_retries)] consumes the responses of the queue in
    order, at most [61 * max_retries] of them (one submission and at most
    60 polls per attempt), and only appends sleeps, at most
    [62 * max_retries]. *)
Theorem post_analyze_request_bound : forall max_retries s,
  exists consumed added,
    pending s = consumed ++ pending (snd (_post_analyze max_retries s)) /\
    slept (snd (_post_analyze max_retries s)) = slept s ++ added /\
    (List.length consumed <= 61 * max_retries)%nat /\
    (List.length added <= 62 * max_retries)%nat.
Proof. intros m s. apply (bounded_attempts m m 0 None s). Qed.

Lemma accepted_code : forall r,
  (status_code r = 200%Z \/ status_code r = 202%Z) ->
  ((status_code r =? 200) || (status_code r =? 202))%Z = true.
Proof. intros r [-> | ->]; reflexivity. Qed.

Lemma submit_accepted_poll : forall m a r u rest sl,
  (status_code r = 200%Z \/ status_code r = 202%Z) -> op_location r = Some u -> u <> [] ->
  submit_once m a (mkSt (r :: rest) sl)
    = match _poll_operation (mkSt rest sl) with
      | (Val j, s') => (Val (Some j), s')
      | (Err e, s') => (Err e, s')
      end.
Proof.
  intros m a r u rest sl Hc Hu Hne.
  unfold submit_once. remember _poll_operation as P eqn:EP.
  unfold bind at 1, http. simpl. rewrite (accepted_code r Hc). simpl.
  unfold bind at 1, ret at 1. simpl. unfold bind at 1, ret at 1. rewrite Hu.
  destruct u as [|x u']; [contradiction |]. simpl. unfold bind.
  destruct (P (mkSt rest sl)) as [[j|e] s']; reflexivity.
Qed.

Lemma submit_accepted_no_location : forall m a r rest sl,
  (status_code r = 200%Z \/ status_code r = 202%Z) ->
  (op_location r = None \/ op_location r = Some []) ->
  submit_once m a (mkSt (r :: rest) sl)
    = (match body r with Some j => Val (Some j) | None => Err RuntimeError end, mkSt rest sl).
Proof.
  intros m a r rest sl Hc Hu.
  unfold submit_once, bind at 1, http. simpl. rewrite (accepted_code r Hc). simpl.
  unfold bind at 1, ret at 1. simpl. unfold bind at 1, ret at 1.
  destruct Hu as [-> | ->]; simpl; destruct (body r); reflexivity.
Qed.

(** After an accepted submission (200 or 202) with a non-empty
    operation location, the attempt ends with the outcome of
    [_poll_operation]: its result is returned; an error other than an
    HTTP status error propagates unchanged; an HTTP status error of the
    poll raises unless it is a 429 with attempts left; such a 429 retries
    the whole submission after sleeping the retry delay when its
    [Retry-After] is absent or an integer, and raises [ValueError] with no
    sleep and no retry when [Retry-After] is present but not an integer. *)
Theorem accepted_submission_poll_outcome : forall max_retries a fuel last_error r u rest sl,
  (status_code r = 200%Z \/ status_code r = 202%Z) -> op_location r = Some u -> u <> [] ->
  let s0 := mkSt (r :: rest) sl in
  (forall j s', _poll_operation (mkSt rest sl) = (Val j, s') ->
     attempts max_retries a (S fuel) last_error s0 = (Val (Some j), s')) /\
  (forall e s', _poll_operation (mkSt rest sl) = (Err e, s') ->
     (forall p, e <> HTTPStatusError p) ->
     attempts max_retries a (S fuel) last_error s0 = (Err e, s')) /\
  (forall p s', _poll_operation (mkSt rest sl) = (Err (HTTPStatusError p), s') ->
     ((status_code p =? 429)%Z && Nat.ltb a (max_retries - 1))%bool = false ->
     attempts max_retries a (S fuel) last_error s0 = (Err (HTTPStatusError p), s')) /\
  (forall p s' d, _poll_operation (mkSt rest sl) = (Err (HTTPStatusError p), s') ->
     status_code p = 429%Z -> (a < max_retries - 1)%nat -> retry_delay p a = Some d ->
     attempts max_retries a (S fuel) last_error s0
       = attempts max_retries (S a) fuel (Some (HTTPStatusError p))
                  (mkSt (pending s') (slept s' ++ [d]))) /\
  (forall p s' h, _poll_operation (mkSt rest sl) = (Err (HTTPStatusError p), s') ->
     status_code p = 429%Z -> (a < max_retries - 1)%nat ->
     retry_after p = Some h -> py_int h = None ->
     attempts max_retries a (S fuel) last_error s0 = (Err ValueError, s')).
Proof.
  intros m a fuel le r u rest sl Hc Hu Hne s0.
  assert (E : attempts m a (S fuel) le s0
              = match submit_once m a s0 with
                | (Val (Some j), s') => (Val (Some j), s')
                | (Val None, s') => attempts m (S a) fuel le s'
                | (Err (HTTPStatusError r), s') =>
                  (if ((status_code r =? 429)%Z && Nat.ltb a (m - 1))%bool
                   then retry_after <- retry_after_secs r a ;;
                        sleep retry_after ;;;
                        attempts m (S a) fuel (Some (HTTPStatusError r))
                   else throw (HTTPStatusError r)) s'
                | (Err e, s') => (Err e, s')
                end) by reflexivity.
  unfold s0 in E. rewrite (submit_accepted_poll m a r u rest sl Hc Hu Hne) in E.
  unfold s0. rewrite E.
  split; [| split; [| split; [| split]]].
  - intros j s' ->. reflexivity.
  - intros e s' -> He. destruct e; try reflexivity. exfalso. exact (He response eq_refl).
  - intros p s' -> Hf. rewrite Hf. reflexivity.
  - intros p s' d -> H429 Ha Hd. rewrite H429. simpl.
    replace (Nat.ltb a (m - 1)) with true by (symmetry; apply Nat.ltb_lt; exact Ha).
    unfold bind. rewrite (retry_after_secs_ok _ _ _ _ Hd). reflexivity.
  - intros p s' h -> H429 Ha Hh Hp. rewrite H429. simpl.
    replace (Nat.ltb a (m - 1)) with true by (symmetry; apply Nat.ltb_lt; exact Ha).
    unfold bind, retry_after_secs. rewrite Hh, Hp. reflexivity.
Qed.

(** With [max_retries = 0] [_post_analyze] makes no request and returns
    [None]; an accepted submission without an operation location returns
    the response's JSON body, or raises [RuntimeError] when the body is
    not JSON, without any further request or sleep. *)
Theorem post_analyze_edge_cases :
  (forall s, _post_analyze 0 s = (Val None, s)) /\
  (forall max_retries a fuel last_error r rest sl,
    (status_code r = 200%Z \/ status_code r = 202%Z) ->
    (op_location r = None \/ op_location r = Some []) ->
    attempts max_retries a (S fuel) last_error (mkSt (r :: rest) sl)
      = (match body r with Some j => Val (Some j) | None => Err RuntimeError end, mkSt rest sl)).
Proof.
  split.
  - intros s. reflexivity.
  - intros m a fuel le r rest sl Hc Hu. simpl attempts.
    rewrite (submit_accepted_no_location m a r rest sl Hc Hu).
    destruct (body r); reflexivity.
Qed.

Lemma accepted_submission_poll_outcome_witness :
  _poll_operation (mkSt [GatewaySpec.poll_succeeded] [])
    = (Val (JObj [(of_ascii "content", JStr (of_ascii "x"))]), mkSt [] []) /\
  attempts 3 0 3 None (mkSt [GatewaySpec.accepted_202; GatewaySpec.poll_succeeded] [])
    = (Val (Some (JObj [(of_ascii "content", JStr (of_ascii "x"))])), mkSt [] []) /\
  _poll_operation (mkSt [mkResp 429 None None None; GatewaySpec.accepted_202; GatewaySpec.poll_succeeded] [])
    = (Err (HTTPStatusError (mkResp 429 None None None)),
       mkSt [GatewaySpec.accepted_202; GatewaySpec.poll_succeeded] []) /\
  attempts 3 0 3 None
      (mkSt [GatewaySpec.accepted_202; mkResp 429 None None None;
             GatewaySpec.accepted_202; GatewaySpec.poll_succeeded] [])
    = attempts 3 1 2 (Some (HTTPStatusError (mkResp 429 None None None)))
        (mkSt [GatewaySpec.accepted_202; GatewaySpec.poll_succeeded] [1%Z]) /\
  attempts 3 0 3 None
      (mkSt [GatewaySpec.accepted_202; mkResp 429 (Some (of_ascii "soon")) None None;
             GatewaySpec.accepted_202; GatewaySpec.poll_succeeded] [])
    = (Err ValueError, mkSt [GatewaySpec.accepted_202; GatewaySpec.poll_succeeded] []).
Proof.
  assert (P1 : _poll_operation (mkSt [GatewaySpec.poll_succeeded] [])
    = (Val (JObj [(of_ascii "content", JStr (of_ascii "x"))]), mkSt [] [])) by (vm_compute; reflexivity).
  assert (P2 : _poll_operation (mkSt [mkResp 429 None None None; GatewaySpec.accepted_202;
                                      GatewaySpec.poll_succeeded] [])
    = (Err (HTTPStatusError (mkResp 429 None None None)),
       mkSt [GatewaySpec.accepted_202; GatewaySpec.poll_succeeded] [])) by (vm_compute; reflexivity).
  split; [exact P1 |]. split.
  - exact (proj1 (accepted_submission_poll_outcome 3%nat 0%nat 2%nat None GatewaySpec.accepted_202
                    (of_ascii "https://op/1") _ [] (or_intror eq_refl) eq_refl ltac:(discriminate))
                 _ _ P1).
  - split; [exact P2 |].
    split.
    + exact (proj1 (proj2 (proj2 (proj2 (accepted_submission_poll_outcome 3%nat 0%nat 2%nat None
                    GatewaySpec.accepted_202 (of_ascii "https://op/1") _ []
                    (or_intror eq_refl) eq_refl ltac:(discriminate)))))
                 _ _ 1%Z P2 eq_refl ltac:(lia) eq_refl).
    + assert (P3 : _poll_operation (mkSt [mkResp 429 (Some (of_ascii "soon")) None None;
                                          GatewaySpec.accepted_202; GatewaySpec.poll_succeeded] [])
        = (Err (HTTPStatusError (mkResp 429 (Some (of_ascii "soon")) None None)),
           mkSt [GatewaySpec.accepted_202; GatewaySpec.poll_succeeded] [])) by (vm_compute; reflexivity).
      exact (proj2 (proj2 (proj2 (proj2 (accepted_submission_poll_outcome 3%nat 0%nat 2%nat None
                    GatewaySpec.accepted_202 (of_ascii "https://op/1") _ []
                    (or_intror eq_refl) eq_refl ltac:(discriminate)))))
                 _ _ (of_ascii "soon") P3 eq_refl ltac:(lia) eq_refl ltac:(vm_compute; reflexivity)).
Defined.

Lemma post_analyze_edge_cases_witness :
  _post_analyze 0 (mkSt [GatewaySpec.accepted_202] []) = (Val None, mkSt [GatewaySpec.accepted_202] []) /\
  attempts 3 0 2 None (mkSt [mkResp 200 None (Some []) None; GatewaySpec.accepted_202] [])
    = (Err RuntimeError, mkSt [GatewaySpec.accepted_202] []).
Proof.
  split; [apply (proj1 post_analyze_edge_cases) |].
  exact (proj2 post_analyze_edge_cases 3%nat 0%nat 1%nat None (mkResp 200 None (Some []) None) _ []
           (or_introl eq_refl) (or_intror eq_refl)).
Defined.

End GatewayProps.

Module MoveProps.
Import PyStr Json Exc Models PathLib Batch MoveFacts.

Lemma find_free_some : forall w pd st sfx fuel c nm,
  find_free w pd st sfx fuel c = Some nm ->
  exists k, (c <= k)%nat /\ nm = st ++ [95%N] ++ str_nat k ++ sfx /\
            file_exists w (join pd nm) = false.
Proof.
  induction fuel as [|fuel IH]; intros c nm H; simpl in H; [discriminate |].
  simpl app in H. destruct (file_exists w (join pd (st ++ 95%N :: str_nat c ++ sfx))) eqn:E.
  - destruct (IH (S c) nm H) as (k & Hk & -> & Hf). exists k. repeat split; auto; lia.
  - injection H as <-. exists c. auto.
Qed.



Lemma move_body_moves : forall w fp had u,
  let pdir := join (parent fp) (of_ascii "processed") in
  file_exists w fp = true -> mkdir_fails w pdir = false -> file_exists w pdir = false ->
  move_fails w fp = false ->
  exists dest,
    let np := join pdir dest in
    let w' := mkWorld (filter (fun e => negb (pystr_eqb (show_entry e) fp)) (files w)
                       ++ [(pdir, dest)]) (bucket_keys w) (mkdir_fails w) (move_fails w) (cwd w) in
    move_body w fp had u = Ret ((if had then file_prefix ++ np else np), w') /\
    (dest = name fp \/ exists k, (1 <= k)%nat /\
       dest = stem (name fp) ++ [95%N] ++ str_nat k ++ suffix (name fp)) /\
    (file_exists w (join pdir (name fp)) = false -> dest = name fp) /\
    file_exists w np = false.
Proof.
  intros w fp had u pdir He Hm Hp Hmv.
  unfold move_body. rewrite He. simpl negb. cbv iota.
  unfold pdir, parent, name in *. destruct (split_path fp) as [par nm]. simpl fst in *. simpl snd in *.
  rewrite Hm, Hp. simpl orb. cbv iota. rewrite Hmv.
  destruct (file_exists w (join (join par (of_ascii "processed")) nm)) eqn:Ec.
  - destruct (find_free w (join par (of_ascii "processed")) (stem nm) (suffix nm)
                        (S (List.length (files w))) 1) as [d|] eqn:Ef;
      [| exfalso; exact (find_free_total _ _ _ _ Ef)].
    destruct (find_free_some _ _ _ _ _ _ _ Ef) as (k & Hk & Hd & Hfree).
    exists d. repeat split.
    + right. exists k. split; assumption.
    + intros H. congruence.
    + exact Hfree.
  - exists nm. repeat split; auto.
Qed.



End MoveProps.

Module DriverProps.
Import PyStr Json Exc Models PathLib Batch MoveFacts CursorFacts MoveProps.

Lemma move_body_cases : forall w fp had u,
  move_body w fp had u = Ret (u, w) \/ move_body w fp had u = Raise \/
  exists np w', move_body w fp had u = Ret ((if had then file_prefix ++ np else np), w') /\
                file_exists w np = false /\ file_exists w fp = true.
Proof.
  intros w fp had u.
  destruct (file_exists w fp) eqn:He;
    [| left; unfold move_body; rewrite He; reflexivity].
  destruct (mkdir_fails w (join (parent fp) (of_ascii "processed"))) eqn:Hm.
  { right; left. unfold move_body. rewrite He. simpl negb. cbv iota.
    unfold parent in Hm. destruct (split_path fp) as [par nm]. simpl in Hm. rewrite Hm. reflexivity. }
  destruct (file_exists w (join (parent fp) (of_ascii "processed"))) eqn:Hp.
  { right; left. unfold move_body. rewrite He. simpl negb. cbv iota.
    unfold parent in Hm, Hp. destruct (split_path fp) as [par nm]. simpl in Hm, Hp.
    rewrite Hm, Hp. reflexivity. }
  destruct (move_fails w fp) eqn:Hv.
  { right; left. unfold move_body. rewrite He. simpl negb. cbv iota.
    unfold parent in Hm, Hp. destruct (split_path fp) as [par nm]. simpl in Hm, Hp.
    rewrite Hm, Hp. simpl orb. cbv iota zeta. rewrite Hv. reflexivity. }
  destruct (move_body_moves w fp had u He Hm Hp Hv) as (dest & Hb & _ & _ & Hfree).
  right; right. cbv zeta in Hb, Hfree. eexists; eexists. split; [exact Hb |]. split; [exact Hfree | reflexivity].
Qed.

Lemma move_same_path : forall w u,
  fst (_move_to_processed w u) = u -> snd (_move_to_processed w u) = w.
Proof.
  intros w u. unfold _move_to_processed.
  destruct (prefixb file_prefix u) eqn:Hf.
  - destruct (move_body_cases w (skipn 7 u) true u) as [E | [E | (np & w' & E & Hn & Hy)]];
      rewrite E; simpl; auto.
    intros H. exfalso. simpl in H.
    assert (Hnp : np = skipn 7 u) by (rewrite <- H; reflexivity).
    rewrite <- Hnp in Hy. congruence.
  - destruct (prefixb s3_prefix u); [reflexivity |].
    destruct (move_body_cases w u false u) as [E | [E | (np & w' & E & Hn & Hy)]];
      rewrite E; simpl; auto.
    intros H. subst np. congruence.
Qed.

Lemma process_one_specific : forall fl pd quote analyze ld w uri,
  let d := process_specific_one fl pd quote analyze ld uri in
  process_one fl pd quote analyze ld w uri = (d, w) \/
  exists nu w', _move_to_processed w uri = (nu, w') /\ nu <> uri /\
    process_one fl pd quote analyze ld w uri = (with_location d nu (Some (view_url quote nu)), w').
Proof.
  intros fl pd quote analyze ld w uri d. unfold d, process_one, process_body, process_specific_one, bind.
  destruct (analyze uri) as [[[parsed fn] su]|]; [| left; reflexivity].
  destruct (language_of ld parsed) as [lang|]; [| left; reflexivity].
  destruct (Mapping.map_invoice fl pd parsed fn su lang (Some (view_url quote su))) as [mapped|];
    [| left; reflexivity].
  pose proof (move_same_path w uri) as Hsame.
  destruct (_move_to_processed w uri) as [nu w'] eqn:Em. simpl in Hsame.
  destruct (pystr_eqb nu uri) eqn:E.
  - apply pystr_eqb_eq in E. subst nu. rewrite (Hsame eq_refl). left. reflexivity.
  - right. exists nu, w'. repeat split. apply pystr_eqb_false. exact E.
Qed.

(** One iteration of [process_path]'s loop gives the record of
    [process_specific_files] for the same URI, with [source_path] and
    [file_url] replaced by the new location exactly when the file was
    moved, and leaves the world untouched otherwise; on [s3://] URIs the
    loop gives exactly [process_specific_files]'s records and moves
    nothing. *)
Theorem process_path_vs_specific_files :
  (forall fl pd quote analyze ld w uri,
    let d := process_specific_one fl pd quote analyze ld uri in
    process_one fl pd quote analyze ld w uri = (d, w) \/
    exists nu w', _move_to_processed w uri = (nu, w') /\ nu <> uri /\
      process_one fl pd quote analyze ld w uri = (with_location d nu (Some (view_url quote nu)), w')) /\
  (forall fl pd quote analyze ld w uris,
    Forall (fun u => prefixb s3_prefix u = true) uris ->
    process_all fl pd quote analyze ld w uris = (process_specific_files fl pd quote analyze uris ld, w)).
Proof.
  split; [exact process_one_specific |].
  intros fl pd quote analyze ld w uris. induction uris as [|u us IH]; intros H; [reflexivity |].
  apply Forall_cons_iff in H as [Hu H]. cbn [process_all].
  destruct (process_one_specific fl pd quote analyze ld w u) as [E | (nu & w' & Em & Hne & _)].
  - rewrite E, (IH H). reflexivity.
  - rewrite (move_s3 w u Hu) in Em. injection Em as <- _. contradiction.
Qed.

Lemma slice_index_bounds : forall i n, (0 <= n)%Z ->
  (0 <= slice_index i n <= n)%Z.
Proof.
  intros i n Hn. unfold slice_index.
  destruct (Z.ltb_spec i 0); lia.
Qed.

Lemma py_slice_length : forall {A} (l : list A) a b,
  Z.of_nat (List.length (py_slice l a b))
  = Z.max 0 (slice_index b (Z.of_nat (List.length l)) - slice_index a (Z.of_nat (List.length l)))%Z.
Proof.
  intros A l a b. unfold py_slice. rewrite length_firstn, length_skipn.
  pose proof (slice_index_bounds a (Z.of_nat (List.length l)) (Nat2Z.is_nonneg _)).
  pose proof (slice_index_bounds b (Z.of_nat (List.length l)) (Nat2Z.is_nonneg _)).
  lia.
Qed.

Lemma batch_window_length : forall (uris : list pystr) sp bs,
  let n := Z.of_nat (List.length uris) in
  Z.of_nat (List.length (batch_window uris sp bs))
  = Z.max 0 (slice_index (py_min (sp + bs) n) n - slice_index sp n)%Z.
Proof. intros uris sp bs n. unfold batch_window. apply py_slice_length. Qed.

(** [process_path] reports [files_handled = len(uris[starting_point:
    min(starting_point + bulk_size, total_files)])] with Python's slice
    rules on ints: it is the number of records returned; for
    [bulk_size >= 0] it is at most [bulk_size], and for [starting_point >= 0]
    it is
    [max(0, min(starting_point + bulk_size, total_files) - starting_point)],
    so 0 when [starting_point] is at or past the end; and a negative
    [starting_point] with [0 <= starting_point + bulk_size] and
    [bulk_size <= total_files] handles no file at all. *)
Theorem files_handled_bounds : forall fl pd quote analyze w path recursive ld sp bs
    results total handled w',
  process_path fl pd quote analyze w path recursive ld sp bs = Ret (results, total, handled, w') ->
  List.length results = handled /\
  ((0 <= bs)%Z -> (Z.of_nat handled <= bs)%Z) /\
  ((0 <= sp)%Z -> (0 <= bs)%Z -> Z.of_nat handled = Z.max 0 (Z.min (sp + bs) (Z.of_nat total) - sp))%Z /\
  ((sp < 0)%Z -> (0 <= sp + bs)%Z -> (bs <= Z.of_nat total)%Z -> handled = 0%nat).
Proof.
  intros fl pd quote analyze w path recursive ld sp bs results total handled w' H.
  unfold process_path, bind in H.
  destruct (discover w path recursive) as [uris|]; [| discriminate].
  pose proof (DriverFacts.process_all_length fl pd quote analyze ld (batch_window uris sp bs) w) as Hl.
  pose proof (batch_window_length uris sp bs) as Hb. cbv zeta in Hb.
  destruct (process_all fl pd quote analyze ld w (batch_window uris sp bs)) as [res w2].
  injection H as <- <- <- <-. simpl in Hl. rewrite Hl.
  revert Hb. generalize (List.length (batch_window uris sp bs)) as h.
  generalize (List.length uris) as n. intros n h Hb.
  unfold py_min, slice_index in Hb.
  destruct (Z.ltb_spec (Z.of_nat n) (sp + bs)); destruct (Z.ltb_spec sp 0);
    try destruct (Z.ltb_spec (Z.of_nat n) 0);
    try destruct (Z.ltb_spec (sp + bs) 0);
    repeat split; intros; lia.
Qed.

Lemma process_path_vs_specific_files_witness :
  (process_one Samples.no_float Samples.no_date (fun u => u) Samples.analyze_zero_total false
     (Samples.world_ab false false) (of_ascii "file:///in/a.pdf")
   = (process_specific_one Samples.no_float Samples.no_date (fun u => u) Samples.analyze_zero_total
        false (of_ascii "file:///in/a.pdf"), Samples.world_ab false false) \/
   exists nu w', _move_to_processed (Samples.world_ab false false) (of_ascii "file:///in/a.pdf") = (nu, w') /\
     nu <> of_ascii "file:///in/a.pdf" /\
     process_one Samples.no_float Samples.no_date (fun u => u) Samples.analyze_zero_total false
       (Samples.world_ab false false) (of_ascii "file:///in/a.pdf")
     = (with_location (process_specific_one Samples.no_float Samples.no_date (fun u => u)
                         Samples.analyze_zero_total false (of_ascii "file:///in/a.pdf"))
          nu (Some (view_url (fun u => u) nu)), w')) /\
  process_all Samples.no_float Samples.no_date (fun u => u) Samples.analyze_zero_total false
    Samples.world_s3 [of_ascii "s3://b/x.pdf"; of_ascii "s3://b/z.pdf"]
  = (process_specific_files Samples.no_float Samples.no_date (fun u => u) Samples.analyze_zero_total
       [of_ascii "s3://b/x.pdf"; of_ascii "s3://b/z.pdf"] false, Samples.world_s3).
Proof.
  split.
  - exact (proj1 process_path_vs_specific_files Samples.no_float Samples.no_date (fun u => u)
             Samples.analyze_zero_total false (Samples.world_ab false false) (of_ascii "file:///in/a.pdf")).
  - apply (proj2 process_path_vs_specific_files). repeat constructor.
Defined.

Lemma files_handled_bounds_witness :
  exists results total handled w',
    process_path Samples.no_float Samples.no_date (fun u => u) Samples.analyze_zero_total
      Samples.world_s3 (of_ascii "s3://b/") false false (-1) 2 = Ret (results, total, handled, w') /\
    total = 3%nat /\ handled = 0%nat /\
    (List.length results = handled /\
     ((0 <= 2)%Z -> (Z.of_nat handled <= 2)%Z) /\
     ((0 <= -1)%Z -> (0 <= 2)%Z -> Z.of_nat handled = Z.max 0 (Z.min (-1 + 2) (Z.of_nat total) - -1))%Z /\
     ((-1 < 0)%Z -> (0 <= -1 + 2)%Z -> (2 <= Z.of_nat total)%Z -> handled = 0%nat)).
Proof.
  destruct (process_path Samples.no_float Samples.no_date (fun u => u) Samples.analyze_zero_total
              Samples.world_s3 (of_ascii "s3://b/") false false (-1) 2)
    as [[[[results total] handled] w']|] eqn:E; [| vm_compute in E; discriminate].
  exists results, total, handled, w'. split; [reflexivity |].
  assert (Ht : total = 3%nat /\ handled = 0%nat) by (vm_compute in E; injection E; intros; subst; split; reflexivity).
  split; [exact (proj1 Ht) |]. split; [exact (proj2 Ht) |].
  exact (files_handled_bounds _ _ _ _ _ _ _ _ _ _ _ _ _ _ E).
Defined.

End DriverProps.
